(** * JSON codecs for the [Stock] and [Trade] records of [assignment.py]

    The development embeds the two serialization strategies of the module:
    the tagged-dictionary path ([to_dict], [CustomEncoder.default],
    [custom_decoder]) and the schema path ([StockSchema], [TradeSchema],
    [serialize_with_marshmallow], [deserialize_with_marshmallow]), together
    with the parts of the Python standard library they call
    ([decimal.Decimal], [datetime.date], [datetime.datetime]).

    Text is modelled by [string]; the characters the library routines
    inspect (digits, signs, separators, white space) are ASCII. *)

From Stdlib Require Import ZArith NArith List String Ascii Bool Lia.
From Stdlib Require Import DecimalString DecimalN.
Import ListNotations.

Local Open Scope string_scope.
Local Open Scope Z_scope.

Set Warnings "-register-all".

(** * Outcomes of Python calls *)

Inductive exn : Type :=
| KeyError (key : string)
| ValueError
| TypeError (msg : string)
| InvalidOperation
| RecursionError
| ValidationError (messages : list (string * list string)).

Inductive result (A : Type) : Type :=
| Ok (a : A)
| Raise (e : exn).

Arguments Ok {A} a.
Arguments Raise {A} e.

Definition bind {A B : Type} (r : result A) (k : A -> result B) : result B :=
  match r with
  | Ok a => k a
  | Raise e => Raise e
  end.

Notation "'let*' x ':=' r 'in' k" := (bind r (fun x => k))
  (at level 10, x name, r at level 100, k at level 200).

Definition is_ok {A : Type} (r : result A) : bool :=
  match r with Ok _ => true | Raise _ => false end.

(** * Text helpers *)

Module Txt.

Definition is_digit (c : ascii) : bool :=
  match c with
  | "0" | "1" | "2" | "3" | "4" | "5" | "6" | "7" | "8" | "9" => true
  | _ => false
  end%char.

(** White space as [str.strip] sees it (ASCII range). *)
Definition is_space (c : ascii) : bool :=
  match c with
  | " " | "009" | "010" | "011" | "012" | "013"
  | "028" | "029" | "030" | "031" => true
  | _ => false
  end%char.

Definition lower (c : ascii) : ascii :=
  let n := nat_of_ascii c in
  if (Nat.leb 65 n && Nat.leb n 90)%bool then ascii_of_nat (n + 32) else c.

Fixpoint lowercase (s : string) : string :=
  match s with
  | "" => ""
  | String c r => String (lower c) (lowercase r)
  end.

Fixpoint all_digits (s : string) : bool :=
  match s with
  | "" => true
  | String c r => is_digit c && all_digits r
  end.

(** Longest prefix of digits, and what follows it. *)
Fixpoint span_digits (s : string) : string * string :=
  match s with
  | "" => ("", "")
  | String c r =>
      if is_digit c
      then let '(a, b) := span_digits r in (String c a, b)
      else ("", s)
  end.

Fixpoint lstrip0 (s : string) : string :=
  match s with
  | String "0" r => lstrip0 r
  | _ => s
  end.

(** [str(int(s))] for a digit string [s]. *)
Definition str_int_digits (s : string) : string :=
  match lstrip0 s with
  | "" => "0"
  | t => t
  end.

Fixpoint zeros (n : nat) : string :=
  match n with
  | O => ""
  | S k => String "0" (zeros k)
  end.

Fixpoint take (n : nat) (s : string) : string :=
  match n, s with
  | S k, String c r => String c (take k r)
  | _, _ => ""
  end.

Fixpoint drop (n : nat) (s : string) : string :=
  match n, s with
  | S k, String _ r => drop k r
  | _, _ => s
  end.

Fixpoint lstrip (s : string) : string :=
  match s with
  | String c r => if is_space c then lstrip r else s
  | "" => ""
  end.

Fixpoint rstrip (s : string) : string :=
  match s with
  | "" => ""
  | String c r =>
      match rstrip r with
      | "" => if is_space c then "" else String c ""
      | t => String c t
      end
  end.

Definition strip (s : string) : string := lstrip (rstrip s).

Fixpoint remove_char (x : ascii) (s : string) : string :=
  match s with
  | "" => ""
  | String c r => if Ascii.eqb c x then remove_char x r else String c (remove_char x r)
  end.

(** [str(n)] for a natural number and for an integer. *)
Definition str_N (n : N) : string := NilEmpty.string_of_uint (N.to_uint n).

Definition str_Z (z : Z) : string :=
  if z <? 0 then "-" ++ str_N (Z.abs_N z) else str_N (Z.abs_N z).

(** ["%+d" % z]. *)
Definition fmt_plus_d (z : Z) : string :=
  (if z <? 0 then "-" else "+") ++ str_N (Z.abs_N z).

(** [int(s)] for a non-empty string of ASCII digits. *)
Definition int_of_digits (s : string) : option Z :=
  match s with
  | "" => None
  | _ =>
      match NilEmpty.uint_of_string s with
      | Some u => Some (Z.of_N (N.of_uint u))
      | None => None
      end
  end.

(** [int(s)] for [s] matching [[-+]?\d+]. *)
Definition int_of_signed_digits (s : string) : option Z :=
  match s with
  | String "-" r => option_map Z.opp (int_of_digits r)
  | String "+" r => int_of_digits r
  | _ => int_of_digits s
  end.

(** What may follow a maximal run of digits. *)
Definition no_digit_head (s : string) : Prop :=
  match s with
  | "" => True
  | String c _ => is_digit c = false
  end.

(** Text within ASCII: every character is below 128. *)
Definition is_ascii (c : ascii) : bool := Nat.ltb (nat_of_ascii c) 128.

Fixpoint ascii_text (s : string) : bool :=
  match s with
  | "" => true
  | String c r => is_ascii c && ascii_text r
  end.

(** Strings free of white space and of underscores: [strip] and
    [replace("_", "")] leave them alone. *)
Fixpoint plain (s : string) : bool :=
  match s with
  | "" => true
  | String c r => negb (is_space c) && negb (Ascii.eqb c "_") && plain r
  end.

End Txt.

(** * [decimal.Decimal]

    A [Decimal] object is the triple [(_sign, _int, _exp)] of the reference
    implementation: [_int] is the coefficient as a string of digits and
    [_exp] is an integer, or one of the markers ['F'] (infinity), ['n']
    (quiet NaN) and ['N'] (signalling NaN). *)

Module Dec.

Inductive exponent : Type :=
| Exp (e : Z)
| ExpF
| Expn
| ExpN.

Record t : Type := mk { d_sign : bool; d_int : string; d_exp : exponent }.

(** The invariant every [Decimal] object satisfies: the coefficient is a
    digit string without leading zeros (["0"] itself for zero and for the
    infinities, possibly empty for the NaN payload). *)
Definition canonical (d : t) : Prop :=
  Txt.all_digits (d_int d) = true /\
  match d_exp d with
  | Exp _ => d_int d <> "" /\ Txt.str_int_digits (d_int d) = d_int d
  | ExpF => d_int d = "0"
  | Expn | ExpN => Txt.lstrip0 (d_int d) = d_int d
  end.

Definition is_special (d : t) : bool :=
  match d_exp d with Exp _ => false | _ => true end.

Definition is_finite (d : t) : bool := negb (is_special d).

Definition is_nan (d : t) : bool :=
  match d_exp d with Expn | ExpN => true | _ => false end.

(** [Decimal.__str__] (with the default context, [capitals = 1]). *)
Definition str (d : t) : string :=
  let sign := if d_sign d then "-" else "" in
  match d_exp d with
  | ExpF => sign ++ "Infinity"
  | Expn => sign ++ "NaN" ++ d_int d
  | ExpN => sign ++ "sNaN" ++ d_int d
  | Exp e =>
      let len := Z.of_nat (String.length (d_int d)) in
      let leftdigits := e + len in
      let dotplace :=
        if (e <=? 0) && (-6 <? leftdigits) then leftdigits else 1 in
      let '(intpart, fracpart) :=
        if dotplace <=? 0 then
          ("0", "." ++ Txt.zeros (Z.to_nat (- dotplace)) ++ d_int d)
        else if len <=? dotplace then
          (d_int d ++ Txt.zeros (Z.to_nat (dotplace - len)), "")
        else
          (Txt.take (Z.to_nat dotplace) (d_int d),
           "." ++ Txt.drop (Z.to_nat dotplace) (d_int d)) in
      let exp :=
        if leftdigits =? dotplace then ""
        else "E" ++ Txt.fmt_plus_d (leftdigits - dotplace) in
      sign ++ intpart ++ fracpart ++ exp
  end.

(** The numeric-string grammar of [decimal._parser], applied after the sign:
    digits with an optional fraction and an optional exponent. *)
Definition starts_number (s : string) : bool :=
  match s with
  | String c r =>
      Txt.is_digit c ||
      (Ascii.eqb c "." &&
       match r with String c' _ => Txt.is_digit c' | "" => false end)
  | "" => false
  end.

Definition parse_number (s : string) : option (string * string * Z) :=
  if starts_number s then
    let '(intpart, r1) := Txt.span_digits s in
    let '(fracpart, r2) :=
      match r1 with
      | String "." r => Txt.span_digits r
      | _ => ("", r1)
      end in
    match r2 with
    | "" => Some (intpart, fracpart, 0)
    | String c r =>
        if Ascii.eqb (Txt.lower c) "e" then
          match Txt.int_of_signed_digits r with
          | Some e => Some (intpart, fracpart, e)
          | None => None
          end
        else None
    end
  else None.

Definition is_infinity_word (s : string) : bool :=
  let l := Txt.lowercase s in
  String.eqb l "inf" || String.eqb l "infinity".

(** [s?NaN\d*]: the signalling flag and the diagnostic digits. *)
Definition parse_nan (s : string) : option (bool * string) :=
  let l := Txt.lowercase s in
  let '(signal, r) :=
    match l with
    | String "s" r => (true, r)
    | _ => (false, l)
    end in
  if String.eqb (Txt.take 3 r) "nan" && Txt.all_digits (Txt.drop 3 r)
  then Some (signal, Txt.drop 3 r)
  else None.

(** The optional sign [[-+]?] in front of a numeric string. *)
Definition split_sign (s : string) : bool * string :=
  match s with
  | String "-" r => (true, r)
  | String "+" r => (false, r)
  | _ => (false, s)
  end.

(** [Decimal(value)] for a [str] argument within ASCII.  A string outside
    the grammar signals [ConversionSyntax], which the default context raises
    as [decimal.InvalidOperation]. *)
Definition of_str (value : string) : result t :=
  let s := Txt.remove_char "_" (Txt.strip value) in
  let '(sign, body) := split_sign s in
  match parse_number body with
  | Some (intpart, fracpart, e) =>
      Ok (mk sign (Txt.str_int_digits (intpart ++ fracpart))
                  (Exp (e - Z.of_nat (String.length fracpart))))
  | None =>
      if is_infinity_word body then Ok (mk sign "0" ExpF)
      else
        match parse_nan body with
        | Some (signal, diag) =>
            Ok (mk sign
                  (Txt.lstrip0
                     (Txt.str_int_digits (if String.eqb diag "" then "0" else diag)))
                  (if signal then ExpN else Expn))
        | None => Raise InvalidOperation
        end
  end.

(** [Decimal(value)] for an [int] argument. *)
Definition of_int (z : Z) : t :=
  mk (z <? 0) (Txt.str_N (Z.abs_N z)) (Exp 0).

(** [format(d, "f")]: fixed-point notation, never an exponent. *)
Definition format_f (d : t) : string :=
  let sign := if d_sign d then "-" else "" in
  match d_exp d with
  | ExpF => sign ++ "Infinity"
  | Expn => sign ++ "NaN" ++ d_int d
  | ExpN => sign ++ "sNaN" ++ d_int d
  | Exp e0 =>
      (* a zero with a positive exponent is rescaled to exponent 0 *)
      let e := if String.eqb (d_int d) "0" && (0 <? e0) then 0 else e0 in
      let len := Z.of_nat (String.length (d_int d)) in
      let dotplace := e + len in
      let '(intpart, fracpart) :=
        if dotplace <? 0 then
          ("0", Txt.zeros (Z.to_nat (- dotplace)) ++ d_int d)
        else if len <? dotplace then
          (d_int d ++ Txt.zeros (Z.to_nat (dotplace - len)), "")
        else
          (match Txt.take (Z.to_nat dotplace) (d_int d) with
           | "" => "0"
           | p => p
           end,
           Txt.drop (Z.to_nat dotplace) (d_int d)) in
      sign ++ intpart ++
      (if String.eqb fracpart "" then "" else "." ++ fracpart)
  end.

(** [Decimal.__bool__], [Decimal.adjusted] and [Decimal.__eq__]
    (through [_cmp]): equality of numeric value; a NaN equals nothing. *)
Definition nonzero (d : t) : bool :=
  is_special d || negb (String.eqb (d_int d) "0").

Definition eq (a b : t) : bool :=
  if is_nan a || is_nan b then false
  else
    match d_exp a, d_exp b with
    | Exp ea, Exp eb =>
        if negb (nonzero a) then negb (nonzero b)
        else if negb (nonzero b) then false
        else if negb (Bool.eqb (d_sign a) (d_sign b)) then false
        else
          let adj_a := ea + Z.of_nat (String.length (d_int a)) - 1 in
          let adj_b := eb + Z.of_nat (String.length (d_int b)) - 1 in
          (adj_a =? adj_b) &&
          String.eqb (d_int a ++ Txt.zeros (Z.to_nat (ea - eb)))
                     (d_int b ++ Txt.zeros (Z.to_nat (eb - ea)))
    | ExpF, ExpF => Bool.eqb (d_sign a) (d_sign b)
    | _, _ => false
    end.

(** The pieces a printed finite number is made of. *)
Definition frac_text (f : option string) : string :=
  match f with Some fp => "." ++ fp | None => "" end.

Definition exp_text (e : option Z) : string :=
  match e with Some z => "E" ++ Txt.fmt_plus_d z | None => "" end.

Definition sign_text (sg : bool) : string := if sg then "-" else "".

Definition frac_of (f : option string) : string :=
  match f with Some fp => fp | None => "" end.

Definition exp_of (e : option Z) : Z :=
  match e with Some z => z | None => 0 end.

(** Plain positional notation: an optional minus sign, digits, and
    possibly a point followed by digits. *)
Definition positional (s : string) : bool :=
  let body := match s with String "-" r => r | _ => s end in
  let '(intpart, rest) := Txt.span_digits body in
  negb (String.eqb intpart "") &&
  match rest with
  | "" => true
  | String "." f => negb (String.eqb f "") && Txt.all_digits f
  | _ => false
  end.

End Dec.

(** * [datetime.date] and [datetime.datetime]

    A [date] holds year, month and day; a [datetime] adds the time of day
    and the UTC offset of its [tzinfo] in microseconds ([None] for a naive
    value).  The [fold] attribute, which neither [isoformat] nor equality
    looks at, is left out. *)

Module Cal.

Record date : Type := mkdate { year : Z; month : Z; day : Z }.

Record datetime : Type := mkdatetime {
  dt_year : Z; dt_month : Z; dt_day : Z;
  hour : Z; minute : Z; second : Z; microsecond : Z;
  utcoffset : option Z
}.

Definition is_leap (y : Z) : bool :=
  (y mod 4 =? 0) && (negb (y mod 100 =? 0) || (y mod 400 =? 0)).

Definition DAYS_IN_MONTH : list Z :=
  [-1; 31; 28; 31; 30; 31; 30; 31; 31; 30; 31; 30; 31].

Definition days_in_month (y m : Z) : Z :=
  if (m =? 2) && is_leap y then 29
  else nth (Z.to_nat m) DAYS_IN_MONTH (-1).

(** [_check_date_fields], [_check_time_fields] and the range test of
    [timezone(offset)]: what the constructors accept. *)
Definition check_date_fields (y m d : Z) : bool :=
  (1 <=? y) && (y <=? 9999) && (1 <=? m) && (m <=? 12) &&
  (1 <=? d) && (d <=? days_in_month y m).

Definition check_time_fields (hh mm ss us : Z) : bool :=
  (0 <=? hh) && (hh <=? 23) && (0 <=? mm) && (mm <=? 59) &&
  (0 <=? ss) && (ss <=? 59) && (0 <=? us) && (us <=? 999999).

Definition day_us : Z := 86400000000.

Definition check_offset (off : option Z) : bool :=
  match off with
  | None => true
  | Some o => (- day_us <? o) && (o <? day_us)
  end.

Definition valid_date (d : date) : Prop :=
  check_date_fields (year d) (month d) (day d) = true.

Definition valid_datetime (t : datetime) : Prop :=
  check_date_fields (dt_year t) (dt_month t) (dt_day t) = true /\
  check_time_fields (hour t) (minute t) (second t) (microsecond t) = true /\
  check_offset (utcoffset t) = true.

(** An offset ISO 8601 can write: a whole number of minutes. *)
Definition iso_offset (t : datetime) : Prop :=
  match utcoffset t with
  | None => True
  | Some o => o mod 60000000 = 0
  end.

Definition digit_char (d : Z) : ascii :=
  match d with
  | 0 => "0" | 1 => "1" | 2 => "2" | 3 => "3" | 4 => "4"
  | 5 => "5" | 6 => "6" | 7 => "7" | 8 => "8" | _ => "9"
  end%char.

Definition digit_val (c : ascii) : option Z :=
  if Txt.is_digit c then Some (Z.of_nat (nat_of_ascii c) - 48) else None.

(** The last [w] decimal digits of [n]. *)
Fixpoint fixed_digits (w : nat) (n : Z) : string :=
  match w with
  | O => ""
  | S k => fixed_digits k (n / 10) ++ String (digit_char (n mod 10)) ""
  end.

(** ["%0wd" % n] for [n >= 0]: at least [w] digits, padded with zeros. *)
Definition fmt_0d (w : nat) (n : Z) : string :=
  if n <? 10 ^ Z.of_nat w then fixed_digits w n else Txt.str_N (Z.to_N n).

(** [date.isoformat]. *)
Definition date_isoformat (d : date) : string :=
  fmt_0d 4 (year d) ++ "-" ++ fmt_0d 2 (month d) ++ "-" ++ fmt_0d 2 (day d).

(** [_format_time] with [timespec = 'auto']. *)
Definition format_time (hh mm ss us : Z) : string :=
  fmt_0d 2 hh ++ ":" ++ fmt_0d 2 mm ++ ":" ++ fmt_0d 2 ss ++
  (if us =? 0 then "" else "." ++ fmt_0d 6 us).

(** [_format_offset]: the digits after the sign, for the absolute value
    [a] of the offset, then the whole. *)
Definition offset_body (a : Z) : string :=
  let hh := a / 3600000000 in
  let r := a mod 3600000000 in
  let mm := r / 60000000 in
  let ss := r mod 60000000 in
  fmt_0d 2 hh ++ ":" ++ fmt_0d 2 mm ++
  (if ss =? 0 then ""
   else ":" ++ fmt_0d 2 (ss / 1000000) ++
        (if ss mod 1000000 =? 0 then ""
         else "." ++ fmt_0d 6 (ss mod 1000000))).

Definition format_offset (off : option Z) : string :=
  match off with
  | None => ""
  | Some o => (if o <? 0 then "-" else "+") ++ offset_body (Z.abs o)
  end.

(** [datetime.isoformat(sep)]. *)
Definition datetime_isoformat (sep : ascii) (t : datetime) : string :=
  fmt_0d 4 (dt_year t) ++ "-" ++ fmt_0d 2 (dt_month t) ++ "-" ++
  fmt_0d 2 (dt_day t) ++ String sep "" ++
  format_time (hour t) (minute t) (second t) (microsecond t) ++
  format_offset (utcoffset t).

(** ** Reference parsers

    [fromisoformat] is specified as the inverse of [isoformat]; which other
    spellings it accepts depends on the interpreter.  The parsers below read
    the format documented since Python 3.7,
    [YYYY-MM-DD[*HH[:MM[:SS[.fff[fff]]]][+HH:MM[:SS[.ffffff]]]]], and serve as
    the concrete instance of that contract. *)

Fixpoint digits_value (acc : Z) (s : string) : option Z :=
  match s with
  | "" => Some acc
  | String c r =>
      match digit_val c with
      | Some d => digits_value (10 * acc + d) r
      | None => None
      end
  end.

(** Exactly [w] digits at the head of [s]. *)
Definition read_digits (w : nat) (s : string) : option (Z * string) :=
  if Nat.ltb (String.length s) w then None
  else
    match digits_value 0 (Txt.take w s) with
    | Some n => Some (n, Txt.drop w s)
    | None => None
    end.

Definition read_char (c : ascii) (s : string) : option string :=
  match s with
  | String x r => if Ascii.eqb x c then Some r else None
  | "" => None
  end.

Definition parse_date_fields (s : string) : option (Z * Z * Z) :=
  match read_digits 4 s with
  | Some (y, r1) =>
      match read_char "-" r1 with
      | Some r2 =>
          match read_digits 2 r2 with
          | Some (m, r3) =>
              match read_char "-" r3 with
              | Some r4 =>
                  match read_digits 2 r4 with
                  | Some (d, "") => Some (y, m, d)
                  | _ => None
                  end
              | None => None
              end
          | None => None
          end
      | None => None
      end
  | None => None
  end.

Definition parse_date (s : string) : option date :=
  match parse_date_fields s with
  | Some (y, m, d) =>
      if check_date_fields y m d then Some (mkdate y m d) else None
  | None => None
  end.

(** [HH[:MM[:SS[.fff[fff]]]]]. *)
Definition parse_fraction (f : string) : option Z :=
  match String.length f with
  | 3%nat => option_map (Z.mul 1000) (digits_value 0 f)
  | 6%nat => digits_value 0 f
  | _ => None
  end.

Definition parse_hh_mm_ss_ff (s : string) : option (Z * Z * Z * Z) :=
  match read_digits 2 s with
  | Some (hh, "") => Some (hh, 0, 0, 0)
  | Some (hh, String ":" r1) =>
      match read_digits 2 r1 with
      | Some (mm, "") => Some (hh, mm, 0, 0)
      | Some (mm, String ":" r2) =>
          match read_digits 2 r2 with
          | Some (ss, "") => Some (hh, mm, ss, 0)
          | Some (ss, String "." f) =>
              match parse_fraction f with
              | Some us => Some (hh, mm, ss, us)
              | None => None
              end
          | _ => None
          end
      | _ => None
      end
  | _ => None
  end.

(** Position of the first occurrence of [c], as [str.find] counts it. *)
Fixpoint find_char (c : ascii) (s : string) : option nat :=
  match s with
  | "" => None
  | String x r =>
      if Ascii.eqb x c then Some O else option_map S (find_char c r)
  end.

Definition parse_offset (negative : bool) (s : string) : option (option Z) :=
  match String.length s with
  | 5%nat | 8%nat | 15%nat =>
      match parse_hh_mm_ss_ff s with
      | Some (hh, mm, ss, us) =>
          let td := ((hh * 60 + mm) * 60 + ss) * 1000000 + us in
          let o := if negative then - td else td in
          if check_offset (Some o) then Some (Some o) else None
      | None => None
      end
  | _ => None
  end.

Definition parse_isoformat_time (s : string)
  : option (Z * Z * Z * Z * option Z) :=
  let tz_pos :=
    match find_char "-" s with
    | Some i => Some (i, true)
    | None =>
        match find_char "+" s with
        | Some i => Some (i, false)
        | None => None
        end
    end in
  match tz_pos with
  | Some (i, negative) =>
      match parse_hh_mm_ss_ff (Txt.take i s),
            parse_offset negative (Txt.drop (S i) s) with
      | Some (hh, mm, ss, us), Some off => Some (hh, mm, ss, us, off)
      | _, _ => None
      end
  | None =>
      match parse_hh_mm_ss_ff s with
      | Some (hh, mm, ss, us) => Some (hh, mm, ss, us, None)
      | None => None
      end
  end.

Definition parse_datetime (s : string) : option datetime :=
  match parse_date_fields (Txt.take 10 s) with
  | Some (y, m, d) =>
      let time :=
        match Txt.drop 11 s with
        | "" => if Nat.eqb (String.length s) 10 then Some (0, 0, 0, 0, None) else None
        | t => parse_isoformat_time t
        end in
      match time with
      | Some (hh, mm, ss, us, off) =>
          if check_date_fields y m d && check_time_fields hh mm ss us
          then Some (mkdatetime y m d hh mm ss us off)
          else None
      | None => None
      end
  | None => None
  end.

(** Text without a sign character: where no UTC offset can start. *)
Fixpoint no_sign (s : string) : bool :=
  match s with
  | "" => true
  | String c r =>
      negb (Ascii.eqb c "-") && negb (Ascii.eqb c "+") && no_sign r
  end.

End Cal.

(** * The records of [assignment.py]

    [Stock] and [Trade] store whatever their constructor is given; the
    record types are therefore parametric in the type [V] of Python values
    and instantiated at [value] below. *)

Module Stock.

Record t (V : Type) : Type := init {
  symbol : V;
  date : V;
  open : V;
  high : V;
  low : V;
  close : V;
  volume : V
}.

Arguments init {V}.
Arguments symbol {V}.
Arguments date {V}.
Arguments open {V}.
Arguments high {V}.
Arguments low {V}.
Arguments close {V}.
Arguments volume {V}.

End Stock.

Module Trade.

Record t (V : Type) : Type := init {
  symbol : V;
  timestamp : V;
  order : V;
  price : V;
  volume : V;
  commission : V
}.

Arguments init {V}.
Arguments symbol {V}.
Arguments timestamp {V}.
Arguments order {V}.
Arguments price {V}.
Arguments volume {V}.
Arguments commission {V}.

End Trade.

(** Field declarations of a marshmallow schema. *)
Module fields.

Inductive t : Type :=
| Str
| Date
| DateTime
| Decimal (as_string : bool)
| Integer.

Record field : Type := mk { ty : t; required : bool }.

End fields.

Section Codec.

(** Binary floating-point numbers are opaque: what JSON numbers with a
    fraction become.  No claim depends on their arithmetic. *)
Context {pyfloat : Type}.

(** ** Python values *)

Inductive value : Type :=
| VNone
| VBool (b : bool)
| VInt (z : Z)
| VFloat (f : pyfloat)
| VStr (s : string)
| VList (l : list value)
| VDict (d : list (string * value))
| VDate (d : Cal.date)
| VDateTime (t : Cal.datetime)
| VDecimal (d : Dec.t)
| VStock (s : Stock.t value)
| VTrade (t : Trade.t value)
| VObject (cls : string).

(** A [dict] whose keys are text, in insertion order: the mappings that
    [to_dict] builds and that JSON objects decode to.  Mappings with keys
    of another type are not represented. *)
Definition dict : Type := list (string * value).

Fixpoint lookup (d : dict) (k : string) : option value :=
  match d with
  | [] => None
  | (k', v) :: r => if String.eqb k' k then Some v else lookup r k
  end.

(** [k in d] and [d[k]]. *)
Definition contains (d : dict) (k : string) : bool :=
  match lookup d k with Some _ => true | None => false end.

Definition getitem (d : dict) (k : string) : result value :=
  match lookup d k with
  | Some v => Ok v
  | None => Raise (KeyError k)
  end.

(** [d[k] = v]: a present key keeps its position. *)
Fixpoint dict_set (d : dict) (k : string) (v : value) : dict :=
  match d with
  | [] => [(k, v)]
  | (k', v') :: r =>
      if String.eqb k' k then (k, v) :: r else (k', v') :: dict_set r k v
  end.

Definition dict_of_pairs (pairs : list (string * value)) : dict :=
  fold_left (fun d kv => dict_set d (fst kv) (snd kv)) pairs [].

(** [v == s] for a string literal [s]. *)
Definition eq_str (v : value) (s : string) : bool :=
  match v with
  | VStr x => String.eqb x s
  | _ => false
  end.

(** [type(v).__name__]. *)
Definition type_name (v : value) : string :=
  match v with
  | VNone => "NoneType"
  | VBool _ => "bool"
  | VInt _ => "int"
  | VFloat _ => "float"
  | VStr _ => "str"
  | VList _ => "list"
  | VDict _ => "dict"
  | VDate _ => "date"
  | VDateTime _ => "datetime"
  | VDecimal _ => "Decimal"
  | VStock _ => "Stock"
  | VTrade _ => "Trade"
  | VObject cls => cls
  end.

(** ** What the development leaves to the libraries

    The behaviour of the interpreter and of the schema engine outside the
    fragment modelled here: [str] of floats, containers and foreign
    objects; [Decimal] built from a float or from a sequence; the ISO 8601
    parsers of [datetime] and of marshmallow; marshmallow's coercion of JSON
    values that do not have the wire type of their field, and its
    serialization of attributes that do not have the type of their field;
    what [Decimal] makes of text with characters beyond ASCII (Unicode
    digits, Unicode white space); the [repr] of a foreign class, which
    shows its module. *)

Class Library : Type := {
  str_other : value -> string;
  Decimal_from_float : pyfloat -> Dec.t;
  Decimal_from_sequence : list value -> result Dec.t;
  Decimal_from_unicode : string -> option Dec.t;
  class_repr : string -> string;
  date_fromisoformat : string -> option Cal.date;
  datetime_fromisoformat : string -> option Cal.datetime;
  from_iso_date : string -> option Cal.date;
  from_iso_datetime : string -> option Cal.datetime;
  lenient_load : fields.t -> value -> option value;
  dump_other : fields.t -> value -> result value
}.

Context {lib : Library}.

(** The documented contract of the ISO parsers: they invert [isoformat]. *)
Record LibraryContract : Prop := {
  date_fromisoformat_isoformat :
    forall d, Cal.valid_date d ->
      date_fromisoformat (Cal.date_isoformat d) = Some d;
  datetime_fromisoformat_isoformat :
    forall t, Cal.valid_datetime t -> Cal.iso_offset t ->
      datetime_fromisoformat (Cal.datetime_isoformat "T" t) = Some t;
  from_iso_date_isoformat :
    forall d, Cal.valid_date d ->
      from_iso_date (Cal.date_isoformat d) = Some d;
  from_iso_datetime_isoformat :
    forall t, Cal.valid_datetime t -> Cal.iso_offset t ->
      from_iso_datetime (Cal.datetime_isoformat "T" t) = Some t
}.

(** [str(v)].  For a [Stock] or a [Trade] it is the [__repr__] of the
    class, an f-string over the attributes. *)
Fixpoint py_str (v : value) : string :=
  match v with
  | VNone => "None"
  | VBool true => "True"
  | VBool false => "False"
  | VInt z => Txt.str_Z z
  | VStr s => s
  | VDate d => Cal.date_isoformat d
  | VDateTime t => Cal.datetime_isoformat " " t
  | VDecimal d => Dec.str d
  | VStock self =>
      "Stock(symbol=" ++ py_str (Stock.symbol self) ++
      ", date=" ++ py_str (Stock.date self) ++
      ", open=" ++ py_str (Stock.open self) ++
      ", high=" ++ py_str (Stock.high self) ++
      ", low=" ++ py_str (Stock.low self) ++
      ", close=" ++ py_str (Stock.close self) ++
      ", volume=" ++ py_str (Stock.volume self) ++ ")"
  | VTrade self =>
      "Trade(symbol=" ++ py_str (Trade.symbol self) ++
      ", timestamp=" ++ py_str (Trade.timestamp self) ++
      ", order=" ++ py_str (Trade.order self) ++
      ", price=" ++ py_str (Trade.price self) ++
      ", volume=" ++ py_str (Trade.volume self) ++
      ", commission=" ++ py_str (Trade.commission self) ++ ")"
  | _ => str_other v
  end.

(** [repr(type(v))]. *)
Definition type_repr (v : value) : string :=
  match v with
  | VObject cls => class_repr cls
  | VDate _ => "<class 'datetime.date'>"
  | VDateTime _ => "<class 'datetime.datetime'>"
  | VDecimal _ => "<class 'decimal.Decimal'>"
  | VStock _ => "<class 'assignment.Stock'>"
  | VTrade _ => "<class 'assignment.Trade'>"
  | _ => "<class '" ++ type_name v ++ "'>"
  end.

(** [Decimal(s)] for text.  [Dec.of_str] is the grammar over ASCII; text it
    refuses is refused if it is ASCII, and is left to the library if it is
    not.  Every refusal is [decimal.InvalidOperation]. *)
Definition Decimal_from_str (s : string) : result Dec.t :=
  match Dec.of_str s with
  | Ok d => Ok d
  | Raise e =>
      if Txt.ascii_text s then Raise e
      else
        match Decimal_from_unicode s with
        | Some d => Ok d
        | None => Raise InvalidOperation
        end
  end.

(** [Decimal(v)]. *)
Definition Decimal_new (v : value) : result Dec.t :=
  match v with
  | VStr s => Decimal_from_str s
  | VInt z => Ok (Dec.of_int z)
  | VBool b => Ok (Dec.of_int (if b then 1 else 0))
  | VDecimal d => Ok d
  | VFloat f => Ok (Decimal_from_float f)
  | VList l => Decimal_from_sequence l
  | _ =>
      Raise (TypeError
               ("conversion from " ++ type_name v ++ " to Decimal is not supported"))
  end.

(** [date.fromisoformat(v)] and [datetime.fromisoformat(v)]. *)
Definition date_fromisoformat_value (v : value) : result Cal.date :=
  match v with
  | VStr s =>
      match date_fromisoformat s with
      | Some d => Ok d
      | None => Raise ValueError
      end
  | _ => Raise (TypeError "fromisoformat: argument must be str")
  end.

Definition datetime_fromisoformat_value (v : value) : result Cal.datetime :=
  match v with
  | VStr s =>
      match datetime_fromisoformat s with
      | Some t => Ok t
      | None => Raise ValueError
      end
  | _ => Raise (TypeError "fromisoformat: argument must be str")
  end.

(** ** [Stock.to_dict] and [Trade.to_dict] *)

Definition Stock_to_dict (self : Stock.t value) : dict :=
  [ ("__type__", VStr "Stock");
    ("symbol", Stock.symbol self);
    ("date",
      match Stock.date self with
      | VDate d => VStr (Cal.date_isoformat d)
      | VDateTime t => VStr (Cal.datetime_isoformat "T" t)
      | v => v
      end);
    ("open", VStr (py_str (Stock.open self)));
    ("high", VStr (py_str (Stock.high self)));
    ("low", VStr (py_str (Stock.low self)));
    ("close", VStr (py_str (Stock.close self)));
    ("volume", Stock.volume self) ].

Definition Trade_to_dict (self : Trade.t value) : dict :=
  [ ("__type__", VStr "Trade");
    ("symbol", Trade.symbol self);
    ("timestamp",
      match Trade.timestamp self with
      | VDateTime t => VStr (Cal.datetime_isoformat "T" t)
      | v => v
      end);
    ("order", Trade.order self);
    ("price", VStr (py_str (Trade.price self)));
    ("volume", Trade.volume self);
    ("commission", VStr (py_str (Trade.commission self))) ].

(** ** [CustomEncoder.default] *)

(** [json.JSONEncoder.default]: the base class refuses every object. *)
Definition JSONEncoder_default (obj : value) : result value :=
  Raise (TypeError ("Object of type " ++ type_name obj ++ " is not JSON serializable")).

Definition CustomEncoder_default (obj : value) : result value :=
  match obj with
  | VStock s => Ok (VDict (Stock_to_dict s))
  | VTrade t => Ok (VDict (Trade_to_dict t))
  | VDateTime t => Ok (VStr (Cal.datetime_isoformat "T" t))
  | VDate d => Ok (VStr (Cal.date_isoformat d))
  | VDecimal d => Ok (VStr (Dec.str d))
  | _ => JSONEncoder_default obj
  end.

(** ** [custom_decoder] *)

Definition custom_decoder (dct : dict) : result value :=
  if contains dct "__type__" then
    let* tag := getitem dct "__type__" in
    if eq_str tag "Stock" then
      let* date_text := getitem dct "date" in
      let* dt := date_fromisoformat_value date_text in
      let* symbol := getitem dct "symbol" in
      let* open_text := getitem dct "open" in
      let* open_ := Decimal_new open_text in
      let* high_text := getitem dct "high" in
      let* high := Decimal_new high_text in
      let* low_text := getitem dct "low" in
      let* low := Decimal_new low_text in
      let* close_text := getitem dct "close" in
      let* close := Decimal_new close_text in
      let* volume := getitem dct "volume" in
      Ok (VStock (Stock.init symbol (VDate dt) (VDecimal open_) (VDecimal high)
                             (VDecimal low) (VDecimal close) volume))
    else if eq_str tag "Trade" then
      let* ts_text := getitem dct "timestamp" in
      let* ts := datetime_fromisoformat_value ts_text in
      let* symbol := getitem dct "symbol" in
      let* order := getitem dct "order" in
      let* price_text := getitem dct "price" in
      let* price := Decimal_new price_text in
      let* volume := getitem dct "volume" in
      let* commission_text := getitem dct "commission" in
      let* commission := Decimal_new commission_text in
      Ok (VTrade (Trade.init symbol (VDateTime ts) order (VDecimal price)
                             volume (VDecimal commission)))
    else Ok (VDict dct)
  else Ok (VDict dct).

(** ** The [json] module

    JSON text is represented by the tree it denotes; the printer and the
    scanner of the [json] module are not part of the model. *)

Inductive json : Type :=
| JNull
| JBool (b : bool)
| JInt (z : Z)
| JFloat (f : pyfloat)
| JStr (s : string)
| JArray (l : list json)
| JObject (m : list (string * json)).

Fixpoint mapM {A B : Type} (f : A -> result B) (l : list A) : result (list B) :=
  match l with
  | [] => Ok []
  | x :: r =>
      let* y := f x in
      let* ys := mapM f r in
      Ok (y :: ys)
  end.

(** The encoder: JSON-native values are written as they are, any other
    object goes through [default] and the result is encoded in its place.
    [fuel] bounds the nesting. *)
Fixpoint encode (default : value -> result value) (fuel : nat) (v : value)
  : result json :=
  match fuel with
  | O => Raise RecursionError
  | S n =>
      match v with
      | VNone => Ok JNull
      | VBool b => Ok (JBool b)
      | VInt z => Ok (JInt z)
      | VFloat f => Ok (JFloat f)
      | VStr s => Ok (JStr s)
      | VList l =>
          let* js := mapM (encode default n) l in
          Ok (JArray js)
      | VDict d =>
          let* m := mapM (fun kv =>
                            let* j := encode default n (snd kv) in
                            Ok (fst kv, j)) d in
          Ok (JObject m)
      | _ =>
          let* r := default v in
          encode default n r
      end
  end.

(** Nesting of a value as the encoder meets it: an object that [default]
    turns into a dictionary or a string counts for two levels. *)
Fixpoint encode_depth (v : value) : nat :=
  match v with
  | VList l =>
      S ((fix go (l : list value) : nat :=
            match l with
            | [] => O
            | x :: r => Nat.max (encode_depth x) (go r)
            end) l)
  | VDict d =>
      S ((fix go (d : list (string * value)) : nat :=
            match d with
            | [] => O
            | kv :: r => Nat.max (encode_depth (snd kv)) (go r)
            end) d)
  | VStock s =>
      S (S (Nat.max (encode_depth (Stock.symbol s))
           (Nat.max (encode_depth (Stock.date s))
           (Nat.max 1 (encode_depth (Stock.volume s))))))
  | VTrade t =>
      S (S (Nat.max (encode_depth (Trade.symbol t))
           (Nat.max (encode_depth (Trade.timestamp t))
           (Nat.max (encode_depth (Trade.order t))
           (Nat.max 1 (encode_depth (Trade.volume t)))))))
  | VDate _ | VDateTime _ | VDecimal _ => 2%nat
  | _ => 1%nat
  end.

(** [json.dumps(obj, cls=...)], with the encoder's [default] method. *)
Definition json_dumps (default : value -> result value) (obj : value)
  : result json :=
  encode default (encode_depth obj) obj.

(** From [encode_depth] on, the fuel makes no difference to the result, which
    is not the error of running out of it. *)
Definition settled (v : value) : Prop :=
  forall n m, (encode_depth v <= n)%nat -> (encode_depth v <= m)%nat ->
    encode CustomEncoder_default n v = encode CustomEncoder_default m v /\
    encode CustomEncoder_default n v <> Raise RecursionError.

(** [json.loads(text, object_hook=hook)]: every object is handed to the
    hook once its members are decoded. *)
Fixpoint decode (hook : dict -> result value) (j : json) : result value :=
  match j with
  | JNull => Ok VNone
  | JBool b => Ok (VBool b)
  | JInt z => Ok (VInt z)
  | JFloat f => Ok (VFloat f)
  | JStr s => Ok (VStr s)
  | JArray l =>
      let* vs :=
        (fix go (l : list json) : result (list value) :=
           match l with
           | [] => Ok []
           | x :: r =>
               let* v := decode hook x in
               let* vs := go r in
               Ok (v :: vs)
           end) l in
      Ok (VList vs)
  | JObject m =>
      let* pairs :=
        (fix go (m : list (string * json)) : result (list (string * value)) :=
           match m with
           | [] => Ok []
           | kx :: r =>
               let* v := decode hook (snd kx) in
               let* ps := go r in
               Ok ((fst kx, v) :: ps)
           end) m in
      hook (dict_of_pairs pairs)
  end.

Definition json_loads (hook : dict -> result value) (text : json)
  : result value :=
  decode hook text.

(** Without a hook an object stays a [dict]. *)
Definition no_hook (d : dict) : result value := Ok (VDict d).

(** ** Marshmallow schemas *)

Record schema : Type := {
  declared : list (string * fields.field);
  post_load : dict -> result value
}.

Definition invalid_message (t : fields.t) : string :=
  match t with
  | fields.Str => "Not a valid string."
  | fields.Date => "Not a valid date."
  | fields.DateTime => "Not a valid datetime."
  | fields.Decimal _ => "Not a valid number."
  | fields.Integer => "Not a valid integer."
  end.

Definition lenient (t : fields.t) (v : value) : value + string :=
  match lenient_load t v with
  | Some r => inl r
  | None => inr (invalid_message t)
  end.

(** [Field._deserialize] for a value that is present and not null. *)
Definition field_deserialize (t : fields.t) (v : value) : value + string :=
  match t, v with
  | fields.Str, VStr s => inl (VStr s)
  | fields.Date, VStr s =>
      if String.eqb s "" then inr (invalid_message t)
      else
        match from_iso_date s with
        | Some d => inl (VDate d)
        | None => inr (invalid_message t)
        end
  | fields.DateTime, VStr s =>
      if String.eqb s "" then inr (invalid_message t)
      else
        match from_iso_datetime s with
        | Some d => inl (VDateTime d)
        | None => inr (invalid_message t)
        end
  | fields.Decimal _, VStr s =>
      match Decimal_from_str s with
      | Ok d =>
          if Dec.is_special d
          then inr "Special numeric values (nan or infinity) are not permitted."
          else inl (VDecimal d)
      | Raise _ => inr (invalid_message t)
      end
  | fields.Integer, VInt z => inl (VInt z)
  | fields.Decimal _, _ | fields.Integer, _ => lenient t v
  | _, _ => inr (invalid_message t)
  end.

Definition errors : Type := list (string * list string).

(** [Schema._deserialize]: every declared field is looked up, checked for
    presence and coerced; all failures are collected. *)
Fixpoint load_fields (decl : list (string * fields.field)) (data : dict)
  : dict * errors :=
  match decl with
  | [] => ([], [])
  | (name, f) :: rest =>
      let '(vals, errs) := load_fields rest data in
      match lookup data name with
      | None =>
          if fields.required f
          then (vals, (name, ["Missing data for required field."]) :: errs)
          else (vals, errs)
      | Some VNone => (vals, (name, ["Field may not be null."]) :: errs)
      | Some v =>
          match field_deserialize (fields.ty f) v with
          | inl r => ((name, r) :: vals, errs)
          | inr msg => (vals, (name, [msg]) :: errs)
          end
      end
  end.

Definition is_declared (decl : list (string * fields.field)) (k : string) : bool :=
  existsb (fun nf => String.eqb (fst nf) k) decl.

(** The default [unknown = RAISE]: keys without a declaration are errors. *)
Fixpoint unknown_errors (decl : list (string * fields.field)) (data : dict)
  : errors :=
  match data with
  | [] => []
  | (k, _) :: r =>
      if is_declared decl k then unknown_errors decl r
      else (k, ["Unknown field."]) :: unknown_errors decl r
  end.

(** [Schema.load]. *)
Definition schema_load (s : schema) (data : value) : result value :=
  match data with
  | VDict d =>
      let '(vals, errs) := load_fields (declared s) d in
      match (errs ++ unknown_errors (declared s) d)%list with
      | [] => post_load s vals
      | all => Raise (ValidationError all)
      end
  | _ => Raise (ValidationError [("_schema", ["Invalid input type."])])
  end.

(** [Schema.loads]. *)
Definition schema_loads (s : schema) (json_data : json) : result value :=
  let* data := json_loads no_hook json_data in
  schema_load s data.

(** [getattr(obj, name)] as the engine reads an attribute (or a key). *)
Definition get_attribute (obj : value) (name : string) : option value :=
  match obj with
  | VStock s =>
      lookup [ ("symbol", Stock.symbol s); ("date", Stock.date s);
               ("open", Stock.open s); ("high", Stock.high s);
               ("low", Stock.low s); ("close", Stock.close s);
               ("volume", Stock.volume s) ] name
  | VTrade t =>
      lookup [ ("symbol", Trade.symbol t); ("timestamp", Trade.timestamp t);
               ("order", Trade.order t); ("price", Trade.price t);
               ("volume", Trade.volume t); ("commission", Trade.commission t) ]
             name
  | VDict d => lookup d name
  | _ => None
  end.

(** [Field._serialize]. *)
Definition field_serialize (t : fields.t) (v : value) : result value :=
  match t, v with
  | _, VNone => Ok VNone
  | fields.Str, _ => Ok (VStr (py_str v))
  | fields.Integer, VInt z => Ok (VInt z)
  | fields.Decimal as_string, _ =>
      let* num := Decimal_from_str (py_str v) in
      Ok (if as_string then VStr (Dec.format_f num) else VDecimal num)
  | fields.Date, VDate d => Ok (VStr (Cal.date_isoformat d))
  | fields.DateTime, VDateTime d => Ok (VStr (Cal.datetime_isoformat "T" d))
  | _, _ => dump_other t v
  end.

(** [Schema.dump] and [Schema.dumps]. *)
Fixpoint dump_fields (decl : list (string * fields.field)) (obj : value)
  : result dict :=
  match decl with
  | [] => Ok []
  | (name, f) :: rest =>
      match get_attribute obj name with
      | None => dump_fields rest obj
      | Some v =>
          let* r := field_serialize (fields.ty f) v in
          let* d := dump_fields rest obj in
          Ok ((name, r) :: d)
      end
  end.

Definition schema_dump (s : schema) (obj : value) : result value :=
  let* d := dump_fields (declared s) obj in
  Ok (VDict d).

Definition schema_dumps (s : schema) (obj : value) : result json :=
  let* data := schema_dump s obj in
  json_dumps JSONEncoder_default data.

(** ** [StockSchema] and [TradeSchema] *)

Definition make_stock (data : dict) : result value :=
  let* symbol := getitem data "symbol" in
  let* date := getitem data "date" in
  let* open_ := getitem data "open" in
  let* high := getitem data "high" in
  let* low := getitem data "low" in
  let* close := getitem data "close" in
  let* volume := getitem data "volume" in
  Ok (VStock (Stock.init symbol date open_ high low close volume)).

Definition StockSchema : schema := {|
  declared :=
    [ ("symbol", fields.mk fields.Str true);
      ("date", fields.mk fields.Date true);
      ("open", fields.mk (fields.Decimal true) true);
      ("high", fields.mk (fields.Decimal true) true);
      ("low", fields.mk (fields.Decimal true) true);
      ("close", fields.mk (fields.Decimal true) true);
      ("volume", fields.mk fields.Integer true) ];
  post_load := make_stock
|}.

(** [make_trade] passes the validated mapping as keyword arguments: every
    parameter must be among the keys and every key must be a parameter. *)
Definition Trade_parameters : list string :=
  ["symbol"; "timestamp"; "order"; "price"; "volume"; "commission"].

Definition keyword (data : dict) (name : string) : result value :=
  match lookup data name with
  | Some v => Ok v
  | None =>
      Raise (TypeError ("missing required positional argument: '" ++ name ++ "'"))
  end.

Definition make_trade (data : dict) : result value :=
  match filter (fun kv => negb (existsb (String.eqb (fst kv)) Trade_parameters))
               data with
  | (k, _) :: _ =>
      Raise (TypeError ("got an unexpected keyword argument '" ++ k ++ "'"))
  | [] =>
      let* symbol := keyword data "symbol" in
      let* timestamp := keyword data "timestamp" in
      let* order := keyword data "order" in
      let* price := keyword data "price" in
      let* volume := keyword data "volume" in
      let* commission := keyword data "commission" in
      Ok (VTrade (Trade.init symbol timestamp order price volume commission))
  end.

Definition TradeSchema : schema := {|
  declared :=
    [ ("symbol", fields.mk fields.Str true);
      ("timestamp", fields.mk fields.DateTime true);
      ("order", fields.mk fields.Str true);
      ("price", fields.mk (fields.Decimal true) true);
      ("volume", fields.mk fields.Integer true);
      ("commission", fields.mk (fields.Decimal true) true) ];
  post_load := make_trade
|}.

(** ** [serialize_with_marshmallow] and [deserialize_with_marshmallow] *)

Definition serialize_with_marshmallow (obj : value) : result json :=
  match obj with
  | VStock _ => schema_dumps StockSchema obj
  | VTrade _ => schema_dumps TradeSchema obj
  | _ =>
      Raise (TypeError ("Object of type " ++ type_repr obj ++ " is not supported"))
  end.

Definition deserialize_with_marshmallow (json_str : json) (s : schema)
  : result value :=
  schema_loads s json_str.

(** ** Valid records and field-for-field equality

    A valid [Stock] or [Trade] has the attribute types its class documents:
    text, a calendar date or a timestamp, finite decimals, an integer volume.
    A timestamp is naive or carries an offset ISO 8601 can write. *)

Definition price_ok (d : Dec.t) : Prop :=
  Dec.canonical d /\ Dec.is_finite d = true.

Definition valid_stock (s : Stock.t value) : Prop :=
  match s with
  | Stock.init (VStr _) (VDate d) (VDecimal o) (VDecimal h) (VDecimal l)
               (VDecimal c) (VInt _) =>
      Cal.valid_date d /\ price_ok o /\ price_ok h /\ price_ok l /\ price_ok c
  | _ => False
  end.

Definition valid_trade (t : Trade.t value) : Prop :=
  match t with
  | Trade.init (VStr _) (VDateTime ts) (VStr _) (VDecimal p) (VInt _)
               (VDecimal c) =>
      Cal.valid_datetime ts /\ Cal.iso_offset ts /\ price_ok p /\ price_ok c
  | _ => False
  end.

(** Two decimal attributes that compare equal with [==]. *)
Definition decimal_equal (a b : value) : Prop :=
  match a, b with
  | VDecimal x, VDecimal y => Dec.eq x y = true
  | _, _ => False
  end.

Definition same_stock (a b : Stock.t value) : Prop :=
  Stock.symbol a = Stock.symbol b /\
  Stock.date a = Stock.date b /\
  decimal_equal (Stock.open a) (Stock.open b) /\
  decimal_equal (Stock.high a) (Stock.high b) /\
  decimal_equal (Stock.low a) (Stock.low b) /\
  decimal_equal (Stock.close a) (Stock.close b) /\
  Stock.volume a = Stock.volume b.

Definition same_trade (a b : Trade.t value) : Prop :=
  Trade.symbol a = Trade.symbol b /\
  Trade.timestamp a = Trade.timestamp b /\
  Trade.order a = Trade.order b /\
  decimal_equal (Trade.price a) (Trade.price b) /\
  Trade.volume a = Trade.volume b /\
  decimal_equal (Trade.commission a) (Trade.commission b).

(** The two pipelines, encode then decode. *)
Definition tagged_roundtrip (obj : value) : result value :=
  let* text := json_dumps CustomEncoder_default obj in
  json_loads custom_decoder text.

Definition schema_roundtrip (s : schema) (obj : value) : result value :=
  let* text := serialize_with_marshmallow obj in
  deserialize_with_marshmallow text s.

(** Trees the tagged path is meant for: JSON-native scalars other than
    floats, lists, mappings with text keys (distinct, as in any mapping)
    none of which is the tag key, and valid records, nested in any way. *)
Fixpoint json_tree (v : value) : Prop :=
  match v with
  | VNone | VBool _ | VInt _ | VStr _ => True
  | VList l =>
      (fix all (l : list value) : Prop :=
         match l with
         | [] => True
         | x :: r => json_tree x /\ all r
         end) l
  | VDict d =>
      NoDup (map fst d) /\ lookup d "__type__" = None /\
      (fix all (d : list (string * value)) : Prop :=
         match d with
         | [] => True
         | kv :: r => json_tree (snd kv) /\ all r
         end) d
  | VStock s => valid_stock s
  | VTrade t => valid_trade t
  | _ => False
  end.

(** Encoding [v] succeeds and decoding the result gives [v] back. *)
Definition there_and_back (v : value) : Prop :=
  exists j, json_dumps CustomEncoder_default v = Ok j /\
            json_loads custom_decoder j = Ok v.

(** Values the [json] module writes by itself, and the objects
    [CustomEncoder.default] knows. *)
Definition json_native (v : value) : bool :=
  match v with
  | VNone | VBool _ | VInt _ | VFloat _ | VStr _ | VList _ | VDict _ => true
  | _ => false
  end.

Definition handled (v : value) : bool :=
  match v with
  | VStock _ | VTrade _ | VDate _ | VDateTime _ | VDecimal _ => true
  | _ => false
  end.

Definition Stock_parameters : list string :=
  ["symbol"; "date"; "open"; "high"; "low"; "close"; "volume"].

(** The keys [custom_decoder] hands to [Decimal]. *)
Definition Stock_decimals : list string := ["open"; "high"; "low"; "close"].

Definition Trade_decimals : list string := ["price"; "commission"].

(** The message of a required field that is absent. *)
Definition missing : list string := ["Missing data for required field."].

(** ** The order of the reads

    Under a record tag [custom_decoder] converts the date or the timestamp
    first and then evaluates the arguments of the constructor from left to
    right.  The keys in the order they are read, and the read of one key:
    the lookup, and the conversion of the value where there is one. *)
Definition Stock_reads : list string :=
  ["date"; "symbol"; "open"; "high"; "low"; "close"; "volume"].

Definition Trade_reads : list string :=
  ["timestamp"; "symbol"; "order"; "price"; "volume"; "commission"].

Definition Stock_read (dct : dict) (k : string) : result value :=
  let* v := getitem dct k in
  if String.eqb k "date" then
    let* d := date_fromisoformat_value v in Ok (VDate d)
  else if existsb (String.eqb k) Stock_decimals then
    let* d := Decimal_new v in Ok (VDecimal d)
  else Ok v.

Definition Trade_read (dct : dict) (k : string) : result value :=
  let* v := getitem dct k in
  if String.eqb k "timestamp" then
    let* t := datetime_fromisoformat_value v in Ok (VDateTime t)
  else if existsb (String.eqb k) Trade_decimals then
    let* d := Decimal_new v in Ok (VDecimal d)
  else Ok v.

(** The keys read before [k]. *)
Fixpoint before (k : string) (keys : list string) : list string :=
  match keys with
  | [] => []
  | x :: r => if String.eqb x k then [] else x :: before k r
  end.

End Codec.

(** ** A concrete library

    A runtime without floats whose ISO parsers are the reference parsers of
    [Cal]; it shows the contract can be met and lets the model run. *)

Definition NoFloat : Type := Empty_set.

Definition reference_library : @Library NoFloat := {|
  str_other := fun v => "<" ++ type_name v ++ ">";
  Decimal_from_float := fun f : NoFloat => match f return Dec.t with end;
  Decimal_from_sequence := fun _ => Raise ValueError;
  Decimal_from_unicode := fun _ => None;
  class_repr := fun cls => "<class '__main__." ++ cls ++ "'>";
  date_fromisoformat := Cal.parse_date;
  datetime_fromisoformat := Cal.parse_datetime;
  from_iso_date := Cal.parse_date;
  from_iso_datetime := Cal.parse_datetime;
  lenient_load := fun _ _ => None;
  dump_other := fun _ v => Raise (TypeError (type_name v))
|}.

(** ** Sample records

    The quote and the trade of the interface examples. *)

Definition decimal (digits : string) (exponent : Z) : Dec.t :=
  Dec.mk false digits (Dec.Exp exponent).

Definition tsla : Stock.t (@value NoFloat) :=
  Stock.init (VStr "TSLA") (VDate (Cal.mkdate 2024 1 15))
    (VDecimal (decimal "20000" (-2))) (VDecimal (decimal "20550" (-2)))
    (VDecimal (decimal "19800" (-2))) (VDecimal (decimal "20325" (-2)))
    (VInt 500000).

(** [tsla] with another low price. *)
Definition with_low (low : Dec.t) : Stock.t (@value NoFloat) :=
  Stock.init (VStr "TSLA") (VDate (Cal.mkdate 2024 1 15))
    (VDecimal (decimal "20000" (-2))) (VDecimal (decimal "20550" (-2)))
    (VDecimal low) (VDecimal (decimal "20325" (-2))) (VInt 500000).

Definition aapl_buy : Trade.t (@value NoFloat) :=
  Trade.init (VStr "AAPL")
    (VDateTime (Cal.mkdatetime 2024 1 15 9 30 0 123456 (Some (-18000000000))))
    (VStr "buy") (VDecimal (decimal "15030" (-2))) (VInt 100)
    (VDecimal (decimal "100" (-2))).

(** The tagged wire form of [tsla], and a mapping of some other kind. *)
Definition tsla_dict : @dict NoFloat :=
  [ ("__type__", VStr "Stock"); ("symbol", VStr "TSLA");
    ("date", VStr "2024-01-15"); ("open", VStr "200.00");
    ("high", VStr "205.50"); ("low", VStr "198.00");
    ("close", VStr "203.25"); ("volume", VInt 500000) ].

Definition bond_dict : @dict NoFloat :=
  [ ("__type__", VStr "Bond"); ("symbol", VStr "T-10Y") ].

Definition plain_dict : @dict NoFloat :=
  [ ("symbol", VStr "TSLA"); ("volume", VInt 500000) ].

(** Tagged mappings without a symbol: one with a date out of range, one
    with an opening price that is not a number; and one with such a price
    and no closing price. *)
Definition bad_date_no_symbol : @dict NoFloat :=
  [ ("__type__", VStr "Stock"); ("date", VStr "2024-13-45");
    ("open", VStr "200.00"); ("high", VStr "205.50");
    ("low", VStr "198.00"); ("close", VStr "203.25");
    ("volume", VInt 500000) ].

Definition bad_open_no_symbol : @dict NoFloat :=
  [ ("__type__", VStr "Stock"); ("date", VStr "2024-01-15");
    ("open", VStr "abc"); ("high", VStr "205.50");
    ("low", VStr "198.00"); ("close", VStr "203.25");
    ("volume", VInt 500000) ].

Definition bad_open_no_close : @dict NoFloat :=
  [ ("__type__", VStr "Stock"); ("symbol", VStr "TSLA");
    ("date", VStr "2024-01-15"); ("open", VStr "abc");
    ("high", VStr "205.50"); ("low", VStr "198.00");
    ("volume", VInt 500000) ].

(** The tagged wire form of a trade. *)
Definition aapl_dict : @dict NoFloat :=
  [ ("__type__", VStr "Trade"); ("symbol", VStr "AAPL");
    ("timestamp", VStr "2024-01-15T09:30:00"); ("order", VStr "buy");
    ("price", VStr "150.30"); ("volume", VInt 100);
    ("commission", VStr "1.00") ].

(** The members of the schema wire form of [tsla]. *)
Definition tsla_members : list (string * @json NoFloat) :=
  [ ("symbol", JStr "TSLA"); ("date", JStr "2024-01-15");
    ("open", JStr "200.00"); ("high", JStr "205.50");
    ("low", JStr "198.00"); ("close", JStr "203.25");
    ("volume", JInt 500000) ].

(** A tree with a record at two depths. *)
Definition portfolio : @value NoFloat :=
  VList [ VStock tsla;
          VDict [ ("last", VTrade aapl_buy); ("note", VNone);
                  ("lots", VList [VInt 100; VInt 250]) ] ].

(** * Properties *)

Example of_str_150_25 :
  Dec.of_str "150.25" = Ok (Dec.mk false "15025" (Dec.Exp (-2))).
Proof. reflexivity. Qed.

Example str_150_25 : Dec.str (Dec.mk false "15025" (Dec.Exp (-2))) = "150.25".
Proof. reflexivity. Qed.

Example str_1E3 : Dec.str (Dec.mk false "1" (Dec.Exp 3)) = "1E+3".
Proof. reflexivity. Qed.

Example str_1Em7 : Dec.str (Dec.mk false "1" (Dec.Exp (-7))) = "1E-7".
Proof. reflexivity. Qed.

Example of_str_examples :
  Dec.of_str "  12.5 " = Ok (Dec.mk false "125" (Dec.Exp (-1))) /\
  Dec.of_str "1_000.5" = Ok (Dec.mk false "10005" (Dec.Exp (-1))) /\
  Dec.of_str "-inf" = Ok (Dec.mk true "0" Dec.ExpF) /\
  Dec.of_str "NaN007" = Ok (Dec.mk false "7" Dec.Expn) /\
  Dec.of_str "sNaN12" = Ok (Dec.mk false "12" Dec.ExpN) /\
  Dec.of_str "+.5" = Ok (Dec.mk false "5" (Dec.Exp (-1))) /\
  Dec.of_str "5." = Ok (Dec.mk false "5" (Dec.Exp 0)) /\
  Dec.of_str "0E+2" = Ok (Dec.mk false "0" (Dec.Exp 2)) /\
  Dec.of_str "1.5E-7" = Ok (Dec.mk false "15" (Dec.Exp (-8))) /\
  Dec.of_str "00012.50" = Ok (Dec.mk false "1250" (Dec.Exp (-2))) /\
  Dec.of_str "." = Raise InvalidOperation /\
  Dec.of_str "" = Raise InvalidOperation /\
  Dec.of_str "abc" = Raise InvalidOperation /\
  Dec.of_str "1e" = Raise InvalidOperation /\
  Dec.of_str "--1" = Raise InvalidOperation /\
  Dec.of_str "NaN-" = Raise InvalidOperation.
Proof. repeat split; reflexivity. Qed.

Example format_f_examples :
  Dec.format_f (Dec.mk false "1" (Dec.Exp 3)) = "1000" /\
  Dec.format_f (Dec.mk false "0" (Dec.Exp 5)) = "0" /\
  Dec.format_f (Dec.mk false "0" (Dec.Exp (-3))) = "0.000" /\
  Dec.format_f (Dec.mk true "0" (Dec.Exp 2)) = "-0" /\
  Dec.format_f (Dec.mk false "123" (Dec.Exp (-10))) = "0.0000000123" /\
  Dec.format_f (Dec.mk false "15025" (Dec.Exp (-2))) = "150.25" /\
  Dec.format_f (Dec.mk false "5" (Dec.Exp (-1))) = "0.5".
Proof. repeat split; reflexivity. Qed.

(** ** Text *)

Module TxtFacts.
Import Txt.

Lemma append_assoc (a b c : string) : (a ++ b) ++ c = a ++ (b ++ c).
Proof. induction a as [|x a IH]; simpl; [reflexivity | now rewrite IH]. Qed.

Lemma append_nil_r (a : string) : a ++ "" = a.
Proof. induction a as [|x a IH]; simpl; [reflexivity | now rewrite IH]. Qed.

Lemma length_append (a b : string) :
  String.length (a ++ b) = (String.length a + String.length b)%nat.
Proof. induction a as [|x a IH]; simpl; [reflexivity | now rewrite IH]. Qed.

Lemma length_zeros n : String.length (zeros n) = n.
Proof. induction n; simpl; congruence. Qed.

Lemma take_drop n s : take n s ++ drop n s = s.
Proof.
  revert s; induction n as [|n IH]; intros [|c r]; simpl; try reflexivity.
  now rewrite IH.
Qed.

Lemma length_take n s :
  (n <= String.length s)%nat -> String.length (take n s) = n.
Proof.
  revert s; induction n as [|n IH]; intros [|c r]; simpl; intros H;
    try reflexivity; try lia.
  rewrite IH; [reflexivity | lia].
Qed.

Lemma length_drop n s :
  String.length (drop n s) = (String.length s - n)%nat.
Proof.
  revert s; induction n as [|n IH]; intros [|c r]; simpl; try reflexivity.
  apply IH.
Qed.

Lemma take_app_length a b : take (String.length a) (a ++ b) = a.
Proof. induction a as [|x a IH]; simpl; [now destruct b | now rewrite IH]. Qed.

Lemma drop_app_length a b : drop (String.length a) (a ++ b) = b.
Proof. induction a as [|x a IH]; simpl; [reflexivity | exact IH]. Qed.

Lemma all_digits_app a b :
  all_digits (a ++ b) = all_digits a && all_digits b.
Proof.
  induction a as [|x a IH]; simpl; [reflexivity|].
  now rewrite IH, andb_assoc.
Qed.

Lemma all_digits_zeros n : all_digits (zeros n) = true.
Proof. induction n; simpl; auto. Qed.

Lemma all_digits_take n s : all_digits s = true -> all_digits (take n s) = true.
Proof.
  revert s; induction n as [|n IH]; intros [|c r]; simpl; auto.
  intros H; apply andb_true_iff in H as [-> H]; simpl; auto.
Qed.

Lemma all_digits_drop n s : all_digits s = true -> all_digits (drop n s) = true.
Proof.
  revert s; induction n as [|n IH]; intros [|c r]; simpl; auto.
  intros H; apply andb_true_iff in H as [_ H]; auto.
Qed.

Lemma span_digits_app ds rest :
  all_digits ds = true -> no_digit_head rest ->
  span_digits (ds ++ rest) = (ds, rest).
Proof.
  intros Hd Hr; induction ds as [|c ds IH]; simpl in *.
  - destruct rest as [|c r]; simpl in *; [reflexivity | now rewrite Hr].
  - apply andb_true_iff in Hd as [Hc Hd].
    now rewrite Hc, (IH Hd).
Qed.

Lemma lstrip0_zeros n s : lstrip0 (zeros n ++ s) = lstrip0 s.
Proof. induction n; simpl; auto. Qed.

Lemma all_digits_string_of_uint u :
  all_digits (NilEmpty.string_of_uint u) = true.
Proof. induction u; simpl; auto. Qed.

Lemma all_digits_str_N n : all_digits (str_N n) = true.
Proof. apply all_digits_string_of_uint. Qed.

Lemma str_N_nonempty n : str_N n <> "".
Proof.
  unfold str_N; destruct n as [|p]; simpl; [discriminate|].
  pose proof (DecimalPos.Unsigned.to_uint_nonnil p) as H.
  destruct (Pos.to_uint p); simpl; congruence.
Qed.

Lemma int_of_digits_str_N n : int_of_digits (str_N n) = Some (Z.of_N n).
Proof.
  unfold int_of_digits.
  pose proof (str_N_nonempty n) as H.
  destruct (str_N n) eqn:E; [congruence|].
  rewrite <- E; unfold str_N.
  now rewrite NilEmpty.usu, DecimalN.Unsigned.of_to.
Qed.

Lemma is_digit_head_str_N n : exists c r, str_N n = String c r /\ is_digit c = true.
Proof.
  pose proof (str_N_nonempty n) as H.
  pose proof (all_digits_str_N n) as D.
  destruct (str_N n) as [|c r]; [congruence|].
  simpl in D; apply andb_true_iff in D as [D _]; eauto.
Qed.

Lemma digit_not_sign c :
  is_digit c = true -> c <> "-"%char /\ c <> "+"%char /\ c <> "."%char.
Proof.
  destruct c as [[] [] [] [] [] [] [] []]; simpl; intros H;
    try discriminate H; repeat split; discriminate.
Qed.

Lemma int_of_signed_digits_digits s :
  (exists c r, s = String c r /\ is_digit c = true) ->
  int_of_signed_digits s = int_of_digits s.
Proof.
  intros (c & r & -> & Hc).
  destruct c as [[] [] [] [] [] [] [] []]; simpl in Hc;
    try discriminate Hc; reflexivity.
Qed.

Lemma int_of_signed_digits_fmt z : int_of_signed_digits (fmt_plus_d z) = Some z.
Proof.
  unfold fmt_plus_d; destruct (z <? 0) eqn:E; simpl;
    rewrite int_of_digits_str_N; simpl; f_equal.
  - apply Z.ltb_lt in E; rewrite N2Z.inj_abs_N; lia.
  - apply Z.ltb_ge in E; rewrite N2Z.inj_abs_N; lia.
Qed.

Lemma plain_app a b : plain (a ++ b) = plain a && plain b.
Proof.
  induction a as [|x a IH]; simpl; [reflexivity|].
  now rewrite IH, !andb_assoc.
Qed.

Lemma plain_digit c :
  is_digit c = true -> negb (is_space c) && negb (Ascii.eqb c "_") = true.
Proof.
  destruct c as [[] [] [] [] [] [] [] []]; simpl; intros H;
    try discriminate H; reflexivity.
Qed.

Lemma plain_digits s : all_digits s = true -> plain s = true.
Proof.
  induction s as [|c r IH]; simpl; [reflexivity|].
  intros H; apply andb_true_iff in H as [Hc Hr].
  now rewrite (plain_digit c Hc), IH.
Qed.

Lemma plain_fmt_plus_d z : plain (fmt_plus_d z) = true.
Proof.
  unfold fmt_plus_d; rewrite plain_app, (plain_digits _ (all_digits_str_N _)).
  now destruct (z <? 0).
Qed.

Lemma lstrip_plain s : plain s = true -> lstrip s = s.
Proof.
  destruct s as [|c r]; simpl; [reflexivity|].
  intros H; apply andb_true_iff in H as [H _].
  apply andb_true_iff in H as [H _].
  now destruct (is_space c).
Qed.

Lemma rstrip_plain s : plain s = true -> rstrip s = s.
Proof.
  induction s as [|c r IH]; simpl; [reflexivity|].
  intros H; apply andb_true_iff in H as [H Hr].
  apply andb_true_iff in H as [H _].
  rewrite (IH Hr); destruct r; [|reflexivity].
  now destruct (is_space c).
Qed.

Lemma strip_plain s : plain s = true -> strip s = s.
Proof.
  intros H; unfold strip; rewrite (rstrip_plain s H); now apply lstrip_plain.
Qed.

Lemma remove_underscore_plain s : plain s = true -> remove_char "_" s = s.
Proof.
  induction s as [|c r IH]; simpl; [reflexivity|].
  intros H; apply andb_true_iff in H as [H Hr].
  apply andb_true_iff in H as [_ H].
  rewrite (IH Hr); now destruct (Ascii.eqb c "_").
Qed.

Lemma lower_digit c : is_digit c = true -> lower c = c.
Proof.
  destruct c as [[] [] [] [] [] [] [] []]; simpl; intros H;
    try discriminate H; reflexivity.
Qed.

Lemma lowercase_digits s : all_digits s = true -> lowercase s = s.
Proof.
  induction s as [|c r IH]; simpl; [reflexivity|].
  intros H; apply andb_true_iff in H as [Hc Hr].
  now rewrite (lower_digit c Hc), IH.
Qed.

End TxtFacts.


(** ** [decimal.Decimal]: printing and parsing are inverse *)

Module DecFacts.
Import Txt TxtFacts Dec.

Lemma no_digit_head_exp_text eopt : no_digit_head (exp_text eopt).
Proof. destruct eopt; simpl; auto. Qed.

Lemma parse_exp_text eopt :
  match exp_text eopt with
  | "" => Some (exp_of eopt)
  | String c r =>
      if Ascii.eqb (lower c) "e" then int_of_signed_digits r else None
  end = Some (exp_of eopt).
Proof.
  destruct eopt as [z|]; simpl; [|reflexivity].
  change (Ascii.eqb (lower "E") "e") with true; cbv iota.
  apply int_of_signed_digits_fmt.
Qed.

Lemma parse_number_shape ip fopt eopt :
  all_digits ip = true -> ip <> "" ->
  all_digits (frac_of fopt) = true ->
  parse_number (ip ++ frac_text fopt ++ exp_text eopt)
  = Some (ip, frac_of fopt, exp_of eopt).
Proof.
  intros Hip Hne Hfp.
  unfold parse_number.
  assert (Hs : starts_number (ip ++ frac_text fopt ++ exp_text eopt) = true).
  { destruct ip as [|c r]; [congruence|]; simpl in *.
    apply andb_true_iff in Hip as [-> _]; reflexivity. }
  rewrite Hs.
  rewrite span_digits_app; auto.
  2:{ destruct fopt; simpl; auto. apply no_digit_head_exp_text. }
  destruct fopt as [fp|]; simpl frac_text; simpl frac_of in *.
  - change ("." ++ fp) with (String "." fp); simpl String.append.
    cbv iota.
    rewrite span_digits_app; auto using no_digit_head_exp_text.
    pose proof (parse_exp_text eopt) as H.
    destruct eopt as [z|]; simpl in *; [|reflexivity].
    change (Ascii.eqb (lower "E") "e") with true in *; cbv iota in *.
    now rewrite H.
  - pose proof (parse_exp_text eopt) as H.
    destruct eopt as [z|]; simpl in *; [|reflexivity].
    change (Ascii.eqb (lower "E") "e") with true in *; cbv iota in *.
    now rewrite H.
Qed.

Lemma str_int_digits_canonical ds e sg :
  canonical (mk sg ds (Exp e)) -> str_int_digits ds = ds.
Proof. now intros [_ [_ H]]. Qed.

Lemma str_shape sg ds e :
  canonical (mk sg ds (Exp e)) ->
  exists ip fopt eopt,
    str (mk sg ds (Exp e)) = sign_text sg ++ ip ++ frac_text fopt ++ exp_text eopt /\
    all_digits ip = true /\ ip <> "" /\
    all_digits (frac_of fopt) = true /\
    str_int_digits (ip ++ frac_of fopt) = ds /\
    exp_of eopt - Z.of_nat (String.length (frac_of fopt)) = e.
Proof.
  intros [Hd [Hne Hn]]; simpl in Hd, Hne, Hn.
  unfold str; simpl d_sign; simpl d_int; simpl d_exp.
  fold (sign_text sg). cbv beta iota zeta.
  assert (Hlen : 1 <= Z.of_nat (String.length ds)).
  { destruct ds; [congruence | simpl; lia]. }
  remember (Z.of_nat (String.length ds)) as len eqn:Elen.
  destruct ((e <=? 0) && (-6 <? e + len)) eqn:C1.
  - apply andb_true_iff in C1 as [Ce _]; apply Z.leb_le in Ce.
    rewrite Z.eqb_refl.
    destruct (e + len <=? 0) eqn:C2; [|destruct (len <=? e + len) eqn:C3].
    + apply Z.leb_le in C2.
      exists "0", (Some (zeros (Z.to_nat (- (e + len))) ++ ds)), None.
      unfold frac_text, exp_text, frac_of, exp_of.
      repeat split; try reflexivity; try discriminate.
      * now rewrite all_digits_app, all_digits_zeros.
      * change ("0" ++ zeros (Z.to_nat (- (e + len))) ++ ds)
          with (zeros (S (Z.to_nat (- (e + len)))) ++ ds).
        unfold str_int_digits; rewrite lstrip0_zeros; exact Hn.
      * rewrite length_append, length_zeros; subst len; lia.
    + apply Z.leb_le in C3.
      assert (e = 0) by lia; subst e.
      exists ds, None, None.
      unfold frac_text, exp_text, frac_of, exp_of.
      replace (0 + len - len) with 0 by lia; simpl zeros.
      rewrite !append_nil_r.
      repeat split; auto.
    + apply Z.leb_gt in C2; apply Z.leb_gt in C3.
      exists (take (Z.to_nat (e + len)) ds),
             (Some (drop (Z.to_nat (e + len)) ds)), None.
      unfold frac_text, exp_text, frac_of, exp_of.
      assert (Hl : String.length (take (Z.to_nat (e + len)) ds)
                   = Z.to_nat (e + len)).
      { apply length_take; subst len; lia. }
      repeat split; auto using all_digits_take, all_digits_drop.
      * intros E; rewrite E in Hl; simpl in Hl; lia.
      * now rewrite take_drop.
      * rewrite length_drop; subst len; lia.
  - change (1 <=? 0) with false; cbv iota.
    destruct (len <=? 1) eqn:C3.
    + apply Z.leb_le in C3; assert (len = 1) by lia.
      replace (1 - len) with 0 by lia; simpl zeros.
      exists ds, None,
        (if e + len =? 1 then None else Some (e + len - 1)).
      unfold frac_text, frac_of.
      rewrite !append_nil_r.
      repeat split; auto.
      * destruct (e + len =? 1); reflexivity.
      * destruct (e + len =? 1) eqn:C4; simpl;
          [apply Z.eqb_eq in C4|]; lia.
    + apply Z.leb_gt in C3.
      exists (take 1 ds), (Some (drop 1 ds)),
        (if e + len =? 1 then None else Some (e + len - 1)).
      unfold frac_text, frac_of.
      change (Z.to_nat 1) with 1%nat.
      assert (Hl : String.length (take 1 ds) = 1%nat).
      { apply length_take; subst len; lia. }
      repeat split; auto using all_digits_take, all_digits_drop.
      * destruct (e + len =? 1); reflexivity.
      * intros E; rewrite E in Hl; simpl in Hl; lia.
      * now rewrite take_drop.
      * rewrite length_drop.
        destruct (e + len =? 1) eqn:C4; simpl;
          [apply Z.eqb_eq in C4|]; subst len; lia.
Qed.

Lemma plain_shape sg ip fopt eopt :
  all_digits ip = true -> all_digits (frac_of fopt) = true ->
  plain (sign_text sg ++ ip ++ frac_text fopt ++ exp_text eopt) = true.
Proof.
  intros Hi Hf.
  rewrite !plain_app, (plain_digits ip Hi).
  assert (plain (sign_text sg) = true) as -> by now destruct sg.
  assert (plain (frac_text fopt) = true) as ->.
  { destruct fopt as [fp|]; simpl in *; [|reflexivity].
    now apply plain_digits. }
  destruct eopt as [z|]; simpl; [|reflexivity].
  apply plain_fmt_plus_d.
Qed.

(** Splitting off the sign in front of a digit. *)
Lemma sign_split sg ip rest :
  all_digits ip = true -> ip <> "" ->
  split_sign (sign_text sg ++ ip ++ rest) = (sg, ip ++ rest).
Proof.
  intros Hi Hne; unfold split_sign; destruct sg; simpl; [reflexivity|].
  destruct ip as [|c r]; [congruence|]; simpl in *.
  apply andb_true_iff in Hi as [Hc _].
  destruct c as [[] [] [] [] [] [] [] []]; simpl in Hc;
    try discriminate Hc; reflexivity.
Qed.

Lemma of_str_str_finite sg ds e :
  canonical (mk sg ds (Exp e)) ->
  of_str (str (mk sg ds (Exp e))) = Ok (mk sg ds (Exp e)).
Proof.
  intros Hc.
  destruct (str_shape sg ds e Hc)
    as (ip & fopt & eopt & -> & Hi & Hne & Hf & Hcoef & Hexp).
  unfold of_str.
  rewrite strip_plain by now apply plain_shape.
  rewrite remove_underscore_plain by now apply plain_shape.
  rewrite sign_split by assumption.
  rewrite parse_number_shape by assumption.
  now rewrite Hcoef, Hexp.
Qed.

Lemma sign_split_letter sg c r :
  is_digit c = false -> c <> "-"%char -> c <> "+"%char ->
  split_sign (sign_text sg ++ String c r) = (sg, String c r).
Proof.
  intros _ Hm Hp; unfold split_sign; destruct sg; simpl; [reflexivity|].
  destruct c as [[] [] [] [] [] [] [] []]; try reflexivity; congruence.
Qed.

Lemma nan_payload diag :
  lstrip0 diag = diag ->
  lstrip0 (str_int_digits (if String.eqb diag "" then "0" else diag)) = diag.
Proof.
  intros H; destruct diag as [|c r]; [reflexivity|].
  simpl String.eqb; cbv iota.
  unfold str_int_digits; rewrite H; exact H.
Qed.

(** [Decimal(str(d))] rebuilds [d]: same sign, same digits, same exponent. *)
Theorem of_str_str d : canonical d -> of_str (str d) = Ok d.
Proof.
  destruct d as [sg ds [e| | |]]; intros Hc.
  - now apply of_str_str_finite.
  - destruct Hc as [_ Hc]; simpl in Hc; subst ds.
    destruct sg; reflexivity.
  - destruct Hc as [Hd Hc]; simpl in Hd, Hc.
    unfold of_str, str; simpl d_sign; simpl d_int; simpl d_exp.
    fold (sign_text sg).
    assert (Hp : plain (sign_text sg ++ "NaN" ++ ds) = true).
    { rewrite !plain_app, (plain_digits ds Hd); now destruct sg. }
    rewrite strip_plain, remove_underscore_plain by exact Hp.
    change ("NaN" ++ ds) with (String "N" ("aN" ++ ds)).
    rewrite sign_split_letter by (try reflexivity; discriminate).
    change (parse_number (String "N" ("aN" ++ ds))) with (@None (string * string * Z)).
    cbv iota.
    assert (Hinf : is_infinity_word (String "N" ("aN" ++ ds)) = false).
    { unfold is_infinity_word; simpl. reflexivity. }
    rewrite Hinf.
    unfold parse_nan; simpl lowercase.
    change (lower "N") with "n"%char; change (lower "a") with "a"%char.
    rewrite (lowercase_digits ds Hd); simpl.
    rewrite Hd; simpl.
    now rewrite nan_payload.
  - destruct Hc as [Hd Hc]; simpl in Hd, Hc.
    unfold of_str, str; simpl d_sign; simpl d_int; simpl d_exp.
    fold (sign_text sg).
    assert (Hp : plain (sign_text sg ++ "sNaN" ++ ds) = true).
    { rewrite !plain_app, (plain_digits ds Hd); now destruct sg. }
    rewrite strip_plain, remove_underscore_plain by exact Hp.
    change ("sNaN" ++ ds) with (String "s" ("NaN" ++ ds)).
    rewrite sign_split_letter by (try reflexivity; discriminate).
    change (parse_number (String "s" ("NaN" ++ ds))) with (@None (string * string * Z)).
    cbv iota.
    assert (Hinf : is_infinity_word (String "s" ("NaN" ++ ds)) = false).
    { unfold is_infinity_word; simpl. reflexivity. }
    rewrite Hinf.
    unfold parse_nan; simpl lowercase.
    change (lower "N") with "n"%char; change (lower "a") with "a"%char;
      change (lower "s") with "s"%char.
    rewrite (lowercase_digits ds Hd); simpl.
    rewrite Hd; simpl.
    now rewrite nan_payload.
Qed.

End DecFacts.

(** ** [decimal.Decimal]: fixed-point formatting *)

Module DecFormat.
Import Txt TxtFacts Dec DecFacts.

Lemma lstrip0_cons c r :
  lstrip0 (String c r) = if Ascii.eqb c "0" then lstrip0 r else String c r.
Proof. destruct c as [[] [] [] [] [] [] [] []]; reflexivity. Qed.

Lemma lstrip0_head s c r : lstrip0 s = String c r -> Ascii.eqb c "0" = false.
Proof.
  induction s as [|x s IH]; [discriminate|].
  rewrite lstrip0_cons.
  destruct (Ascii.eqb x "0") eqn:E; [exact IH|].
  now intros [= <- _].
Qed.

(** A canonical coefficient is ["0"] or starts with a non-zero digit. *)
Lemma canonical_cases ds :
  str_int_digits ds = ds -> ds <> "" ->
  ds = "0" \/ exists c r, ds = String c r /\ Ascii.eqb c "0" = false.
Proof.
  intros H Hne; destruct ds as [|c r]; [congruence|].
  destruct (Ascii.eqb c "0") eqn:E; [|right; eauto].
  left; apply Ascii.eqb_eq in E; subst c.
  unfold str_int_digits in H; rewrite lstrip0_cons in H; simpl in H.
  destruct (lstrip0 r) as [|c' r'] eqn:L.
  - now inversion H.
  - apply lstrip0_head in L.
    inversion H; subst c'; discriminate.
Qed.

Lemma str_int_digits_nonzero c r :
  Ascii.eqb c "0" = false -> str_int_digits (String c r) = String c r.
Proof.
  intros E; unfold str_int_digits; rewrite lstrip0_cons, E; reflexivity.
Qed.

Lemma str_int_digits_zero_head s :
  str_int_digits (String "0" s) = str_int_digits s.
Proof. reflexivity. Qed.

Lemma eqb_zero_nonzero c r :
  Ascii.eqb c "0" = false -> String.eqb (String c r) "0" = false.
Proof. intros E; simpl; now rewrite E. Qed.

(** Python's [==] holds between a finite number and itself. *)
Lemma eq_refl_finite sg ds e : Dec.eq (mk sg ds (Exp e)) (mk sg ds (Exp e)) = true.
Proof.
  unfold Dec.eq, nonzero, is_nan, is_special; simpl.
  destruct (String.eqb ds "0"); simpl; [reflexivity|].
  rewrite Bool.eqb_reflx, Z.eqb_refl, Z.sub_diag; simpl.
  now rewrite String.eqb_refl.
Qed.

Lemma frac_text_of s :
  (if String.eqb s "" then "" else "." ++ s)
  = frac_text (if String.eqb s "" then None else Some s).
Proof. now destruct (String.eqb s ""). Qed.

Lemma frac_of_opt s : frac_of (if String.eqb s "" then None else Some s) = s.
Proof.
  destruct (String.eqb s "") eqn:E; [|reflexivity].
  apply String.eqb_eq in E; now subst.
Qed.

Lemma of_str_shape sg ip fopt :
  all_digits ip = true -> ip <> "" -> all_digits (frac_of fopt) = true ->
  of_str (sign_text sg ++ ip ++ frac_text fopt ++ exp_text None)
  = Ok (mk sg (str_int_digits (ip ++ frac_of fopt))
              (Exp (0 - Z.of_nat (String.length (frac_of fopt))))).
Proof.
  intros Hi Hne Hf; unfold of_str.
  rewrite strip_plain by now apply plain_shape.
  rewrite remove_underscore_plain by now apply plain_shape.
  rewrite sign_split by assumption.
  now rewrite (parse_number_shape ip fopt None) by assumption.
Qed.

Lemma of_str_fixed sg ip s :
  all_digits ip = true -> ip <> "" -> all_digits s = true ->
  of_str (sign_text sg ++ ip ++ (if String.eqb s "" then "" else "." ++ s))
  = Ok (mk sg (str_int_digits (ip ++ s))
              (Exp (0 - Z.of_nat (String.length s)))).
Proof.
  intros Hi Hne Hs.
  pose proof (of_str_shape sg ip (if String.eqb s "" then None else Some s)) as S.
  rewrite frac_of_opt in S; simpl exp_text in S.
  rewrite append_nil_r, <- frac_text_of in S.
  now apply S.
Qed.

(** What [Decimal(format(d, "f"))] is, for a finite [d]: a number equal to
    [d], and [d] itself when the exponent of [d] is not positive. *)
Theorem of_str_format_f sg ds e :
  canonical (mk sg ds (Exp e)) ->
  exists d',
    of_str (format_f (mk sg ds (Exp e))) = Ok d' /\
    is_special d' = false /\
    Dec.eq d' (mk sg ds (Exp e)) = true /\
    (e <= 0 -> d' = mk sg ds (Exp e)).
Proof.
  intros [Hd [Hne Hn]]; simpl in Hd, Hne, Hn.
  unfold format_f; simpl d_sign; simpl d_int; simpl d_exp.
  fold (sign_text sg); cbv beta iota zeta.
  assert (Hlen : 1 <= Z.of_nat (String.length ds)).
  { destruct ds; [congruence | simpl; lia]. }
  destruct (String.eqb ds "0" && (0 <? e)) eqn:R.
  - (* a zero with a positive exponent *)
    apply andb_true_iff in R as [R1 R2].
    apply String.eqb_eq in R1; apply Z.ltb_lt in R2; subst ds.
    exists (mk sg "0" (Exp 0)); simpl.
    repeat split; try lia.
    destruct sg; reflexivity.
  - remember (Z.of_nat (String.length ds)) as len eqn:Elen.
    destruct (e + len <? 0) eqn:C1; [|destruct (len <? e + len) eqn:C2].
    + apply Z.ltb_lt in C1.
      rewrite of_str_fixed;
        try reflexivity; try discriminate;
        try (now rewrite all_digits_app, all_digits_zeros).
      exists (mk sg ds (Exp e)).
      assert (E1 : str_int_digits ("0" ++ zeros (Z.to_nat (- (e + len))) ++ ds) = ds).
      { change ("0" ++ zeros (Z.to_nat (- (e + len))) ++ ds)
          with (zeros (S (Z.to_nat (- (e + len)))) ++ ds).
        unfold str_int_digits; rewrite lstrip0_zeros; exact Hn. }
      assert (E2 : 0 - Z.of_nat (String.length (zeros (Z.to_nat (- (e + len))) ++ ds)) = e).
      { rewrite length_append, length_zeros; lia. }
      rewrite E1, E2.
      repeat split; auto using eq_refl_finite.
    + apply Z.ltb_lt in C2.
      assert (He : 0 < e) by lia.
      destruct (canonical_cases ds Hn Hne) as [->|(c & r & -> & Hc)].
      { simpl in R; apply Z.ltb_ge in R; lia. }
      replace (e + len - len) with e by lia.
      rewrite of_str_fixed;
        try reflexivity; try discriminate;
        try (now rewrite all_digits_app, all_digits_zeros, Hd).
      eexists; repeat split; try lia.
      rewrite append_nil_r.
      cbn [String.append].
      rewrite str_int_digits_nonzero by assumption.
      unfold Dec.eq, nonzero, is_nan, is_special; cbn [d_exp d_int d_sign].
      rewrite !eqb_zero_nonzero by assumption; cbn [negb orb].
      rewrite Bool.eqb_reflx; cbn [negb].
      change (String c (r ++ zeros (Z.to_nat e)))
        with (String c r ++ zeros (Z.to_nat e)).
      rewrite length_append, length_zeros.
      change (Z.of_nat (String.length "")) with 0.
      replace (Z.to_nat (0 - 0 - e)) with 0%nat by lia.
      replace (e - (0 - 0)) with e by lia.
      simpl zeros at 2; rewrite append_nil_r, String.eqb_refl, andb_true_r.
      apply Z.eqb_eq; lia.
    + apply Z.ltb_ge in C1, C2.
      assert (He : e <= 0) by lia.
      exists (mk sg ds (Exp e)).
      assert (Hl : String.length (take (Z.to_nat (e + len)) ds)
                   = Z.to_nat (e + len)).
      { apply length_take; lia. }
      destruct (take (Z.to_nat (e + len)) ds) as [|c r] eqn:T.
      * (* nothing before the point *)
        simpl in Hl; assert (e + len = 0) by lia.
        replace (Z.to_nat (e + len)) with 0%nat in * by lia.
        change (drop 0 ds) with ds.
        rewrite of_str_fixed;
          try reflexivity; try discriminate; try assumption.
        change ("0" ++ ds) with (String "0" ds).
        rewrite str_int_digits_zero_head, Hn.
        replace (0 - Z.of_nat (String.length ds)) with e by lia.
        repeat split; auto using eq_refl_finite.
      * rewrite <- T.
        rewrite of_str_fixed;
          auto using all_digits_take, all_digits_drop;
          try (rewrite T; discriminate).
        rewrite take_drop, Hn, length_drop.
        replace (0 - Z.of_nat (String.length ds - Z.to_nat (e + len))) with e by lia.
        repeat split; auto using eq_refl_finite.
Qed.

End DecFormat.

(** ** Dates and times: the reference parsers invert [isoformat] *)

Module CalFacts.
Import Txt TxtFacts Cal.

Lemma digit_val_char d : 0 <= d <= 9 -> digit_val (digit_char d) = Some d.
Proof.
  intros H.
  assert (d = 0 \/ d = 1 \/ d = 2 \/ d = 3 \/ d = 4 \/ d = 5 \/ d = 6 \/
          d = 7 \/ d = 8 \/ d = 9) as D by lia.
  repeat (destruct D as [-> | D]; [reflexivity|]); now subst.
Qed.

Lemma is_digit_char d : is_digit (digit_char d) = true.
Proof.
  destruct d as [|p|p]; try reflexivity.
  do 4 (destruct p as [p|p|]; try reflexivity).
Qed.

Lemma length_fixed_digits w n : String.length (fixed_digits w n) = w.
Proof.
  revert n; induction w as [|w IH]; intros n; simpl; [reflexivity|].
  rewrite length_append, IH; simpl; lia.
Qed.

Lemma all_digits_fixed_digits w n : all_digits (fixed_digits w n) = true.
Proof.
  revert n; induction w as [|w IH]; intros n; simpl; [reflexivity|].
  rewrite all_digits_app, IH; simpl; now rewrite is_digit_char.
Qed.

Lemma digits_value_app acc a b :
  digits_value acc (a ++ b) =
  match digits_value acc a with
  | Some x => digits_value x b
  | None => None
  end.
Proof.
  revert acc; induction a as [|c a IH]; intros acc; simpl; [reflexivity|].
  destruct (digit_val c); [apply IH | reflexivity].
Qed.

Lemma digits_value_fixed w n acc :
  0 <= n ->
  digits_value acc (fixed_digits w n)
  = Some (acc * 10 ^ Z.of_nat w + n mod 10 ^ Z.of_nat w).
Proof.
  revert n acc; induction w as [|w IH]; intros n acc Hn.
  - simpl; f_equal; rewrite Z.mod_1_r; lia.
  - cbn [fixed_digits].
    rewrite digits_value_app, IH by (apply Z.div_pos; lia).
    cbn [digits_value].
    rewrite digit_val_char by (pose proof (Z.mod_pos_bound n 10); lia).
    f_equal.
    rewrite Nat2Z.inj_succ, Z.pow_succ_r by lia.
    assert (0 < 10 ^ Z.of_nat w) by (apply Z.pow_pos_nonneg; lia).
    rewrite (Z.rem_mul_r n 10 (10 ^ Z.of_nat w)) by lia.
    lia.
Qed.

Lemma fmt_0d_fixed w n : n < 10 ^ Z.of_nat w -> fmt_0d w n = fixed_digits w n.
Proof. intros H; unfold fmt_0d; apply Z.ltb_lt in H; now rewrite H. Qed.

Lemma read_digits_fixed w n rest :
  0 <= n < 10 ^ Z.of_nat w ->
  read_digits w (fixed_digits w n ++ rest) = Some (n, rest).
Proof.
  intros [H0 H1]; unfold read_digits.
  rewrite length_append, length_fixed_digits.
  assert (Nat.ltb (w + String.length rest) w = false) as ->
    by (apply Nat.ltb_ge; lia).
  pose proof (take_app_length (fixed_digits w n) rest) as T.
  pose proof (drop_app_length (fixed_digits w n) rest) as D.
  rewrite length_fixed_digits in T, D; rewrite T, D.
  rewrite digits_value_fixed by assumption.
  rewrite Z.mod_small by lia; reflexivity.
Qed.

Lemma read_digits_fixed_end w n :
  0 <= n < 10 ^ Z.of_nat w ->
  read_digits w (fixed_digits w n) = Some (n, "").
Proof.
  intros H; rewrite <- (append_nil_r (fixed_digits w n)) at 1.
  now apply read_digits_fixed.
Qed.

Lemma nth_days_in_month_le k : nth k DAYS_IN_MONTH (-1) <= 31.
Proof.
  unfold DAYS_IN_MONTH.
  do 13 (destruct k as [|k]; [simpl; lia|]).
  destruct k; simpl; lia.
Qed.

Lemma days_in_month_le y m : days_in_month y m <= 31.
Proof.
  unfold days_in_month.
  destruct ((m =? 2) && is_leap y); [lia | apply nth_days_in_month_le].
Qed.

Lemma check_date_fields_bounds y m d :
  check_date_fields y m d = true ->
  0 <= y < 10 ^ 4 /\ 0 <= m < 10 ^ 2 /\ 0 <= d < 10 ^ 2.
Proof.
  unfold check_date_fields; intros H.
  repeat (apply andb_true_iff in H as [H ?]).
  pose proof (days_in_month_le y m).
  repeat match goal with
         | h : (_ <=? _) = true |- _ => apply Z.leb_le in h
         end.
  lia.
Qed.

Lemma parse_date_fields_isoformat y m d :
  check_date_fields y m d = true ->
  parse_date_fields (date_isoformat (mkdate y m d)) = Some (y, m, d).
Proof.
  intros H; apply check_date_fields_bounds in H as (Hy & Hm & Hd).
  unfold date_isoformat, parse_date_fields; cbn [year month day].
  rewrite (fmt_0d_fixed 4), !(fmt_0d_fixed 2) by (simpl Z.of_nat; lia).
  rewrite read_digits_fixed by (simpl Z.of_nat; lia).
  cbn [String.append read_char]; change (Ascii.eqb "-" "-") with true; cbv iota.
  rewrite read_digits_fixed by (simpl Z.of_nat; lia).
  cbn [String.append read_char]; change (Ascii.eqb "-" "-") with true; cbv iota.
  now rewrite read_digits_fixed_end by (simpl Z.of_nat; lia).
Qed.

(** [date.fromisoformat(d.isoformat()) == d]. *)
Theorem parse_date_isoformat d :
  valid_date d -> parse_date (date_isoformat d) = Some d.
Proof.
  destruct d as [y m dd]; unfold valid_date; cbn [year month day]; intros H.
  unfold parse_date.
  rewrite (parse_date_fields_isoformat y m dd H).
  now rewrite H.
Qed.

(** *** Times and offsets *)

Lemma fixed2_bounds_time hh mm ss us :
  check_time_fields hh mm ss us = true ->
  0 <= hh < 10 ^ 2 /\ 0 <= mm < 10 ^ 2 /\ 0 <= ss < 10 ^ 2 /\ 0 <= us < 10 ^ 6.
Proof.
  unfold check_time_fields; intros H.
  repeat (apply andb_true_iff in H as [H ?]).
  repeat match goal with
         | h : (_ <=? _) = true |- _ => apply Z.leb_le in h
         end.
  lia.
Qed.

Lemma no_sign_app a b : no_sign (a ++ b) = no_sign a && no_sign b.
Proof.
  induction a as [|c a IH]; simpl; [reflexivity|].
  now rewrite IH, andb_assoc.
Qed.

Lemma no_sign_digits s : all_digits s = true -> no_sign s = true.
Proof.
  induction s as [|c r IH]; simpl; [reflexivity|].
  intros H; apply andb_true_iff in H as [Hc Hr].
  rewrite (IH Hr), andb_true_r.
  destruct c as [[] [] [] [] [] [] [] []]; simpl in Hc;
    try discriminate Hc; reflexivity.
Qed.

Lemma no_sign_fixed w n : no_sign (fixed_digits w n) = true.
Proof. apply no_sign_digits, all_digits_fixed_digits. Qed.

Lemma find_char_no_sign s :
  no_sign s = true -> find_char "-" s = None /\ find_char "+" s = None.
Proof.
  induction s as [|c r IH]; simpl; [auto|].
  intros H; apply andb_true_iff in H as [Hc Hr].
  destruct (IH Hr) as [-> ->].
  apply andb_true_iff in Hc as [H1 H2].
  apply negb_true_iff in H1, H2.
  now rewrite H1, H2.
Qed.

Lemma find_char_app c a b :
  find_char c a = None ->
  find_char c (a ++ String c b) = Some (String.length a).
Proof.
  induction a as [|x a IH]; simpl.
  - now rewrite Ascii.eqb_refl.
  - destruct (Ascii.eqb x c); [discriminate|].
    destruct (find_char c a); [discriminate|].
    intros _; now rewrite IH.
Qed.

Lemma find_char_app_none c a b :
  find_char c a = None -> find_char c b = None -> find_char c (a ++ b) = None.
Proof.
  induction a as [|x a IH]; simpl; [auto|].
  destruct (Ascii.eqb x c); [discriminate|].
  destruct (find_char c a); [discriminate|].
  intros _ H; now rewrite IH.
Qed.

Lemma no_sign_format_time hh mm ss us :
  no_sign (format_time hh mm ss us) = true.
Proof.
  unfold format_time, fmt_0d.
  repeat match goal with
         | |- context [if ?b then _ else _] => destruct b
         end;
    rewrite ?no_sign_app, ?no_sign_fixed,
      ?(no_sign_digits _ (all_digits_str_N _)); reflexivity.
Qed.

Lemma parse_fraction_fixed us :
  0 <= us < 10 ^ 6 -> parse_fraction (fixed_digits 6 us) = Some us.
Proof.
  intros H; unfold parse_fraction.
  rewrite length_fixed_digits.
  rewrite digits_value_fixed by lia.
  f_equal; rewrite Z.mod_small by (simpl Z.of_nat; lia); lia.
Qed.

Lemma parse_time_print hh mm ss us :
  check_time_fields hh mm ss us = true ->
  parse_hh_mm_ss_ff (format_time hh mm ss us) = Some (hh, mm, ss, us).
Proof.
  intros H; apply fixed2_bounds_time in H as (Hh & Hm & Hs & Hu).
  unfold format_time, parse_hh_mm_ss_ff.
  rewrite !(fmt_0d_fixed 2) by (simpl Z.of_nat; lia).
  rewrite read_digits_fixed by (simpl Z.of_nat; lia).
  cbn [String.append]; cbv iota.
  rewrite read_digits_fixed by (simpl Z.of_nat; lia).
  cbn [String.append]; cbv iota.
  destruct (us =? 0) eqn:E.
  - apply Z.eqb_eq in E; subst us.
    now rewrite read_digits_fixed by (simpl Z.of_nat; lia).
  - rewrite read_digits_fixed by (simpl Z.of_nat; lia).
    cbn [String.append]; cbv iota.
    rewrite (fmt_0d_fixed 6) by (simpl Z.of_nat; lia).
    now rewrite parse_fraction_fixed by lia.
Qed.

Lemma offset_parts a :
  0 <= a < day_us ->
  let hh := a / 3600000000 in
  let r := a mod 3600000000 in
  let mm := r / 60000000 in
  let ss := r mod 60000000 in
  0 <= hh < 24 /\ 0 <= mm < 60 /\ 0 <= ss / 1000000 < 60 /\
  0 <= ss mod 1000000 < 1000000 /\
  ((hh * 60 + mm) * 60 + ss / 1000000) * 1000000 + ss mod 1000000 = a /\
  (ss = 0 -> (hh * 60 + mm) * 60 * 1000000 = a) /\
  (ss mod 1000000 = 0 -> ((hh * 60 + mm) * 60 + ss / 1000000) * 1000000 = a).
Proof.
  unfold day_us; intros Ha; cbv zeta.
  pose proof (Z.div_mod a 3600000000 ltac:(lia)) as E1.
  pose proof (Z.mod_pos_bound a 3600000000 ltac:(lia)) as B1.
  pose proof (Z.div_mod (a mod 3600000000) 60000000 ltac:(lia)) as E2.
  pose proof (Z.mod_pos_bound (a mod 3600000000) 60000000 ltac:(lia)) as B2.
  pose proof (Z.div_mod ((a mod 3600000000) mod 60000000) 1000000 ltac:(lia)) as E3.
  pose proof (Z.mod_pos_bound ((a mod 3600000000) mod 60000000) 1000000 ltac:(lia)) as B3.
  set (hh := a / 3600000000) in *.
  set (r := a mod 3600000000) in *.
  set (mm := r / 60000000) in *.
  set (ss := r mod 60000000) in *.
  set (s1 := ss / 1000000) in *.
  set (u1 := ss mod 1000000) in *.
  repeat split; try lia.
Qed.

Lemma parse_offset_print negative a :
  0 <= a < day_us ->
  parse_offset negative (offset_body a)
  = Some (Some (if negative then - a else a)).
Proof.
  intros Ha; pose proof (offset_parts a Ha) as P; cbv zeta in P.
  destruct P as (Hh & Hm & Hs & Hu & Eall & Ezero & Esec).
  unfold offset_body, parse_offset.
  rewrite !(fmt_0d_fixed 2) by (simpl Z.of_nat; lia).
  assert (Hchk : forall o, o = a ->
            check_offset (Some (if negative then - o else o)) = true).
  { intros o ->; unfold check_offset.
    apply andb_true_iff; split; apply Z.ltb_lt; destruct negative; lia. }
  destruct (a mod 3600000000 mod 60000000 =? 0) eqn:E0.
  - apply Z.eqb_eq in E0.
    rewrite !length_append, !length_fixed_digits; cbn [String.length Nat.add].
    unfold parse_hh_mm_ss_ff.
    rewrite read_digits_fixed by (simpl Z.of_nat; lia).
    cbn [String.append]; cbv iota.
    rewrite append_nil_r, read_digits_fixed_end by (simpl Z.of_nat; lia).
    cbv iota beta.
    rewrite !Z.add_0_r, (Ezero E0).
    now rewrite Hchk.
  - destruct (a mod 3600000000 mod 60000000 mod 1000000 =? 0) eqn:E1.
    + apply Z.eqb_eq in E1.
      rewrite !length_append, !length_fixed_digits; cbn [String.length Nat.add].
      unfold parse_hh_mm_ss_ff.
      rewrite read_digits_fixed by (simpl Z.of_nat; lia).
      cbn [String.append]; cbv iota.
      rewrite read_digits_fixed by (simpl Z.of_nat; lia).
      cbn [String.append]; cbv iota.
      rewrite append_nil_r, read_digits_fixed_end by (simpl Z.of_nat; lia).
      cbv iota beta.
      rewrite !Z.add_0_r, (Esec E1).
      now rewrite Hchk.
    + rewrite (fmt_0d_fixed 6) by (simpl Z.of_nat; lia).
      rewrite !length_append, !length_fixed_digits; cbn [String.length Nat.add].
      unfold parse_hh_mm_ss_ff.
      rewrite read_digits_fixed by (simpl Z.of_nat; lia).
      cbn [String.append]; cbv iota.
      rewrite read_digits_fixed by (simpl Z.of_nat; lia).
      cbn [String.append]; cbv iota.
      rewrite read_digits_fixed by (simpl Z.of_nat; lia).
      cbn [String.append]; cbv iota.
      rewrite parse_fraction_fixed by lia.
      cbv iota beta.
      rewrite Eall.
      now rewrite Hchk.
Qed.

Lemma no_sign_offset_body a : no_sign (offset_body a) = true.
Proof.
  unfold offset_body, fmt_0d.
  repeat match goal with
         | |- context [if ?b then _ else _] => destruct b
         end;
    rewrite ?no_sign_app, ?no_sign_fixed,
      ?(no_sign_digits _ (all_digits_str_N _)); reflexivity.
Qed.

Lemma format_offset_body o :
  format_offset (Some o) = (if o <? 0 then "-" else "+") ++ offset_body (Z.abs o).
Proof. reflexivity. Qed.

Lemma parse_isoformat_time_print hh mm ss us off :
  check_time_fields hh mm ss us = true ->
  check_offset off = true ->
  parse_isoformat_time (format_time hh mm ss us ++ format_offset off)
  = Some (hh, mm, ss, us, off).
Proof.
  intros Ht Ho.
  pose proof (find_char_no_sign _ (no_sign_format_time hh mm ss us)) as [Fm Fp].
  unfold parse_isoformat_time.
  destruct off as [o|].
  - rewrite format_offset_body.
    pose proof (find_char_no_sign _ (no_sign_offset_body (Z.abs o))) as [Bm Bp].
    unfold check_offset in Ho; apply andb_true_iff in Ho as [H1 H2].
    apply Z.ltb_lt in H1, H2.
    assert (Ha : 0 <= Z.abs o < day_us) by lia.
    destruct (o <? 0) eqn:E.
    + apply Z.ltb_lt in E.
      change ("-" ++ offset_body (Z.abs o)) with (String "-" (offset_body (Z.abs o))).
      rewrite find_char_app by assumption.
      rewrite take_app_length.
      replace (drop (S (String.length (format_time hh mm ss us)))
                 (format_time hh mm ss us ++ String "-" (offset_body (Z.abs o))))
        with (offset_body (Z.abs o)).
      2:{ pose proof (drop_app_length (format_time hh mm ss us ++ "-")
                        (offset_body (Z.abs o))) as D.
          rewrite length_append, append_assoc in D; simpl in D.
          rewrite Nat.add_1_r in D; now rewrite D. }
      rewrite parse_time_print, parse_offset_print by assumption.
      repeat f_equal; lia.
    + apply Z.ltb_ge in E.
      change ("+" ++ offset_body (Z.abs o)) with (String "+" (offset_body (Z.abs o))).
      assert (find_char "-" (format_time hh mm ss us
                               ++ String "+" (offset_body (Z.abs o))) = None) as ->.
      { apply find_char_app_none; [assumption|].
        simpl; now rewrite Bm. }
      rewrite find_char_app by assumption.
      rewrite take_app_length.
      replace (drop (S (String.length (format_time hh mm ss us)))
                 (format_time hh mm ss us ++ String "+" (offset_body (Z.abs o))))
        with (offset_body (Z.abs o)).
      2:{ pose proof (drop_app_length (format_time hh mm ss us ++ "+")
                        (offset_body (Z.abs o))) as D.
          rewrite length_append, append_assoc in D; simpl in D.
          rewrite Nat.add_1_r in D; now rewrite D. }
      rewrite parse_time_print, parse_offset_print by assumption.
      repeat f_equal; lia.
  - simpl format_offset; rewrite append_nil_r, Fm, Fp.
    now rewrite parse_time_print.
Qed.

Lemma length_date_isoformat y m d :
  check_date_fields y m d = true ->
  String.length (date_isoformat (mkdate y m d)) = 10%nat.
Proof.
  intros H; apply check_date_fields_bounds in H as (Hy & Hm & Hd).
  unfold date_isoformat; cbn [year month day].
  rewrite (fmt_0d_fixed 4), !(fmt_0d_fixed 2) by (simpl Z.of_nat; lia).
  rewrite !length_append, !length_fixed_digits; reflexivity.
Qed.

Lemma format_time_head hh mm ss us rest :
  check_time_fields hh mm ss us = true ->
  exists c r, format_time hh mm ss us ++ rest = String c r.
Proof.
  intros H; apply fixed2_bounds_time in H as (Hh & _).
  unfold format_time.
  rewrite (fmt_0d_fixed 2 hh) by (simpl Z.of_nat; lia).
  cbn [fixed_digits String.append]; eauto.
Qed.

(** [datetime.fromisoformat(t.isoformat()) == t], whatever the separator. *)
Theorem parse_datetime_isoformat sep t :
  valid_datetime t -> parse_datetime (datetime_isoformat sep t) = Some t.
Proof.
  destruct t as [y m d hh mm ss us off].
  unfold valid_datetime; cbn [dt_year dt_month dt_day hour minute second
                               microsecond utcoffset].
  intros (Hd & Ht & Ho).
  unfold parse_datetime, datetime_isoformat;
    cbn [dt_year dt_month dt_day hour minute second microsecond utcoffset].
  pose proof (length_date_isoformat y m d Hd) as L.
  pose proof (parse_date_fields_isoformat y m d Hd) as P.
  unfold date_isoformat in L, P; cbn [year month day] in L, P.
  set (time := format_time hh mm ss us ++ format_offset off).
  assert (E : fmt_0d 4 y ++ "-" ++ fmt_0d 2 m ++ "-" ++ fmt_0d 2 d ++
              String sep "" ++ time
              = (fmt_0d 4 y ++ "-" ++ fmt_0d 2 m ++ "-" ++ fmt_0d 2 d)
                ++ String sep time).
  { now rewrite !append_assoc. }
  rewrite E.
  pose proof (take_app_length
                (fmt_0d 4 y ++ "-" ++ fmt_0d 2 m ++ "-" ++ fmt_0d 2 d)
                (String sep time)) as T.
  rewrite L in T; rewrite T, P.
  assert (D : drop 11 ((fmt_0d 4 y ++ "-" ++ fmt_0d 2 m ++ "-" ++ fmt_0d 2 d)
                         ++ String sep time) = time).
  { replace 11%nat
      with (String.length ((fmt_0d 4 y ++ "-" ++ fmt_0d 2 m ++ "-" ++ fmt_0d 2 d)
                             ++ String sep ""))
      by (rewrite length_append, L; reflexivity).
    replace ((fmt_0d 4 y ++ "-" ++ fmt_0d 2 m ++ "-" ++ fmt_0d 2 d)
               ++ String sep time)
      with (((fmt_0d 4 y ++ "-" ++ fmt_0d 2 m ++ "-" ++ fmt_0d 2 d)
               ++ String sep "") ++ time)
      by (rewrite append_assoc; reflexivity).
    apply drop_app_length. }
  rewrite D.
  destruct (format_time_head hh mm ss us (format_offset off) Ht) as (c & r & Hcr).
  subst time; rewrite Hcr, <- Hcr.
  rewrite parse_isoformat_time_print by assumption.
  now rewrite Hd, Ht.
Qed.

End CalFacts.

Example date_examples :
  Cal.date_isoformat (Cal.mkdate 2024 1 15) = "2024-01-15" /\
  Cal.parse_date "2024-01-15" = Some (Cal.mkdate 2024 1 15) /\
  Cal.parse_date "2024-13-45" = None /\
  Cal.parse_date "2023-02-29" = None /\
  Cal.parse_date "2024-02-29" = Some (Cal.mkdate 2024 2 29) /\
  Cal.parse_date "not-a-date" = None.
Proof. repeat split; reflexivity. Qed.

Example datetime_examples :
  Cal.datetime_isoformat "T"
    (Cal.mkdatetime 2024 1 15 9 30 0 0 (Some (-18000000000)))
  = "2024-01-15T09:30:00-05:00" /\
  Cal.datetime_isoformat "T"
    (Cal.mkdatetime 2024 1 15 9 30 0 123456 (Some 19800000000))
  = "2024-01-15T09:30:00.123456+05:30" /\
  Cal.datetime_isoformat "T"
    (Cal.mkdatetime 2024 1 15 9 30 0 0 (Some 1000000))
  = "2024-01-15T09:30:00+00:00:01" /\
  Cal.datetime_isoformat "T"
    (Cal.mkdatetime 2024 1 15 9 30 0 0 (Some (-1)))
  = "2024-01-15T09:30:00-00:00:00.000001" /\
  Cal.parse_datetime "2024-01-15T09:30:00-05:00"
  = Some (Cal.mkdatetime 2024 1 15 9 30 0 0 (Some (-18000000000))) /\
  Cal.parse_datetime "2024-01-15T09:30:00.123456+05:30"
  = Some (Cal.mkdatetime 2024 1 15 9 30 0 123456 (Some 19800000000)) /\
  Cal.parse_datetime "2024-01-15T09:30:00"
  = Some (Cal.mkdatetime 2024 1 15 9 30 0 0 None) /\
  Cal.parse_datetime "2024-01-15"
  = Some (Cal.mkdatetime 2024 1 15 0 0 0 0 None) /\
  Cal.parse_datetime "2024-01-15T25:00:00" = None /\
  Cal.parse_datetime "yesterday" = None.
Proof. repeat split; reflexivity. Qed.

(** ** [decimal.Decimal]: when [str] uses an exponent *)

Module DecNotation.
Import Txt TxtFacts Dec DecFacts.

Lemma positional_sign sg ip rest :
  all_digits ip = true -> ip <> "" -> no_digit_head rest ->
  positional (sign_text sg ++ ip ++ rest)
  = match rest with
    | "" => true
    | String "." f => negb (String.eqb f "") && all_digits f
    | _ => false
    end.
Proof.
  intros Hi Hne Hr; unfold positional.
  assert (E : match sign_text sg ++ ip ++ rest with
              | String "-" r => r
              | _ => sign_text sg ++ ip ++ rest
              end = ip ++ rest).
  { destruct sg; [reflexivity|]; cbn [sign_text String.append].
    destruct ip as [|c r]; [congruence|]; simpl in Hi.
    apply andb_true_iff in Hi as [Hc _].
    destruct c as [[] [] [] [] [] [] [] []]; simpl in Hc;
      try discriminate Hc; reflexivity. }
  rewrite E, span_digits_app by assumption.
  destruct ip; [congruence | reflexivity].
Qed.

Lemma positional_plain sg ip fopt :
  all_digits ip = true -> ip <> "" ->
  all_digits (frac_of fopt) = true -> fopt <> Some "" ->
  positional (sign_text sg ++ ip ++ frac_text fopt ++ "") = true.
Proof.
  intros Hi Hne Hf Hn; rewrite append_nil_r.
  rewrite positional_sign by (try assumption; destruct fopt; simpl; auto).
  destruct fopt as [fp|]; [|reflexivity]; simpl in *.
  rewrite Hf; destruct fp; [congruence | reflexivity].
Qed.

Lemma positional_scientific sg ip fopt x :
  all_digits ip = true -> ip <> "" ->
  positional (sign_text sg ++ ip ++ frac_text fopt ++ "E" ++ x) = false.
Proof.
  intros Hi Hne.
  rewrite positional_sign by (try assumption; destruct fopt; simpl; auto).
  destruct fopt as [fp|]; [|reflexivity]; simpl.
  rewrite all_digits_app; simpl; now rewrite andb_false_r, andb_false_r.
Qed.

(** [str] writes a finite number without an exponent exactly when its
    exponent is at most 0 and more than -6 of its digits are left of the
    point. *)
Theorem positional_str sg ds e :
  canonical (mk sg ds (Exp e)) ->
  positional (str (mk sg ds (Exp e)))
  = (e <=? 0) && (-6 <? e + Z.of_nat (String.length ds)).
Proof.
  intros [Hd [Hne Hn]]; simpl in Hd, Hne, Hn.
  unfold str; simpl d_sign; simpl d_int; simpl d_exp.
  fold (sign_text sg); cbv beta iota zeta.
  assert (Hlen : 1 <= Z.of_nat (String.length ds)).
  { destruct ds; [congruence | simpl; lia]. }
  remember (Z.of_nat (String.length ds)) as len eqn:Elen.
  destruct ((e <=? 0) && (-6 <? e + len)) eqn:C1.
  - apply andb_true_iff in C1 as [Ce _]; apply Z.leb_le in Ce.
    rewrite Z.eqb_refl.
    destruct (e + len <=? 0) eqn:C2; [|destruct (len <=? e + len) eqn:C3].
    + apply (positional_plain sg "0"
               (Some (zeros (Z.to_nat (- (e + len))) ++ ds)));
        try reflexivity; try discriminate.
      * simpl; now rewrite all_digits_app, all_digits_zeros.
      * intros [= E]; apply (f_equal String.length) in E.
        rewrite length_append in E; simpl in E; lia.
    + apply Z.leb_le in C3; assert (e = 0) by lia; subst e.
      replace (0 + len - len) with 0 by lia; simpl zeros.
      rewrite append_nil_r.
      apply (positional_plain sg ds None); auto; discriminate.
    + apply Z.leb_gt in C2; apply Z.leb_gt in C3.
      apply (positional_plain sg (take (Z.to_nat (e + len)) ds)
               (Some (drop (Z.to_nat (e + len)) ds)));
        auto using all_digits_take, all_digits_drop.
      * intros E; apply (f_equal String.length) in E.
        rewrite length_take in E by lia; simpl in E; lia.
      * simpl; auto using all_digits_drop.
      * intros [= E]; apply (f_equal String.length) in E.
        rewrite length_drop in E; simpl in E; lia.
  - change (1 <=? 0) with false; cbv iota.
    assert (Hx : (e + len =? 1) = false).
    { apply Z.eqb_neq; intros E1.
      apply andb_false_iff in C1 as [C|C];
        [apply Z.leb_gt in C | apply Z.ltb_ge in C]; lia. }
    rewrite Hx.
    destruct (len <=? 1) eqn:C3.
    + apply (positional_scientific sg _ None); [|destruct ds; [congruence|discriminate]].
      now rewrite all_digits_app, all_digits_zeros, Hd.
    + apply Z.leb_gt in C3.
      apply (positional_scientific sg (take (Z.to_nat 1) ds)
               (Some (drop (Z.to_nat 1) ds))); auto using all_digits_take.
      intros E; apply (f_equal String.length) in E.
      rewrite length_take in E by lia; simpl in E; lia.
Qed.

End DecNotation.

(** * The claims *)

Section CodecFacts.
Context {pyfloat : Type} {lib : @Library pyfloat}.
Import Txt TxtFacts.

(** ** Tagged path *)

Lemma dumps_stock sym d o h l c v :
  json_dumps CustomEncoder_default
    (VStock (Stock.init (VStr sym) (VDate d) (VDecimal o) (VDecimal h)
                        (VDecimal l) (VDecimal c) (VInt v)))
  = Ok (JObject [ ("__type__", JStr "Stock"); ("symbol", JStr sym);
                  ("date", JStr (Cal.date_isoformat d));
                  ("open", JStr (Dec.str o)); ("high", JStr (Dec.str h));
                  ("low", JStr (Dec.str l)); ("close", JStr (Dec.str c));
                  ("volume", JInt v) ]).
Proof. reflexivity. Qed.

Lemma loads_stock sym d o h l c v :
  LibraryContract -> Cal.valid_date d ->
  Dec.canonical o -> Dec.canonical h -> Dec.canonical l -> Dec.canonical c ->
  json_loads custom_decoder
    (JObject [ ("__type__", JStr "Stock"); ("symbol", JStr sym);
               ("date", JStr (Cal.date_isoformat d));
               ("open", JStr (Dec.str o)); ("high", JStr (Dec.str h));
               ("low", JStr (Dec.str l)); ("close", JStr (Dec.str c));
               ("volume", JInt v) ])
  = Ok (VStock (Stock.init (VStr sym) (VDate d) (VDecimal o) (VDecimal h)
                           (VDecimal l) (VDecimal c) (VInt v))).
Proof.
  intros C Hd Ho Hh Hl Hc.
  change (json_loads custom_decoder _) with
    (custom_decoder
       [ ("__type__", VStr "Stock"); ("symbol", VStr sym);
         ("date", VStr (Cal.date_isoformat d));
         ("open", VStr (Dec.str o)); ("high", VStr (Dec.str h));
         ("low", VStr (Dec.str l)); ("close", VStr (Dec.str c));
         ("volume", VInt v) ]).
  cbv - [Cal.date_isoformat Dec.str Dec.of_str date_fromisoformat].
  rewrite (date_fromisoformat_isoformat C d Hd).
  now rewrite !DecFacts.of_str_str by assumption.
Qed.

Lemma tagged_roundtrip_stock sym d o h l c v :
  LibraryContract -> Cal.valid_date d ->
  Dec.canonical o -> Dec.canonical h -> Dec.canonical l -> Dec.canonical c ->
  tagged_roundtrip
    (VStock (Stock.init (VStr sym) (VDate d) (VDecimal o) (VDecimal h)
                        (VDecimal l) (VDecimal c) (VInt v)))
  = Ok (VStock (Stock.init (VStr sym) (VDate d) (VDecimal o) (VDecimal h)
                           (VDecimal l) (VDecimal c) (VInt v))).
Proof.
  intros; unfold tagged_roundtrip.
  rewrite dumps_stock; cbn [bind].
  now apply loads_stock.
Qed.

Lemma dumps_trade sym ts ord p v c :
  json_dumps CustomEncoder_default
    (VTrade (Trade.init (VStr sym) (VDateTime ts) (VStr ord) (VDecimal p)
                        (VInt v) (VDecimal c)))
  = Ok (JObject [ ("__type__", JStr "Trade"); ("symbol", JStr sym);
                  ("timestamp", JStr (Cal.datetime_isoformat "T" ts));
                  ("order", JStr ord); ("price", JStr (Dec.str p));
                  ("volume", JInt v); ("commission", JStr (Dec.str c)) ]).
Proof. reflexivity. Qed.

Lemma loads_trade sym ts ord p v c :
  LibraryContract -> Cal.valid_datetime ts -> Cal.iso_offset ts ->
  Dec.canonical p -> Dec.canonical c ->
  json_loads custom_decoder
    (JObject [ ("__type__", JStr "Trade"); ("symbol", JStr sym);
               ("timestamp", JStr (Cal.datetime_isoformat "T" ts));
               ("order", JStr ord); ("price", JStr (Dec.str p));
               ("volume", JInt v); ("commission", JStr (Dec.str c)) ])
  = Ok (VTrade (Trade.init (VStr sym) (VDateTime ts) (VStr ord) (VDecimal p)
                           (VInt v) (VDecimal c))).
Proof.
  intros C Ht Hi Hp Hc.
  change (json_loads custom_decoder _) with
    (custom_decoder
       [ ("__type__", VStr "Trade"); ("symbol", VStr sym);
         ("timestamp", VStr (Cal.datetime_isoformat "T" ts));
         ("order", VStr ord); ("price", VStr (Dec.str p));
         ("volume", VInt v); ("commission", VStr (Dec.str c)) ]).
  cbv - [Cal.datetime_isoformat Dec.str Dec.of_str datetime_fromisoformat].
  rewrite (datetime_fromisoformat_isoformat C ts Ht Hi).
  now rewrite !DecFacts.of_str_str by assumption.
Qed.

Lemma tagged_roundtrip_trade sym ts ord p v c :
  LibraryContract -> Cal.valid_datetime ts -> Cal.iso_offset ts ->
  Dec.canonical p -> Dec.canonical c ->
  tagged_roundtrip
    (VTrade (Trade.init (VStr sym) (VDateTime ts) (VStr ord) (VDecimal p)
                        (VInt v) (VDecimal c)))
  = Ok (VTrade (Trade.init (VStr sym) (VDateTime ts) (VStr ord) (VDecimal p)
                           (VInt v) (VDecimal c))).
Proof.
  intros; unfold tagged_roundtrip.
  rewrite dumps_trade; cbn [bind].
  now apply loads_trade.
Qed.

(** ** Schema path *)

Lemma serialize_stock sym d o h l c v :
  Dec.canonical o -> Dec.canonical h -> Dec.canonical l -> Dec.canonical c ->
  serialize_with_marshmallow
    (VStock (Stock.init (VStr sym) (VDate d) (VDecimal o) (VDecimal h)
                        (VDecimal l) (VDecimal c) (VInt v)))
  = Ok (JObject [ ("symbol", JStr sym);
                  ("date", JStr (Cal.date_isoformat d));
                  ("open", JStr (Dec.format_f o));
                  ("high", JStr (Dec.format_f h));
                  ("low", JStr (Dec.format_f l));
                  ("close", JStr (Dec.format_f c));
                  ("volume", JInt v) ]).
Proof.
  intros Ho Hh Hl Hc.
  cbv - [Cal.date_isoformat Dec.str Dec.of_str Dec.format_f].
  now rewrite !DecFacts.of_str_str by assumption.
Qed.

Lemma serialize_trade sym ts ord p v c :
  Dec.canonical p -> Dec.canonical c ->
  serialize_with_marshmallow
    (VTrade (Trade.init (VStr sym) (VDateTime ts) (VStr ord) (VDecimal p)
                        (VInt v) (VDecimal c)))
  = Ok (JObject [ ("symbol", JStr sym);
                  ("timestamp", JStr (Cal.datetime_isoformat "T" ts));
                  ("order", JStr ord); ("price", JStr (Dec.format_f p));
                  ("volume", JInt v); ("commission", JStr (Dec.format_f c)) ]).
Proof.
  intros Hp Hc.
  cbv - [Cal.datetime_isoformat Dec.str Dec.of_str Dec.format_f].
  now rewrite !DecFacts.of_str_str by assumption.
Qed.

Lemma date_isoformat_nonempty d :
  Cal.valid_date d -> String.eqb (Cal.date_isoformat d) "" = false.
Proof.
  destruct d as [y m dd]; intros H.
  pose proof (CalFacts.length_date_isoformat y m dd H) as L.
  destruct (Cal.date_isoformat (Cal.mkdate y m dd)); [discriminate | reflexivity].
Qed.

Lemma datetime_isoformat_nonempty sep t :
  Cal.valid_datetime t -> String.eqb (Cal.datetime_isoformat sep t) "" = false.
Proof.
  destruct t as [y m dd hh mm ss us off]; intros (H & _ & _).
  cbn [Cal.dt_year Cal.dt_month Cal.dt_day] in H.
  pose proof (CalFacts.length_date_isoformat y m dd H) as L.
  unfold Cal.date_isoformat in L; cbn [Cal.year Cal.month Cal.day] in L.
  unfold Cal.datetime_isoformat; cbn [Cal.dt_year Cal.dt_month Cal.dt_day].
  apply String.eqb_neq; intros E.
  apply (f_equal String.length) in E.
  rewrite !length_append in E; rewrite !length_append in L.
  simpl String.length in *; lia.
Qed.

(** What the schema decoder makes of a fixed-point decimal. *)
Lemma price_reparse d :
  price_ok d ->
  exists d', Dec.of_str (Dec.format_f d) = Ok d' /\
             Dec.is_special d' = false /\ Dec.eq d' d = true.
Proof.
  intros [Hc Hf]; destruct d as [sg ds [e| | |]]; try discriminate Hf.
  destruct (DecFormat.of_str_format_f sg ds e Hc) as (d' & H1 & H2 & H3 & _).
  eauto.
Qed.

Lemma deserialize_stock sym d o h l c v :
  LibraryContract -> Cal.valid_date d ->
  price_ok o -> price_ok h -> price_ok l -> price_ok c ->
  exists o' h' l' c',
    deserialize_with_marshmallow
      (JObject [ ("symbol", JStr sym);
                 ("date", JStr (Cal.date_isoformat d));
                 ("open", JStr (Dec.format_f o));
                 ("high", JStr (Dec.format_f h));
                 ("low", JStr (Dec.format_f l));
                 ("close", JStr (Dec.format_f c));
                 ("volume", JInt v) ]) StockSchema
    = Ok (VStock (Stock.init (VStr sym) (VDate d) (VDecimal o') (VDecimal h')
                             (VDecimal l') (VDecimal c') (VInt v))) /\
    Dec.eq o' o = true /\ Dec.eq h' h = true /\
    Dec.eq l' l = true /\ Dec.eq c' c = true.
Proof.
  intros C Hd Ho Hh Hl Hc.
  destruct (price_reparse o Ho) as (o' & Eo & So & Qo).
  destruct (price_reparse h Hh) as (h' & Eh & Sh & Qh).
  destruct (price_reparse l Hl) as (l' & El & Sl & Ql).
  destruct (price_reparse c Hc) as (c' & Ec & Sc & Qc).
  exists o', h', l', c'; repeat split; try assumption.
  pose proof (date_isoformat_nonempty d Hd) as Ne.
  pose proof (from_iso_date_isoformat C d Hd) as Pd.
  cbv - [Cal.date_isoformat Dec.of_str Dec.format_f from_iso_date
         Dec.is_special String.eqb].
  cbn [String.eqb Ascii.eqb Bool.eqb].
  rewrite Ec, El, Eh, Eo, Sc, Sl, Sh, So, Ne, Pd.
  cbn [String.eqb Ascii.eqb Bool.eqb].
  reflexivity.
Qed.

Lemma deserialize_trade sym ts ord p v c :
  LibraryContract -> Cal.valid_datetime ts -> Cal.iso_offset ts ->
  price_ok p -> price_ok c ->
  exists p' c',
    deserialize_with_marshmallow
      (JObject [ ("symbol", JStr sym);
                 ("timestamp", JStr (Cal.datetime_isoformat "T" ts));
                 ("order", JStr ord); ("price", JStr (Dec.format_f p));
                 ("volume", JInt v); ("commission", JStr (Dec.format_f c)) ])
      TradeSchema
    = Ok (VTrade (Trade.init (VStr sym) (VDateTime ts) (VStr ord) (VDecimal p')
                             (VInt v) (VDecimal c'))) /\
    Dec.eq p' p = true /\ Dec.eq c' c = true.
Proof.
  intros C Ht Hi Hp Hc.
  destruct (price_reparse p Hp) as (p' & Ep & Sp & Qp).
  destruct (price_reparse c Hc) as (c' & Ec & Sc & Qc).
  exists p', c'; repeat split; try assumption.
  pose proof (datetime_isoformat_nonempty "T" ts Ht) as Ne.
  pose proof (from_iso_datetime_isoformat C ts Ht Hi) as Pd.
  cbv - [Cal.datetime_isoformat Dec.of_str Dec.format_f from_iso_datetime
         Dec.is_special String.eqb].
  cbn [String.eqb Ascii.eqb Bool.eqb].
  rewrite Ec, Ep, Sc, Sp, Ne, Pd.
  cbn [String.eqb Ascii.eqb Bool.eqb].
  reflexivity.
Qed.

Lemma schema_roundtrip_stock sym d o h l c v :
  LibraryContract -> Cal.valid_date d ->
  price_ok o -> price_ok h -> price_ok l -> price_ok c ->
  exists o' h' l' c',
    schema_roundtrip StockSchema
      (VStock (Stock.init (VStr sym) (VDate d) (VDecimal o) (VDecimal h)
                          (VDecimal l) (VDecimal c) (VInt v)))
    = Ok (VStock (Stock.init (VStr sym) (VDate d) (VDecimal o') (VDecimal h')
                             (VDecimal l') (VDecimal c') (VInt v))) /\
    Dec.eq o' o = true /\ Dec.eq h' h = true /\
    Dec.eq l' l = true /\ Dec.eq c' c = true.
Proof.
  intros C Hd Ho Hh Hl Hc; unfold schema_roundtrip.
  rewrite serialize_stock by (apply Ho || apply Hh || apply Hl || apply Hc).
  cbn [bind]; now apply deserialize_stock.
Qed.

Lemma schema_roundtrip_trade sym ts ord p v c :
  LibraryContract -> Cal.valid_datetime ts -> Cal.iso_offset ts ->
  price_ok p -> price_ok c ->
  exists p' c',
    schema_roundtrip TradeSchema
      (VTrade (Trade.init (VStr sym) (VDateTime ts) (VStr ord) (VDecimal p)
                          (VInt v) (VDecimal c)))
    = Ok (VTrade (Trade.init (VStr sym) (VDateTime ts) (VStr ord) (VDecimal p')
                             (VInt v) (VDecimal c'))) /\
    Dec.eq p' p = true /\ Dec.eq c' c = true.
Proof.
  intros C Ht Hi Hp Hc; unfold schema_roundtrip.
  rewrite serialize_trade by (apply Hp || apply Hc).
  cbn [bind]; now apply deserialize_trade.
Qed.

Lemma valid_stock_inv (s : Stock.t (@value pyfloat)) :
  valid_stock s ->
  exists sym d o h l c v,
    s = Stock.init (VStr sym) (VDate d) (VDecimal o) (VDecimal h)
                   (VDecimal l) (VDecimal c) (VInt v) /\
    Cal.valid_date d /\ price_ok o /\ price_ok h /\ price_ok l /\ price_ok c.
Proof.
  destruct s as [a b c d e f g]; intros H.
  destruct a; try contradiction; destruct b; try contradiction;
    destruct c; try contradiction; destruct d; try contradiction;
    destruct e; try contradiction; destruct f; try contradiction;
    destruct g; try contradiction.
  repeat eexists; apply H.
Qed.

Lemma valid_trade_inv (t : Trade.t (@value pyfloat)) :
  valid_trade t ->
  exists sym ts ord p v c,
    t = Trade.init (VStr sym) (VDateTime ts) (VStr ord) (VDecimal p)
                   (VInt v) (VDecimal c) /\
    Cal.valid_datetime ts /\ Cal.iso_offset ts /\ price_ok p /\ price_ok c.
Proof.
  destruct t as [a b c d e f]; intros H.
  destruct a; try contradiction; destruct b; try contradiction;
    destruct c; try contradiction; destruct d; try contradiction;
    destruct e; try contradiction; destruct f; try contradiction.
  repeat eexists; apply H.
Qed.

(** C1.  Decoding the encoding of a valid [Stock] or [Trade] gives the record
    back, on the tagged path (the very same attributes) and on the schema
    path (same symbol, date or timestamp, order and volume; decimals equal
    in value). *)
Theorem roundtrip_valid_records :
  LibraryContract ->
  (forall s, valid_stock s ->
     tagged_roundtrip (VStock s) = Ok (VStock s) /\
     exists s', schema_roundtrip StockSchema (VStock s) = Ok (VStock s') /\
                same_stock s' s) /\
  (forall t, valid_trade t ->
     tagged_roundtrip (VTrade t) = Ok (VTrade t) /\
     exists t', schema_roundtrip TradeSchema (VTrade t) = Ok (VTrade t') /\
                same_trade t' t).
Proof.
  intros C; split.
  - intros s Hs.
    destruct (valid_stock_inv s Hs)
      as (sym & d & o & h & l & c & v & -> & Hd & Ho & Hh & Hl & Hc).
    split.
    + apply tagged_roundtrip_stock; try assumption;
        (apply Ho || apply Hh || apply Hl || apply Hc).
    + destruct (schema_roundtrip_stock sym d o h l c v C Hd Ho Hh Hl Hc)
        as (o' & h' & l' & c' & E & Qo & Qh & Ql & Qc).
      eexists; split; [exact E|].
      repeat split; assumption.
  - intros t Ht.
    destruct (valid_trade_inv t Ht)
      as (sym & ts & ord & p & v & c & -> & Hts & Hi & Hp & Hc).
    split.
    + apply tagged_roundtrip_trade; try assumption; (apply Hp || apply Hc).
    + destruct (schema_roundtrip_trade sym ts ord p v c C Hts Hi Hp Hc)
        as (p' & c' & E & Qp & Qc).
      eexists; split; [exact E|].
      repeat split; assumption.
Qed.

(** C10.  Nothing constrains the volume: whatever integer it is, negative
    ones included, a record holds it and both paths hand it back. *)
Theorem volume_unconstrained (v : Z) :
  LibraryContract ->
  (forall sym d o h l c,
     Cal.valid_date d -> price_ok o -> price_ok h -> price_ok l -> price_ok c ->
     let s := Stock.init (VStr sym) (VDate d) (VDecimal o) (VDecimal h)
                         (VDecimal l) (VDecimal c) (VInt v) in
     Stock.volume s = VInt v /\
     tagged_roundtrip (VStock s) = Ok (VStock s) /\
     exists s', schema_roundtrip StockSchema (VStock s) = Ok (VStock s') /\
                Stock.volume s' = VInt v) /\
  (forall sym ts ord p c,
     Cal.valid_datetime ts -> Cal.iso_offset ts -> price_ok p -> price_ok c ->
     let t := Trade.init (VStr sym) (VDateTime ts) (VStr ord) (VDecimal p)
                         (VInt v) (VDecimal c) in
     Trade.volume t = VInt v /\
     tagged_roundtrip (VTrade t) = Ok (VTrade t) /\
     exists t', schema_roundtrip TradeSchema (VTrade t) = Ok (VTrade t') /\
                Trade.volume t' = VInt v).
Proof.
  intros C; split.
  - intros sym d o h l c Hd Ho Hh Hl Hc s; subst s.
    split; [reflexivity|]; split.
    + apply tagged_roundtrip_stock; try assumption;
        (apply Ho || apply Hh || apply Hl || apply Hc).
    + destruct (schema_roundtrip_stock sym d o h l c v C Hd Ho Hh Hl Hc)
        as (o' & h' & l' & c' & E & _).
      eexists; split; [exact E | reflexivity].
  - intros sym ts ord p c Hts Hi Hp Hc t; subst t.
    split; [reflexivity|]; split.
    + apply tagged_roundtrip_trade; try assumption; (apply Hp || apply Hc).
    + destruct (schema_roundtrip_trade sym ts ord p v c C Hts Hi Hp Hc)
        as (p' & c' & E & _).
      eexists; split; [exact E | reflexivity].
Qed.

End CodecFacts.

(** The reference library meets the contract. *)
Lemma reference_contract : @LibraryContract NoFloat reference_library.
Proof.
  split; simpl; intros.
  - now apply CalFacts.parse_date_isoformat.
  - now apply CalFacts.parse_datetime_isoformat.
  - now apply CalFacts.parse_date_isoformat.
  - now apply CalFacts.parse_datetime_isoformat.
Qed.

(** ** The fuel of [json_dumps] *)

Section FuelFacts.
Context {pyfloat : Type} {lib : @Library pyfloat}.

Ltac same_error N :=
  split; [reflexivity | let H := fresh in intros H; apply N; congruence].

Lemma mapM_settled {A B : Type} (f g : A -> result B) (l : list A) :
  Forall (fun x => f x = g x /\ f x <> Raise RecursionError) l ->
  mapM f l = mapM g l /\ mapM f l <> Raise RecursionError.
Proof.
  induction 1 as [|x r [E N] _ [IE IN]]; cbn [mapM].
  - split; [reflexivity | discriminate].
  - rewrite <- E, <- IE.
    destruct (f x) as [y|e]; cbn [bind]; [|same_error N].
    destruct (mapM f r) as [ys|e]; cbn [bind];
      [split; [reflexivity | discriminate] | same_error IN].
Qed.

Lemma settled_atom (v : value) :
  encode_depth v = 1%nat ->
  (forall n, encode CustomEncoder_default (S n) v
             = encode CustomEncoder_default 1 v) ->
  encode CustomEncoder_default 1 v <> Raise RecursionError ->
  settled v.
Proof.
  intros D E N n m Hn Hm; rewrite D in *.
  destruct n as [|n]; [lia|]; destruct m as [|m]; [lia|].
  rewrite (E n), (E m); same_error N.
Qed.

Lemma settled_str (s : string) : settled (VStr s).
Proof. apply settled_atom; [reflexivity | reflexivity | discriminate]. Qed.

Lemma settled_list (l : list value) : Forall settled l -> settled (VList l).
Proof.
  intros F n m Hn Hm; cbn [encode_depth] in Hn, Hm.
  destruct n as [|n]; [lia|]; destruct m as [|m]; [lia|]; cbn [encode].
  apply le_S_n in Hn, Hm.
  destruct (mapM_settled (encode CustomEncoder_default n)
              (encode CustomEncoder_default m) l) as [E N].
  - revert Hn Hm; induction F as [|x r Hx _ IH]; intros Hn Hm; constructor.
    + apply Hx; lia.
    + apply IH; lia.
  - rewrite <- E.
    destruct (mapM (encode CustomEncoder_default n) l) as [js|e]; cbn [bind];
      [split; [reflexivity | discriminate] | same_error N].
Qed.

Lemma settled_dict (d : dict) :
  Forall (fun kv => settled (snd kv)) d -> settled (VDict d).
Proof.
  intros F n m Hn Hm; cbn [encode_depth] in Hn, Hm.
  destruct n as [|n]; [lia|]; destruct m as [|m]; [lia|]; cbn [encode].
  apply le_S_n in Hn, Hm.
  destruct (mapM_settled
              (fun kv => let* j := encode CustomEncoder_default n (snd kv) in
                         Ok (fst kv, j))
              (fun kv => let* j := encode CustomEncoder_default m (snd kv) in
                         Ok (fst kv, j)) d) as [E N].
  - revert Hn Hm; induction F as [|x r Hx _ IH]; intros Hn Hm; constructor.
    + destruct (Hx n m) as [E N]; try lia.
      rewrite <- E.
      destruct (encode CustomEncoder_default n (snd x)) as [j|e]; cbn [bind];
        [split; [reflexivity | discriminate] | same_error N].
    + apply IH; lia.
  - rewrite <- E.
    match goal with
    | |- context [bind ?r _] => destruct r as [js|e]
    end; cbn [bind];
      [split; [reflexivity | discriminate] | same_error N].
Qed.

Lemma encode_depth_pos (v : @value pyfloat) : (1 <= encode_depth v)%nat.
Proof. destruct v; cbn [encode_depth]; lia. Qed.

Ltac le_max :=
  first [ apply Nat.le_refl | assumption | apply Nat.le_0_l
        | eapply Nat.le_trans; [|apply Nat.le_max_l]; le_max
        | eapply Nat.le_trans; [|apply Nat.le_max_r]; le_max ].

Ltac max_bound := repeat apply Nat.max_lub; le_max.

Lemma settled_stock (sym date o h l c vol : @value pyfloat) :
  settled sym -> settled date -> settled vol ->
  settled (VStock (Stock.init sym date o h l c vol)).
Proof.
  intros Hs Hd Hv.
  assert (D : settled (VDict (Stock_to_dict (Stock.init sym date o h l c vol)))).
  { apply settled_dict; unfold Stock_to_dict; cbn [Stock.symbol Stock.date Stock.volume].
    repeat apply Forall_cons; try apply Forall_nil; cbn [snd];
      try apply settled_str; try assumption.
    destruct date; try assumption; apply settled_str. }
  assert (B : (S (encode_depth (VDict (Stock_to_dict (Stock.init sym date o h l c vol))))
               <= encode_depth (VStock (Stock.init sym date o h l c vol)))%nat).
  { unfold Stock_to_dict;
      cbn [encode_depth snd Stock.symbol Stock.date Stock.volume].
    destruct date; cbv iota; do 2 apply le_n_S; max_bound. }
  intros n m Hn Hm.
  destruct n as [|n]; [inversion Hn|].
  destruct m as [|m]; [inversion Hm|].
  cbn [encode CustomEncoder_default bind]; apply D.
  - apply le_S_n, (Nat.le_trans _ _ _ B Hn).
  - apply le_S_n, (Nat.le_trans _ _ _ B Hm).
Qed.

Lemma settled_trade (sym ts ord p vol c : @value pyfloat) :
  settled sym -> settled ts -> settled ord -> settled vol ->
  settled (VTrade (Trade.init sym ts ord p vol c)).
Proof.
  intros Hs Ht Ho Hv.
  assert (D : settled (VDict (Trade_to_dict (Trade.init sym ts ord p vol c)))).
  { apply settled_dict; unfold Trade_to_dict;
      cbn [Trade.symbol Trade.timestamp Trade.order Trade.volume].
    repeat apply Forall_cons; try apply Forall_nil; cbn [snd];
      try apply settled_str; try assumption.
    destruct ts; try assumption; apply settled_str. }
  assert (B : (S (encode_depth (VDict (Trade_to_dict (Trade.init sym ts ord p vol c))))
               <= encode_depth (VTrade (Trade.init sym ts ord p vol c)))%nat).
  { unfold Trade_to_dict;
      cbn [encode_depth snd Trade.symbol Trade.timestamp Trade.order Trade.volume].
    destruct ts; cbv iota; do 2 apply le_n_S; max_bound. }
  intros n m Hn Hm.
  destruct n as [|n]; [inversion Hn|].
  destruct m as [|m]; [inversion Hm|].
  cbn [encode CustomEncoder_default bind]; apply D.
  - apply le_S_n, (Nat.le_trans _ _ _ B Hn).
  - apply le_S_n, (Nat.le_trans _ _ _ B Hm).
Qed.

Lemma settled_converted (v : @value pyfloat) (s : string) :
  encode_depth v = 2%nat ->
  (forall n, encode CustomEncoder_default (S n) v
             = encode CustomEncoder_default n (VStr s)) ->
  settled v.
Proof.
  intros D E n m Hn Hm; rewrite D in *.
  destruct n as [|n]; [lia|]; destruct m as [|m]; [lia|].
  rewrite (E n), (E m); apply settled_str; cbn [encode_depth]; lia.
Qed.

(** Fuel beyond [encode_depth] changes nothing, and the fuel of
    [json_dumps] never runs out. *)
Theorem encode_settled : forall v : @value pyfloat, settled v.
Proof.
  fix IH 1; intros [ | b | z | f | s | l | d | d | t | d | s | t | cls].
  - apply settled_atom; [reflexivity | reflexivity | discriminate].
  - apply settled_atom; [reflexivity | reflexivity | discriminate].
  - apply settled_atom; [reflexivity | reflexivity | discriminate].
  - apply settled_atom; [reflexivity | reflexivity | discriminate].
  - apply settled_str.
  - apply settled_list; induction l as [|x r IHr]; constructor;
      [apply IH | exact IHr].
  - apply settled_dict; induction d as [|[k x] r IHr]; constructor;
      [apply IH | exact IHr].
  - now apply (settled_converted _ (Cal.date_isoformat d)).
  - now apply (settled_converted _ (Cal.datetime_isoformat "T" t)).
  - now apply (settled_converted _ (Dec.str d)).
  - destruct s as [sym date o h l c vol]; apply settled_stock; apply IH.
  - destruct t as [sym ts ord p vol c]; apply settled_trade; apply IH.
  - apply settled_atom; [reflexivity | reflexivity | discriminate].
Qed.

Corollary json_dumps_fuel (v : @value pyfloat) (n : nat) :
  (encode_depth v <= n)%nat ->
  encode CustomEncoder_default n v = json_dumps CustomEncoder_default v.
Proof. intros H; unfold json_dumps; now apply encode_settled. Qed.

Corollary json_dumps_no_recursion_error (v : @value pyfloat) :
  json_dumps CustomEncoder_default v <> Raise RecursionError.
Proof. unfold json_dumps; now apply (encode_settled v _ (encode_depth v)). Qed.

End FuelFacts.

Section DecoderFacts.
Context {pyfloat : Type} {lib : @Library pyfloat}.

(** ** [custom_decoder] on mappings that are not records *)

(** C3.  A mapping without the key ["__type__"] comes back unchanged. *)
Theorem untagged_passthrough (dct : dict) :
  contains dct "__type__" = false -> custom_decoder dct = Ok (VDict dct).
Proof. intros H; unfold custom_decoder; now rewrite H. Qed.

Lemma eq_str_false (v : @value pyfloat) s : v <> VStr s -> eq_str v s = false.
Proof.
  destruct v; try reflexivity; simpl; intros H.
  apply String.eqb_neq; congruence.
Qed.

(** C4.  A mapping whose tag is neither ["Stock"] nor ["Trade"] comes back
    unchanged: no error, no record. *)
Theorem unknown_tag_passthrough (dct : dict) (tag : value) :
  lookup dct "__type__" = Some tag ->
  tag <> VStr "Stock" -> tag <> VStr "Trade" ->
  custom_decoder dct = Ok (VDict dct).
Proof.
  intros H HS HT; unfold custom_decoder, contains, getitem.
  rewrite H; cbn [bind].
  now rewrite (eq_str_false tag "Stock" HS), (eq_str_false tag "Trade" HT).
Qed.

(** ** [CustomEncoder.default] on foreign objects *)

(** C7.  A value that is neither JSON-native nor one of the five handled
    types is refused with a [TypeError] naming its type, by [default] and by
    the encoder that calls it, also from inside a list. *)
Theorem foreign_object_type_error (obj : value) :
  json_native obj = false -> handled obj = false ->
  let e := TypeError ("Object of type " ++ type_name obj ++ " is not JSON serializable") in
  CustomEncoder_default obj = Raise e /\
  json_dumps CustomEncoder_default obj = Raise e /\
  forall rest, json_dumps CustomEncoder_default (VList (obj :: rest)) = Raise e.
Proof.
  intros Hn Hh; destruct obj; try discriminate Hn; try discriminate Hh.
  cbv zeta; repeat split.
  intros rest; unfold json_dumps.
  cbn [encode_depth Nat.max].
  destruct ((fix go (l : list value) : nat :=
               match l with
               | [] => 0%nat
               | x :: r => Nat.max (encode_depth x) (go r)
               end) rest); reflexivity.
Qed.

(** ** The two record branches *)

Lemma stock_tag_branch (dct : dict) :
  lookup dct "__type__" = Some (VStr "Stock") ->
  custom_decoder dct =
  (let* date_text := getitem dct "date" in
   let* dt := date_fromisoformat_value date_text in
   let* symbol := getitem dct "symbol" in
   let* open_text := getitem dct "open" in
   let* open_ := Decimal_new open_text in
   let* high_text := getitem dct "high" in
   let* high := Decimal_new high_text in
   let* low_text := getitem dct "low" in
   let* low := Decimal_new low_text in
   let* close_text := getitem dct "close" in
   let* close := Decimal_new close_text in
   let* volume := getitem dct "volume" in
   Ok (VStock (Stock.init symbol (VDate dt) (VDecimal open_) (VDecimal high)
                          (VDecimal low) (VDecimal close) volume))).
Proof.
  intros H; unfold custom_decoder, contains; unfold getitem at 1.
  rewrite H; reflexivity.
Qed.

Lemma trade_tag_branch (dct : dict) :
  lookup dct "__type__" = Some (VStr "Trade") ->
  custom_decoder dct =
  (let* ts_text := getitem dct "timestamp" in
   let* ts := datetime_fromisoformat_value ts_text in
   let* symbol := getitem dct "symbol" in
   let* order := getitem dct "order" in
   let* price_text := getitem dct "price" in
   let* price := Decimal_new price_text in
   let* volume := getitem dct "volume" in
   let* commission_text := getitem dct "commission" in
   let* commission := Decimal_new commission_text in
   Ok (VTrade (Trade.init symbol (VDateTime ts) order (VDecimal price)
                          volume (VDecimal commission)))).
Proof.
  intros H; unfold custom_decoder, contains; unfold getitem at 1.
  rewrite H; reflexivity.
Qed.

End DecoderFacts.

Section SchemaFacts.
Context {pyfloat : Type} {lib : @Library pyfloat}.

(** ** Decoding without a hook never fails *)

Lemma decode_no_hook_total : forall j : @json pyfloat, exists v, decode no_hook j = Ok v.
Proof.
  fix IH 1; intros [ | b | z | f | s | l | m]; cbn [decode];
    try (eexists; reflexivity).
  - assert (H : exists vs,
               (fix go (l : list json) : result (list value) :=
                  match l with
                  | [] => Ok []
                  | x :: r =>
                      let* v := decode no_hook x in
                      let* vs := go r in Ok (v :: vs)
                  end) l = Ok vs).
    { induction l as [|x r IHr]; [eexists; reflexivity|].
      destruct (IH x) as [v Hv]; destruct IHr as [vs Hvs].
      rewrite Hv, Hvs; eexists; reflexivity. }
    destruct H as [vs ->]; eexists; reflexivity.
  - assert (H : exists ps,
               (fix go (m : list (string * json)) : result (list (string * value)) :=
                  match m with
                  | [] => Ok []
                  | kx :: r =>
                      let* v := decode no_hook (snd kx) in
                      let* ps := go r in Ok ((fst kx, v) :: ps)
                  end) m = Ok ps).
    { induction m as [|[k x] r IHr]; [eexists; reflexivity|].
      destruct (IH x) as [v Hv]; destruct IHr as [ps Hps].
      cbn [fst snd]; rewrite Hv, Hps; eexists; reflexivity. }
    destruct H as [ps ->]; eexists; reflexivity.
Qed.

Lemma decode_object (m : list (string * @json pyfloat)) :
  exists ps, decode no_hook (JObject m) = Ok (VDict (dict_of_pairs ps)) /\
             map fst ps = map fst m.
Proof.
  cbn [decode].
  assert (H : exists ps,
             (fix go (m : list (string * json)) : result (list (string * value)) :=
                match m with
                | [] => Ok []
                | kx :: r =>
                    let* v := decode no_hook (snd kx) in
                    let* ps := go r in Ok ((fst kx, v) :: ps)
                end) m = Ok ps /\ map fst ps = map fst m).
  { induction m as [|[k x] r IHr]; [exists []; split; reflexivity|].
    destruct (decode_no_hook_total x) as [v Hv]; destruct IHr as [ps [Hps Hk]].
    cbn [fst snd]; rewrite Hv, Hps; eexists; split; [reflexivity|].
    simpl; now rewrite Hk. }
  destruct H as [ps [-> Hk]]; exists ps; split; [reflexivity | exact Hk].
Qed.

Lemma lookup_dict_set (d : dict) k (v : @value pyfloat) k' :
  lookup (dict_set d k v) k' = if String.eqb k k' then Some v else lookup d k'.
Proof.
  induction d as [|[k0 v0] d IH]; simpl.
  - reflexivity.
  - destruct (String.eqb k0 k) eqn:E0; simpl.
    + apply String.eqb_eq in E0; subst k0.
      now destruct (String.eqb k k').
    + destruct (String.eqb k0 k') eqn:E1.
      * apply String.eqb_eq in E1; subst k0.
        rewrite String.eqb_sym in E0; now rewrite E0.
      * exact IH.
Qed.

Lemma lookup_fold_set (ps : list (string * @value pyfloat)) (d : dict) k :
  ~ In k (map fst ps) ->
  lookup (fold_left (fun d kv => dict_set d (fst kv) (snd kv)) ps d) k
  = lookup d k.
Proof.
  revert d; induction ps as [|[k0 v0] ps IH]; intros d Hn; simpl; [reflexivity|].
  simpl in Hn; rewrite IH by tauto.
  rewrite lookup_dict_set.
  destruct (String.eqb k0 k) eqn:E; [|reflexivity].
  apply String.eqb_eq in E; subst; tauto.
Qed.

Lemma lookup_dict_of_pairs_none (ps : list (string * @value pyfloat)) k :
  ~ In k (map fst ps) -> lookup (dict_of_pairs ps) k = None.
Proof. intros H; unfold dict_of_pairs; now rewrite lookup_fold_set. Qed.

(** ** A required field that is absent is reported *)

Lemma load_fields_missing decl (data : dict) name f :
  In (name, f) decl -> fields.required f = true -> lookup data name = None ->
  In (name, missing) (snd (load_fields decl data)).
Proof.
  intros Hin Hreq Hm; induction decl as [|[n g] rest IH]; [contradiction|].
  cbn [load_fields].
  destruct (load_fields rest data) as [vals errs] eqn:L.
  destruct Hin as [E | Hin].
  - inversion E; subst n g; rewrite Hm, Hreq; left; reflexivity.
  - specialize (IH Hin); cbn [snd] in IH.
    destruct (lookup data n) as [v|].
    + destruct v; try (right; exact IH);
        destruct (field_deserialize (fields.ty g) _); cbn [snd];
        try (right; exact IH); exact IH.
    + destruct (fields.required g); cbn [snd]; [right|]; exact IH.
Qed.

Lemma schema_missing_required (s : schema) (m : list (string * json)) name f :
  In (name, f) (declared s) -> fields.required f = true ->
  ~ In name (map fst m) ->
  exists errs,
    deserialize_with_marshmallow (JObject m) s = Raise (ValidationError errs) /\
    In (name, missing) errs.
Proof.
  intros Hin Hreq Hn.
  unfold deserialize_with_marshmallow, schema_loads, json_loads.
  destruct (decode_object m) as (ps & -> & Hk); cbn [bind schema_load].
  rewrite <- Hk in Hn.
  pose proof (load_fields_missing (declared s) (dict_of_pairs ps) name f Hin Hreq
                (lookup_dict_of_pairs_none ps name Hn)) as H.
  destruct (load_fields (declared s) (dict_of_pairs ps)) as [vals errs].
  cbn [snd] in H.
  destruct (errs ++ unknown_errors (declared s) (dict_of_pairs ps))%list
    as [|e all] eqn:E.
  - apply app_eq_nil in E as [-> _]; contradiction.
  - eexists; split; [reflexivity|].
    rewrite <- E; apply in_or_app; now left.
Qed.

(** C6.  JSON without the ["volume"] member is refused by [StockSchema]
    with a validation error under the name ["volume"]; no record with a
    default volume comes out. *)
Theorem missing_volume_rejected (m : list (string * json)) :
  ~ In "volume" (map fst m) ->
  exists errs,
    deserialize_with_marshmallow (JObject m) StockSchema
    = Raise (ValidationError errs) /\
    In ("volume", ["Missing data for required field."]) errs.
Proof.
  intros H.
  apply (schema_missing_required StockSchema m "volume"
           (fields.mk fields.Integer true)); simpl; auto 10.
Qed.

(** C8.  JSON with the members of one record kind is refused by the schema
    of the other kind: a required field is reported missing, and no record
    is returned. *)
Theorem wrong_schema_rejected (m : list (string * json)) :
  ((forall k, In k (map fst m) <-> In k Trade_parameters) ->
   exists errs,
     deserialize_with_marshmallow (JObject m) StockSchema
     = Raise (ValidationError errs) /\
     In ("date", ["Missing data for required field."]) errs) /\
  ((forall k, In k (map fst m) <-> In k Stock_parameters) ->
   exists errs,
     deserialize_with_marshmallow (JObject m) TradeSchema
     = Raise (ValidationError errs) /\
     In ("timestamp", ["Missing data for required field."]) errs).
Proof.
  split; intros H.
  - apply (schema_missing_required StockSchema m "date"
             (fields.mk fields.Date true)); simpl; auto 10.
    intros Hk; apply H in Hk; simpl in Hk.
    repeat (destruct Hk as [Hk | Hk]; [discriminate Hk|]); contradiction.
  - apply (schema_missing_required TradeSchema m "timestamp"
             (fields.mk fields.DateTime true)); simpl; auto 10.
    intros Hk; apply H in Hk; simpl in Hk.
    repeat (destruct Hk as [Hk | Hk]; [discriminate Hk|]); contradiction.
Qed.

End SchemaFacts.

Section MalformedFacts.
Context {pyfloat : Type} {lib : @Library pyfloat}.

Lemma of_str_raises s e : Dec.of_str s = Raise e -> e = InvalidOperation.
Proof.
  unfold Dec.of_str.
  destruct (Dec.split_sign _) as [sg body].
  destruct (Dec.parse_number body) as [[[ip fp] ex]|]; [discriminate|].
  destruct (Dec.is_infinity_word body); [discriminate|].
  destruct (Dec.parse_nan body) as [[sig diag]|]; [discriminate|].
  now intros [= <-].
Qed.

End MalformedFacts.

(** ** The order of the reads decides the error *)

Section ReadOrderFacts.
Context {pyfloat : Type} {lib : @Library pyfloat}.

(** The decoder is the chain of its reads. *)
Lemma stock_decoder_reads (dct : dict) :
  lookup dct "__type__" = Some (VStr "Stock") ->
  custom_decoder dct =
  (let* date := Stock_read dct "date" in
   let* symbol := Stock_read dct "symbol" in
   let* open_ := Stock_read dct "open" in
   let* high := Stock_read dct "high" in
   let* low := Stock_read dct "low" in
   let* close := Stock_read dct "close" in
   let* volume := Stock_read dct "volume" in
   Ok (VStock (Stock.init symbol date open_ high low close volume))).
Proof.
  intros H; rewrite (stock_tag_branch dct H).
  unfold Stock_read, getitem; cbn [String.eqb Ascii.eqb Bool.eqb existsb Stock_decimals orb].
  repeat first
    [ reflexivity
    | progress cbn [bind]
    | match goal with
      | |- context [lookup dct ?k] => destruct (lookup dct k)
      | |- context [bind ?r _] => destruct r
      end ].
Qed.

Lemma trade_decoder_reads (dct : dict) :
  lookup dct "__type__" = Some (VStr "Trade") ->
  custom_decoder dct =
  (let* timestamp := Trade_read dct "timestamp" in
   let* symbol := Trade_read dct "symbol" in
   let* order := Trade_read dct "order" in
   let* price := Trade_read dct "price" in
   let* volume := Trade_read dct "volume" in
   let* commission := Trade_read dct "commission" in
   Ok (VTrade (Trade.init symbol timestamp order price volume commission))).
Proof.
  intros H; rewrite (trade_tag_branch dct H).
  unfold Trade_read, getitem; cbn [String.eqb Ascii.eqb Bool.eqb existsb Trade_decimals orb].
  repeat first
    [ reflexivity
    | progress cbn [bind]
    | match goal with
      | |- context [lookup dct ?k] => destruct (lookup dct k)
      | |- context [bind ?r _] => destruct r
      end ].
Qed.

(** Run the chain up to the read that fails. *)
Ltac run_reads Hfail Hbefore :=
  repeat first
    [ rewrite Hfail; reflexivity
    | match goal with
      | |- bind ?r _ = _ =>
          let E := fresh "E" in
          destruct r eqn:E;
          [ cbn [bind]
          | exfalso;
            match type of E with
            | ?rd _ ?k' = _ =>
                specialize (Hbefore k' ltac:(simpl; tauto));
                rewrite E in Hbefore; discriminate Hbefore
            end ]
      end ].

Ltac run_reads_any Hfail :=
  repeat first
    [ rewrite Hfail; eexists; reflexivity
    | match goal with
      | |- exists e, bind ?r _ = _ =>
          destruct r; [cbn [bind] | eexists; reflexivity]
      end ].

(** The first read that fails decides the error. *)
Lemma stock_first_failure (dct : dict) (k : string) (e : exn) :
  lookup dct "__type__" = Some (VStr "Stock") -> In k Stock_reads ->
  Stock_read dct k = Raise e ->
  (exists e', custom_decoder dct = Raise e') /\
  ((forall k', In k' (before k Stock_reads) -> is_ok (Stock_read dct k') = true) ->
   custom_decoder dct = Raise e).
Proof.
  intros Ht Hk Hf; rewrite (stock_decoder_reads dct Ht); simpl in Hk.
  repeat (destruct Hk as [<- | Hk];
          [split; [run_reads_any Hf | intros Hb; simpl in Hb; run_reads Hf Hb]|]).
  contradiction.
Qed.

Lemma trade_first_failure (dct : dict) (k : string) (e : exn) :
  lookup dct "__type__" = Some (VStr "Trade") -> In k Trade_reads ->
  Trade_read dct k = Raise e ->
  (exists e', custom_decoder dct = Raise e') /\
  ((forall k', In k' (before k Trade_reads) -> is_ok (Trade_read dct k') = true) ->
   custom_decoder dct = Raise e).
Proof.
  intros Ht Hk Hf; rewrite (trade_decoder_reads dct Ht); simpl in Hk.
  repeat (destruct Hk as [<- | Hk];
          [split; [run_reads_any Hf | intros Hb; simpl in Hb; run_reads Hf Hb]|]).
  contradiction.
Qed.

End ReadOrderFacts.

Section OrderedErrorFacts.
Context {pyfloat : Type} {lib : @Library pyfloat}.

Lemma read_missing_stock (dct : dict) k :
  lookup dct k = None -> Stock_read dct k = Raise (KeyError k).
Proof. intros H; unfold Stock_read, getitem; now rewrite H. Qed.

Lemma read_missing_trade (dct : dict) k :
  lookup dct k = None -> Trade_read dct k = Raise (KeyError k).
Proof. intros H; unfold Trade_read, getitem; now rewrite H. Qed.

(** C9 (amended).  A mapping tagged ["Stock"] or ["Trade"] that lacks a key
    of the record makes [custom_decoder] raise: it is never passed through
    and no record is built.  The keys are read in a fixed order, each
    value converted as it is read; the error is the [KeyError] of the
    missing key when every read before it succeeds, and in any case the
    error of the first read that fails. *)
Theorem missing_key_raises (dct : dict) (k : string) :
  lookup dct k = None ->
  (lookup dct "__type__" = Some (VStr "Stock") -> In k Stock_reads ->
   (exists e, custom_decoder dct = Raise e) /\
   ((forall k', In k' (before k Stock_reads) -> is_ok (Stock_read dct k') = true) ->
    custom_decoder dct = Raise (KeyError k)) /\
   (forall k0 e, In k0 Stock_reads -> Stock_read dct k0 = Raise e ->
      (forall k', In k' (before k0 Stock_reads) -> is_ok (Stock_read dct k') = true) ->
      custom_decoder dct = Raise e)) /\
  (lookup dct "__type__" = Some (VStr "Trade") -> In k Trade_reads ->
   (exists e, custom_decoder dct = Raise e) /\
   ((forall k', In k' (before k Trade_reads) -> is_ok (Trade_read dct k') = true) ->
    custom_decoder dct = Raise (KeyError k)) /\
   (forall k0 e, In k0 Trade_reads -> Trade_read dct k0 = Raise e ->
      (forall k', In k' (before k0 Trade_reads) -> is_ok (Trade_read dct k') = true) ->
      custom_decoder dct = Raise e)).
Proof.
  intros Hm; split; intros Ht Hk.
  - destruct (stock_first_failure dct k _ Ht Hk (read_missing_stock dct k Hm))
      as [H1 H2].
    split; [exact H1|]; split; [exact H2|].
    intros k0 e H0 Hf; now apply (stock_first_failure dct k0 e Ht H0 Hf).
  - destruct (trade_first_failure dct k _ Ht Hk (read_missing_trade dct k Hm))
      as [H1 H2].
    split; [exact H1|]; split; [exact H2|].
    intros k0 e H0 Hf; now apply (trade_first_failure dct k0 e Ht H0 Hf).
Qed.

Lemma Decimal_from_str_raises s e :
  Decimal_from_str s = Raise e -> e = InvalidOperation.
Proof.
  unfold Decimal_from_str.
  destruct (Dec.of_str s) as [d|e0] eqn:E; [discriminate|].
  destruct (Txt.ascii_text s).
  - intros [= <-]; now apply of_str_raises with s.
  - destruct (Decimal_from_unicode s); [discriminate | now intros [= <-]].
Qed.

Lemma Decimal_from_str_not_ok s :
  is_ok (Decimal_from_str s) = false -> Decimal_from_str s = Raise InvalidOperation.
Proof.
  destruct (Decimal_from_str s) eqn:E; [discriminate|].
  intros _; f_equal; now apply Decimal_from_str_raises with s.
Qed.

Lemma read_bad_number_stock (dct : dict) k s :
  In k Stock_decimals -> lookup dct k = Some (VStr s) ->
  is_ok (Decimal_from_str s) = false ->
  Stock_read dct k = Raise InvalidOperation.
Proof.
  intros Hk Hv Hs; apply Decimal_from_str_not_ok in Hs.
  unfold Stock_read, getitem; rewrite Hv; cbn [bind Decimal_new]; rewrite Hs.
  simpl in Hk; repeat (destruct Hk as [<- | Hk]; [reflexivity|]); contradiction.
Qed.

Lemma read_bad_number_trade (dct : dict) k s :
  In k Trade_decimals -> lookup dct k = Some (VStr s) ->
  is_ok (Decimal_from_str s) = false ->
  Trade_read dct k = Raise InvalidOperation.
Proof.
  intros Hk Hv Hs; apply Decimal_from_str_not_ok in Hs.
  unfold Trade_read, getitem; rewrite Hv; cbn [bind Decimal_new]; rewrite Hs.
  simpl in Hk; repeat (destruct Hk as [<- | Hk]; [reflexivity|]); contradiction.
Qed.

(** C5 (amended).  While a tagged mapping is decoded, date or timestamp text
    that [fromisoformat] refuses raises [ValueError] whatever else the
    mapping holds, since it is read first.  Text that [Decimal] refuses in
    a price field always makes the call raise, and no record is built; the
    error is [decimal.InvalidOperation] when every read before that field
    succeeds, whatever the fields after it hold.  In general the first
    read that fails decides the error. *)
Theorem malformed_field_raises (dct : dict) (s : string) :
  (lookup dct "__type__" = Some (VStr "Stock") ->
   lookup dct "date" = Some (VStr s) -> date_fromisoformat s = None ->
   custom_decoder dct = Raise ValueError) /\
  (lookup dct "__type__" = Some (VStr "Trade") ->
   lookup dct "timestamp" = Some (VStr s) -> datetime_fromisoformat s = None ->
   custom_decoder dct = Raise ValueError) /\
  (forall k,
     lookup dct k = Some (VStr s) -> is_ok (Decimal_from_str s) = false ->
     (lookup dct "__type__" = Some (VStr "Stock") -> In k Stock_decimals ->
      (exists e, custom_decoder dct = Raise e) /\
      ((forall k', In k' (before k Stock_reads) -> is_ok (Stock_read dct k') = true) ->
       custom_decoder dct = Raise InvalidOperation)) /\
     (lookup dct "__type__" = Some (VStr "Trade") -> In k Trade_decimals ->
      (exists e, custom_decoder dct = Raise e) /\
      ((forall k', In k' (before k Trade_reads) -> is_ok (Trade_read dct k') = true) ->
       custom_decoder dct = Raise InvalidOperation))) /\
  (lookup dct "__type__" = Some (VStr "Stock") ->
   forall k0 e, In k0 Stock_reads -> Stock_read dct k0 = Raise e ->
     (forall k', In k' (before k0 Stock_reads) -> is_ok (Stock_read dct k') = true) ->
     custom_decoder dct = Raise e) /\
  (lookup dct "__type__" = Some (VStr "Trade") ->
   forall k0 e, In k0 Trade_reads -> Trade_read dct k0 = Raise e ->
     (forall k', In k' (before k0 Trade_reads) -> is_ok (Trade_read dct k') = true) ->
     custom_decoder dct = Raise e).
Proof.
  split; [|split; [|split; [|split]]].
  - intros Ht Hd Hs.
    apply (proj2 (stock_first_failure dct "date" ValueError Ht
                    ltac:(simpl; tauto)
                    ltac:(unfold Stock_read, getitem; rewrite Hd; simpl;
                          now rewrite Hs))).
    simpl; tauto.
  - intros Ht Hd Hs.
    apply (proj2 (trade_first_failure dct "timestamp" ValueError Ht
                    ltac:(simpl; tauto)
                    ltac:(unfold Trade_read, getitem; rewrite Hd; simpl;
                          now rewrite Hs))).
    simpl; tauto.
  - intros k Hv Hs; split; intros Ht Hk.
    + apply (stock_first_failure dct k InvalidOperation Ht);
        [simpl in Hk |- *; tauto | now apply read_bad_number_stock with s].
    + apply (trade_first_failure dct k InvalidOperation Ht);
        [simpl in Hk |- *; tauto | now apply read_bad_number_trade with s].
  - intros Ht k0 e H0 Hf; now apply (stock_first_failure dct k0 e Ht H0 Hf).
  - intros Ht k0 e H0 Hf; now apply (trade_first_failure dct k0 e Ht H0 Hf).
Qed.

End OrderedErrorFacts.

(** C9 as stated fails: the symbol is missing, and the error is the
    [ValueError] of the date, which is read first. *)
Lemma missing_key_behind_bad_date :
  lookup bad_date_no_symbol "symbol" = None /\
  custom_decoder (lib := reference_library) bad_date_no_symbol = Raise ValueError.
Proof. split; reflexivity. Qed.

(** C5 as stated fails: a timestamp whose date and time are separated by
    ["x"] is not ISO 8601, and it decodes to a [Trade]; and a price that is
    not a number is not reported when the symbol, read before it, is
    missing. *)
Lemma malformed_text_not_reported :
  custom_decoder (lib := reference_library)
    (dict_set aapl_dict "timestamp" (VStr "2024-01-15x09:30:00"))
  = Ok (VTrade (Trade.init (VStr "AAPL")
                  (VDateTime (Cal.mkdatetime 2024 1 15 9 30 0 0 None))
                  (VStr "buy") (VDecimal (decimal "15030" (-2))) (VInt 100)
                  (VDecimal (decimal "100" (-2))))) /\
  custom_decoder (lib := reference_library) bad_open_no_symbol
  = Raise (KeyError "symbol").
Proof. split; reflexivity. Qed.

Section DecimalFacts.
Context {pyfloat : Type} {lib : @Library pyfloat}.

(** C2 (amended).  A [Decimal] attribute is emitted by [to_dict], and a bare
    [Decimal] by the encoder, as the string [str(d)]: [Decimal] reads the
    same number back from it, digit for digit, and it is in positional
    notation exactly when the exponent is at most 0 and more than -6 of the
    digits are left of the point; otherwise it carries an exponent. *)
Theorem decimal_emitted_as_str (d : Dec.t) :
  Dec.canonical d ->
  (forall s : Stock.t value,
     (Stock.open s = VDecimal d ->
      lookup (Stock_to_dict s) "open" = Some (VStr (Dec.str d))) /\
     (Stock.high s = VDecimal d ->
      lookup (Stock_to_dict s) "high" = Some (VStr (Dec.str d))) /\
     (Stock.low s = VDecimal d ->
      lookup (Stock_to_dict s) "low" = Some (VStr (Dec.str d))) /\
     (Stock.close s = VDecimal d ->
      lookup (Stock_to_dict s) "close" = Some (VStr (Dec.str d)))) /\
  (forall t : Trade.t value,
     (Trade.price t = VDecimal d ->
      lookup (Trade_to_dict t) "price" = Some (VStr (Dec.str d))) /\
     (Trade.commission t = VDecimal d ->
      lookup (Trade_to_dict t) "commission" = Some (VStr (Dec.str d)))) /\
  CustomEncoder_default (VDecimal d) = Ok (VStr (Dec.str d)) /\
  json_dumps CustomEncoder_default (VDecimal d) = Ok (JStr (Dec.str d)) /\
  Dec.of_str (Dec.str d) = Ok d /\
  (forall e, Dec.d_exp d = Dec.Exp e ->
     Dec.positional (Dec.str d)
     = (e <=? 0) && (-6 <? e + Z.of_nat (String.length (Dec.d_int d)))).
Proof.
  intros Hc; repeat split.
  - intros E; cbn [Stock_to_dict lookup String.eqb Ascii.eqb Bool.eqb].
    now rewrite E.
  - intros E; cbn [Stock_to_dict lookup String.eqb Ascii.eqb Bool.eqb].
    now rewrite E.
  - intros E; cbn [Stock_to_dict lookup String.eqb Ascii.eqb Bool.eqb].
    now rewrite E.
  - intros E; cbn [Stock_to_dict lookup String.eqb Ascii.eqb Bool.eqb].
    now rewrite E.
  - intros E; cbn [Trade_to_dict lookup String.eqb Ascii.eqb Bool.eqb].
    now rewrite E.
  - intros E; cbn [Trade_to_dict lookup String.eqb Ascii.eqb Bool.eqb].
    now rewrite E.
  - now apply DecFacts.of_str_str.
  - intros e He; destruct d as [sg ds ex]; simpl in He; subst ex.
    now apply DecNotation.positional_str.
Qed.

End DecimalFacts.

(** C2 as stated fails: the normalized price [Decimal("1E+3")] is emitted
    with an exponent. *)
Lemma scientific_notation_emitted :
  ~ (forall d : Dec.t,
       Dec.canonical d -> Dec.is_finite d = true ->
       exists s,
         CustomEncoder_default (lib := reference_library) (VDecimal d)
         = Ok (VStr s) /\
         Dec.positional s = true).
Proof.
  intros H.
  destruct (H (Dec.mk false "1" (Dec.Exp 3))) as (s & E & P).
  - repeat split; discriminate.
  - reflexivity.
  - inversion E; subst s; discriminate P.
Qed.

(** * Further properties of the two paths *)

Section SchemaLoadFacts.
Context {pyfloat : Type} {lib : @Library pyfloat}.

(** ** Keys and values of a decoded object *)

Lemma dict_set_fresh (d : dict) k (v : @value pyfloat) :
  ~ In k (map fst d) -> dict_set d k v = (d ++ [(k, v)])%list.
Proof.
  induction d as [|[k0 v0] d IH]; intros H; simpl; [reflexivity|].
  simpl in H.
  destruct (String.eqb k0 k) eqn:E.
  - apply String.eqb_eq in E; tauto.
  - rewrite IH by tauto; reflexivity.
Qed.

Lemma fold_set_fresh (ps : list (string * @value pyfloat)) (d : dict) :
  NoDup (map fst (d ++ ps)%list) ->
  fold_left (fun d kv => dict_set d (fst kv) (snd kv)) ps d = (d ++ ps)%list.
Proof.
  revert d; induction ps as [|[k v] ps IH]; intros d H; simpl.
  - now rewrite app_nil_r.
  - rewrite dict_set_fresh.
    + rewrite IH; rewrite <- app_assoc; [reflexivity | exact H].
    + rewrite map_app in H; simpl in H.
      apply NoDup_remove_2 in H; intros Hin; apply H, in_or_app; now left.
Qed.

Lemma dict_of_pairs_nodup (ps : list (string * @value pyfloat)) :
  NoDup (map fst ps) -> dict_of_pairs ps = ps.
Proof. intros H; unfold dict_of_pairs; now rewrite fold_set_fresh. Qed.

Lemma lookup_in (d : dict) k (v : @value pyfloat) :
  NoDup (map fst d) -> In (k, v) d -> lookup d k = Some v.
Proof.
  induction d as [|[k0 v0] d IH]; intros Hn Hin; [contradiction|].
  simpl in Hn; inversion Hn as [|? ? Hk Hd]; subst.
  destruct Hin as [E | Hin]; simpl.
  - inversion E; subst; now rewrite String.eqb_refl.
  - destruct (String.eqb k0 k) eqn:E; [|now apply IH].
    apply String.eqb_eq in E; subst k0.
    exfalso; apply Hk; change k with (fst (k, v)); now apply in_map.
Qed.

Lemma lookup_some_in (d : dict) k :
  In k (map fst d) -> lookup d k <> @None (@value pyfloat).
Proof.
  induction d as [|[k0 v0] d IH]; simpl; [tauto|].
  intros [E | Hin]; [subst; now rewrite String.eqb_refl|].
  destruct (String.eqb k0 k); [discriminate | now apply IH].
Qed.

Lemma lookup_fold_set_some (ps : list (string * @value pyfloat)) (d : dict) k :
  In k (map fst ps) \/ lookup d k <> None ->
  lookup (fold_left (fun d kv => dict_set d (fst kv) (snd kv)) ps d) k <> None.
Proof.
  revert d; induction ps as [|[k0 v0] ps IH]; intros d H; simpl.
  - destruct H as [[] | H]; exact H.
  - apply IH; rewrite lookup_dict_set; simpl in H.
    destruct (String.eqb k0 k) eqn:E.
    + right; discriminate.
    + destruct H as [[E' | H] | H]; [|now left | now right].
      subst; now rewrite String.eqb_refl in E.
Qed.

Lemma lookup_dict_of_pairs_some (ps : list (string * @value pyfloat)) k :
  In k (map fst ps) -> lookup (dict_of_pairs ps) k <> None.
Proof. intros H; apply lookup_fold_set_some; now left. Qed.

(** The members of a decoded object, one by one. *)
Lemma decode_members (m : list (string * @json pyfloat)) :
  exists ps,
    decode no_hook (JObject m) = Ok (VDict (dict_of_pairs ps)) /\
    Forall2 (fun kx p => fst p = fst kx /\ decode no_hook (snd kx) = Ok (snd p)) m ps.
Proof.
  cbn [decode].
  assert (H : exists ps,
             (fix go (m : list (string * json)) : result (list (string * value)) :=
                match m with
                | [] => Ok []
                | kx :: r =>
                    let* v := decode no_hook (snd kx) in
                    let* ps := go r in Ok ((fst kx, v) :: ps)
                end) m = Ok ps /\
             Forall2 (fun kx p => fst p = fst kx /\
                                  decode no_hook (snd kx) = Ok (snd p)) m ps).
  { induction m as [|[k x] r IHr]; [exists []; split; [reflexivity | constructor]|].
    destruct (decode_no_hook_total x) as [v Hv]; destruct IHr as [ps [Hps Hk]].
    cbn [fst snd]; rewrite Hv, Hps; eexists; split; [reflexivity|].
    constructor; [split; [reflexivity | exact Hv] | exact Hk]. }
  destruct H as [ps [-> Hk]]; exists ps; split; [reflexivity | exact Hk].
Qed.

Lemma members_keys (m : list (string * @json pyfloat)) ps :
  Forall2 (fun kx p => fst p = fst kx /\ decode no_hook (snd kx) = Ok (snd p)) m ps ->
  map fst ps = map fst m.
Proof.
  induction 1 as [|kx p m ps [E _] _ IH]; simpl; [reflexivity|].
  now rewrite E, IH.
Qed.

Lemma members_in (m : list (string * @json pyfloat)) ps k x v :
  Forall2 (fun kx p => fst p = fst kx /\ decode no_hook (snd kx) = Ok (snd p)) m ps ->
  In (k, x) m -> decode no_hook x = Ok v -> In (k, v) ps.
Proof.
  induction 1 as [|kx p m ps [E D] _ IH]; intros Hin Hv; [contradiction|].
  destruct Hin as [-> | Hin]; [left | right; now apply IH].
  cbn [fst snd] in E, D; rewrite Hv in D; injection D as D.
  destruct p; simpl in *; congruence.
Qed.

(** A member of an object with distinct keys, as the schema finds it. *)
Lemma loads_member (s : schema) (m : list (string * @json pyfloat)) k x v :
  NoDup (map fst m) -> In (k, x) m -> decode no_hook x = Ok v ->
  exists d,
    deserialize_with_marshmallow (JObject m) s = schema_load s (VDict d) /\
    lookup d k = Some v /\ map fst d = map fst m.
Proof.
  intros Hn Hin Hv.
  unfold deserialize_with_marshmallow, schema_loads, json_loads.
  destruct (decode_members m) as (ps & -> & F); cbn [bind].
  pose proof (members_keys m ps F) as K.
  rewrite dict_of_pairs_nodup by (now rewrite K).
  exists ps; split; [reflexivity|]; split; [|exact K].
  apply lookup_in; [now rewrite K | now apply (members_in m ps k x v)].
Qed.

(** ** Errors of single fields *)

Lemma load_fields_invalid decl (data : dict) name f v msg :
  In (name, f) decl -> lookup data name = Some v -> v <> VNone ->
  field_deserialize (fields.ty f) v = inr msg ->
  In (name, [msg]) (snd (load_fields decl data)).
Proof.
  intros Hin Hl Hv Hf; induction decl as [|[n g] rest IH]; [contradiction|].
  cbn [load_fields].
  destruct (load_fields rest data) as [vals errs] eqn:L.
  destruct Hin as [E | Hin].
  - inversion E; subst n g; rewrite Hl.
    destruct v; try (now destruct Hv); rewrite Hf; left; reflexivity.
  - specialize (IH Hin); cbn [snd] in IH.
    destruct (lookup data n) as [w|].
    + destruct w; try (right; exact IH);
        destruct (field_deserialize (fields.ty g) _); cbn [snd];
        try (right; exact IH); exact IH.
    + destruct (fields.required g); cbn [snd]; [right|]; exact IH.
Qed.

Lemma load_fields_null decl (data : dict) name f :
  In (name, f) decl -> lookup data name = Some VNone ->
  In (name, ["Field may not be null."]) (snd (load_fields decl data)).
Proof.
  intros Hin Hl; induction decl as [|[n g] rest IH]; [contradiction|].
  cbn [load_fields].
  destruct (load_fields rest data) as [vals errs] eqn:L.
  destruct Hin as [E | Hin].
  - inversion E; subst n g; rewrite Hl; left; reflexivity.
  - specialize (IH Hin); cbn [snd] in IH.
    destruct (lookup data n) as [w|].
    + destruct w; try (right; exact IH);
        destruct (field_deserialize (fields.ty g) _); cbn [snd];
        try (right; exact IH); exact IH.
    + destruct (fields.required g); cbn [snd]; [right|]; exact IH.
Qed.

Lemma schema_load_error (s : schema) (d : dict) e :
  In e (snd (load_fields (declared s) d)) \/ In e (unknown_errors (declared s) d) ->
  exists errs, schema_load s (VDict d) = Raise (ValidationError errs) /\ In e errs.
Proof.
  intros H; cbn [schema_load].
  destruct (load_fields (declared s) d) as [vals errs]; cbn [snd] in H.
  destruct (errs ++ unknown_errors (declared s) d)%list as [|e0 all] eqn:E.
  - apply app_eq_nil in E as [-> E]; rewrite E in H; destruct H as [[] | []].
  - eexists; split; [reflexivity|].
    rewrite <- E; apply in_or_app; exact H.
Qed.

Lemma unknown_errors_in decl (d : @dict pyfloat) k :
  lookup d k <> None -> is_declared decl k = false ->
  In (k, ["Unknown field."]) (unknown_errors decl d).
Proof.
  induction d as [|[k0 v0] d IH]; intros Hin Hd; [now destruct Hin|].
  cbn [unknown_errors]; simpl in Hin.
  destruct (String.eqb k0 k) eqn:E.
  - apply String.eqb_eq in E; subst k0; rewrite Hd; now left.
  - destruct (is_declared decl k0); [|right]; now apply IH.
Qed.

End SchemaLoadFacts.

Section ConverterFacts.
Context {pyfloat : Type} {lib : @Library pyfloat}.

(** X1.  [custom_decoder] undoes [to_dict] on a valid record, with no JSON
    text in between. *)
Theorem to_dict_inverse :
  LibraryContract ->
  (forall s, valid_stock s -> custom_decoder (Stock_to_dict s) = Ok (VStock s)) /\
  (forall t, valid_trade t -> custom_decoder (Trade_to_dict t) = Ok (VTrade t)).
Proof.
  intros C; split.
  - intros s Hs.
    destruct (valid_stock_inv s Hs)
      as (sym & d & o & h & l & c & v & -> & Hd & Ho & Hh & Hl & Hc).
    cbv - [Cal.date_isoformat Dec.str Dec.of_str date_fromisoformat].
    rewrite (date_fromisoformat_isoformat C d Hd).
    now rewrite !DecFacts.of_str_str by (apply Ho || apply Hh || apply Hl || apply Hc).
  - intros t Ht.
    destruct (valid_trade_inv t Ht)
      as (sym & ts & ord & p & v & c & -> & Hts & Hi & Hp & Hc).
    cbv - [Cal.datetime_isoformat Dec.str Dec.of_str datetime_fromisoformat].
    rewrite (datetime_fromisoformat_isoformat C ts Hts Hi).
    now rewrite !DecFacts.of_str_str by (apply Hp || apply Hc).
Qed.

(** X2.  The mapping [to_dict] returns for a valid record holds text and
    integers only: the encoder of the [json] module writes it without
    [CustomEncoder], to the text [CustomEncoder] gives for the record. *)
Theorem to_dict_needs_no_encoder :
  (forall s, valid_stock s ->
     exists j, json_dumps JSONEncoder_default (VDict (Stock_to_dict s)) = Ok j /\
               json_dumps CustomEncoder_default (VStock s) = Ok j) /\
  (forall t, valid_trade t ->
     exists j, json_dumps JSONEncoder_default (VDict (Trade_to_dict t)) = Ok j /\
               json_dumps CustomEncoder_default (VTrade t) = Ok j).
Proof.
  split.
  - intros s Hs.
    destruct (valid_stock_inv s Hs)
      as (sym & d & o & h & l & c & v & -> & _).
    eexists; split; reflexivity.
  - intros t Ht.
    destruct (valid_trade_inv t Ht)
      as (sym & ts & ord & p & v & c & -> & _).
    eexists; split; reflexivity.
Qed.

(** X3.  A date, a timestamp or a [Decimal] that is not inside a record is
    encoded as text and stays text: decoding never turns it back. *)
Theorem bare_values_stay_text (d : Cal.date) (t : Cal.datetime) (x : Dec.t) :
  tagged_roundtrip (VDate d) = Ok (VStr (Cal.date_isoformat d)) /\
  tagged_roundtrip (VDateTime t) = Ok (VStr (Cal.datetime_isoformat "T" t)) /\
  tagged_roundtrip (VDecimal x) = Ok (VStr (Dec.str x)) /\
  tagged_roundtrip (VList [VDate d; VDecimal x])
  = Ok (VList [VStr (Cal.date_isoformat d); VStr (Dec.str x)]).
Proof. repeat split. Qed.

(** X4.  Under a record tag [custom_decoder] reads the tag and the keys of
    that record and nothing else: two mappings that agree on them decode
    alike, whatever other keys they hold. *)
Theorem decoder_reads_only_its_keys (dct dct' : dict) :
  (lookup dct "__type__" = Some (VStr "Stock") /\
   forall k, In k ("__type__" :: Stock_parameters) -> lookup dct' k = lookup dct k) \/
  (lookup dct "__type__" = Some (VStr "Trade") /\
   forall k, In k ("__type__" :: Trade_parameters) -> lookup dct' k = lookup dct k) ->
  custom_decoder dct' = custom_decoder dct.
Proof.
  intros [[Ht H] | [Ht H]].
  - rewrite (stock_tag_branch dct Ht).
    rewrite (stock_tag_branch dct') by (rewrite H; [exact Ht | simpl; auto]).
    unfold getitem; rewrite !H by (simpl; auto 10); reflexivity.
  - rewrite (trade_tag_branch dct Ht).
    rewrite (trade_tag_branch dct') by (rewrite H; [exact Ht | simpl; auto]).
    unfold getitem; rewrite !H by (simpl; auto 10); reflexivity.
Qed.

(** X5.  What [custom_decoder] returns under a record tag is a record of
    that kind whose date or timestamp is a date or a timestamp and whose
    prices are [Decimal]s; symbol, order and volume are the values of the
    mapping, of whatever type. *)
Theorem decoder_builds_tagged_kind (dct : dict) (r : value) :
  custom_decoder dct = Ok r ->
  (lookup dct "__type__" = Some (VStr "Stock") ->
   exists sym d o h l c vol,
     r = VStock (Stock.init sym (VDate d) (VDecimal o) (VDecimal h)
                            (VDecimal l) (VDecimal c) vol) /\
     lookup dct "symbol" = Some sym /\ lookup dct "volume" = Some vol) /\
  (lookup dct "__type__" = Some (VStr "Trade") ->
   exists sym ts ord p vol c,
     r = VTrade (Trade.init sym (VDateTime ts) ord (VDecimal p) vol (VDecimal c)) /\
     lookup dct "symbol" = Some sym /\ lookup dct "order" = Some ord /\
     lookup dct "volume" = Some vol).
Proof.
  intros H; split; intros Ht.
  - rewrite (stock_tag_branch dct Ht) in H; revert H; unfold getitem.
    repeat first
      [ progress cbn [bind]
      | match goal with
        | |- context [lookup dct ?k] => destruct (lookup dct k) eqn:?
        | |- context [bind ?x _] => destruct x eqn:?
        end ];
      intros H; try discriminate H.
    injection H as <-; repeat eexists.
  - rewrite (trade_tag_branch dct Ht) in H; revert H; unfold getitem.
    repeat first
      [ progress cbn [bind]
      | match goal with
        | |- context [lookup dct ?k] => destruct (lookup dct k) eqn:?
        | |- context [bind ?x _] => destruct x eqn:?
        end ];
      intros H; try discriminate H.
    injection H as <-; repeat eexists.
Qed.

(** X6.  A date or timestamp value that is not text (a JSON number or
    [null], say) is refused with [TypeError], not with the [ValueError] of
    malformed text. *)
Theorem non_text_date_type_error (dct : dict) (v : value) :
  (forall s, v <> VStr s) ->
  (lookup dct "__type__" = Some (VStr "Stock") -> lookup dct "date" = Some v ->
   custom_decoder dct = Raise (TypeError "fromisoformat: argument must be str")) /\
  (lookup dct "__type__" = Some (VStr "Trade") -> lookup dct "timestamp" = Some v ->
   custom_decoder dct = Raise (TypeError "fromisoformat: argument must be str")).
Proof.
  intros Hv; split; intros Ht Hd.
  - rewrite (stock_tag_branch dct Ht); unfold getitem; rewrite Hd; cbn [bind].
    destruct v; try reflexivity; now destruct (Hv s).
  - rewrite (trade_tag_branch dct Ht); unfold getitem; rewrite Hd; cbn [bind].
    destruct v; try reflexivity; now destruct (Hv s).
Qed.


End ConverterFacts.

Section NestedFacts.
Context {pyfloat : Type} {lib : @Library pyfloat}.

Lemma list_depth (l : list (@value pyfloat)) x :
  In x l ->
  (encode_depth x <=
   (fix go (l : list value) : nat :=
      match l with
      | [] => O
      | x :: r => Nat.max (encode_depth x) (go r)
      end) l)%nat.
Proof.
  induction l as [|y r IH]; intros H; [contradiction|].
  destruct H as [-> | H]; [lia | specialize (IH H); lia].
Qed.

Lemma dict_depth (d : @dict pyfloat) kv :
  In kv d ->
  (encode_depth (snd kv) <=
   (fix go (d : list (string * value)) : nat :=
      match d with
      | [] => O
      | kv :: r => Nat.max (encode_depth (snd kv)) (go r)
      end) d)%nat.
Proof.
  induction d as [|y r IH]; intros H; [contradiction|].
  destruct H as [-> | H]; [lia | specialize (IH H); lia].
Qed.

Lemma there_and_back_list (l : list (@value pyfloat)) :
  Forall there_and_back l -> there_and_back (VList l).
Proof.
  intros F; unfold there_and_back, json_dumps; cbn [encode_depth encode].
  assert (H : exists js,
             mapM (encode CustomEncoder_default
                     ((fix go (l : list value) : nat :=
                         match l with
                         | [] => O
                         | x :: r => Nat.max (encode_depth x) (go r)
                         end) l)) l = Ok js /\
             (fix go (l : list json) : result (list value) :=
                match l with
                | [] => Ok []
                | x :: r =>
                    let* v := decode custom_decoder x in
                    let* vs := go r in Ok (v :: vs)
                end) js = Ok l).
  { pose proof (list_depth l) as B; revert B.
    generalize ((fix go (l : list value) : nat :=
                   match l with
                   | [] => O
                   | x :: r => Nat.max (encode_depth x) (go r)
                   end) l) as n.
    intros n B; induction F as [|x r (j & E & D) _ IH].
    - exists []; split; reflexivity.
    - destruct IH as (js & Ejs & Djs); [intros y Hy; apply B; now right|].
      exists (j :: js); cbn [mapM].
      rewrite (json_dumps_fuel x n) by (apply B; now left).
      rewrite E, Ejs; split; [reflexivity|].
      unfold json_loads in D; now rewrite D, Djs. }
  destruct H as (js & -> & D); exists (JArray js); split; [reflexivity|].
  unfold json_loads; cbn [decode]; now rewrite D.
Qed.

Lemma there_and_back_dict (d : @dict pyfloat) :
  NoDup (map fst d) -> lookup d "__type__" = None ->
  Forall (fun kv => there_and_back (snd kv)) d -> there_and_back (VDict d).
Proof.
  intros Hn Ht F; unfold there_and_back, json_dumps; cbn [encode_depth encode].
  assert (H : exists m,
             mapM (fun kv =>
                     let* j := encode CustomEncoder_default
                                 ((fix go (d : list (string * value)) : nat :=
                                     match d with
                                     | [] => O
                                     | kv :: r => Nat.max (encode_depth (snd kv)) (go r)
                                     end) d) (snd kv) in
                     Ok (fst kv, j)) d = Ok m /\
             (fix go (m : list (string * json)) : result (list (string * value)) :=
                match m with
                | [] => Ok []
                | kx :: r =>
                    let* v := decode custom_decoder (snd kx) in
                    let* ps := go r in Ok ((fst kx, v) :: ps)
                end) m = Ok d).
  { pose proof (dict_depth d) as B; revert B.
    generalize ((fix go (d : list (string * value)) : nat :=
                   match d with
                   | [] => O
                   | kv :: r => Nat.max (encode_depth (snd kv)) (go r)
                   end) d) as n.
    clear Hn Ht.
    intros n B; induction F as [|[k x] r (j & E & D) _ IH].
    - exists []; split; reflexivity.
    - destruct IH as (m & Em & Dm); [intros y Hy; apply B; now right|].
      exists ((k, j) :: m); cbn [mapM fst snd] in *.
      rewrite (json_dumps_fuel x n) by (apply (B (k, x)); now left).
      rewrite E; cbn [bind]; rewrite Em; split; [reflexivity|].
      unfold json_loads in D; cbn [fst snd bind]; now rewrite D, Dm. }
  destruct H as (m & -> & D); exists (JObject m); split; [reflexivity|].
  unfold json_loads; cbn [decode]; rewrite D; cbn [bind].
  rewrite dict_of_pairs_nodup by assumption.
  unfold custom_decoder, contains; now rewrite Ht.
Qed.

(** X8.  The tagged path gives back any tree of lists and of mappings with
    text keys that holds valid records, integers, booleans, text and
    [None]: records are rebuilt wherever they sit, bottom-up. *)
Theorem nested_roundtrip :
  LibraryContract ->
  forall v : @value pyfloat, json_tree v -> tagged_roundtrip v = Ok v.
Proof.
  intros C.
  assert (H : forall v : @value pyfloat, json_tree v -> there_and_back v).
  { fix IH 1; intros [ | b | z | f | s | l | d | d | t | d | s | t | cls] Hv;
      try contradiction;
      try (eexists; split; reflexivity).
    - apply there_and_back_list.
      induction l as [|x r IHr]; constructor;
        [apply IH, Hv | apply IHr, Hv].
    - destruct Hv as (Hn & Ht & Hv).
      apply there_and_back_dict; try assumption.
      clear Hn Ht; induction d as [|[k x] r IHr]; constructor;
        [apply IH, Hv | apply IHr, Hv].
    - destruct (valid_stock_inv s Hv)
        as (sym & d & o & h & l & c & v & -> & Hd & Ho & Hh & Hl & Hc).
      eexists; split; [apply dumps_stock|].
      apply loads_stock; try assumption; (apply Ho || apply Hh || apply Hl || apply Hc).
    - destruct (valid_trade_inv t Hv)
        as (sym & ts & ord & p & v & c & -> & Hts & Hi & Hp & Hc).
      eexists; split; [apply dumps_trade|].
      apply loads_trade; try assumption; (apply Hp || apply Hc). }
  intros v Hv; destruct (H v Hv) as (j & E & D).
  unfold tagged_roundtrip; now rewrite E.
Qed.

End NestedFacts.

Section SchemaErrorFacts.
Context {pyfloat : Type} {lib : @Library pyfloat}.

Lemma is_declared_false decl k :
  ~ In k (map fst decl) -> is_declared decl k = false.
Proof.
  intros H; unfold is_declared.
  destruct (existsb _ decl) eqn:E; [|reflexivity].
  apply existsb_exists in E as ([n f] & Hin & Hk).
  apply String.eqb_eq in Hk; simpl in Hk; subst n.
  exfalso; apply H; change k with (fst (k, f)); now apply in_map.
Qed.

Lemma stock_field_declared k :
  In k Stock_parameters ->
  exists f, In (k, f) (declared (@StockSchema pyfloat)) /\ fields.required f = true.
Proof.
  simpl; intros H.
  repeat (destruct H as [<- | H]; [eexists; split; [eauto 10 | reflexivity]|]).
  contradiction.
Qed.

Lemma trade_field_declared k :
  In k Trade_parameters ->
  exists f, In (k, f) (declared (@TradeSchema pyfloat)) /\ fields.required f = true.
Proof.
  simpl; intros H.
  repeat (destruct H as [<- | H]; [eexists; split; [eauto 10 | reflexivity]|]).
  contradiction.
Qed.

(** X9.  Every field the JSON object lacks is reported, all in the one
    validation error, for [StockSchema] and for [TradeSchema]. *)
Theorem every_missing_field_reported (m : list (string * json)) :
  (forall k0, In k0 Stock_parameters -> ~ In k0 (map fst m) ->
   exists errs,
     deserialize_with_marshmallow (JObject m) StockSchema
     = Raise (ValidationError errs) /\
     forall k, In k Stock_parameters -> ~ In k (map fst m) ->
               In (k, ["Missing data for required field."]) errs) /\
  (forall k0, In k0 Trade_parameters -> ~ In k0 (map fst m) ->
   exists errs,
     deserialize_with_marshmallow (JObject m) TradeSchema
     = Raise (ValidationError errs) /\
     forall k, In k Trade_parameters -> ~ In k (map fst m) ->
               In (k, ["Missing data for required field."]) errs).
Proof.
  split; intros k0 H0 N0.
  - destruct (stock_field_declared k0 H0) as (f0 & D0 & R0).
    destruct (schema_missing_required StockSchema m k0 f0 D0 R0 N0) as (errs & E & _).
    exists errs; split; [exact E|]; intros k Hk Nk.
    destruct (stock_field_declared k Hk) as (f & D & R).
    destruct (schema_missing_required StockSchema m k f D R Nk) as (errs' & E' & I).
    rewrite E in E'; now injection E' as ->.
  - destruct (trade_field_declared k0 H0) as (f0 & D0 & R0).
    destruct (schema_missing_required TradeSchema m k0 f0 D0 R0 N0) as (errs & E & _).
    exists errs; split; [exact E|]; intros k Hk Nk.
    destruct (trade_field_declared k Hk) as (f & D & R).
    destruct (schema_missing_required TradeSchema m k f D R Nk) as (errs' & E' & I).
    rewrite E in E'; now injection E' as ->.
Qed.

Lemma schema_unknown_field (s : schema) (m : list (string * json)) k :
  In k (map fst m) -> ~ In k (map fst (declared s)) ->
  exists errs,
    deserialize_with_marshmallow (JObject m) s = Raise (ValidationError errs) /\
    In (k, ["Unknown field."]) errs.
Proof.
  intros Hin Hd.
  unfold deserialize_with_marshmallow, schema_loads, json_loads.
  destruct (decode_object m) as (ps & -> & Hk); cbn [bind].
  apply schema_load_error; right.
  apply unknown_errors_in; [|now apply is_declared_false].
  apply lookup_dict_of_pairs_some; now rewrite Hk.
Qed.

(** X10.  A member the schema does not declare makes the decode fail: it is
    reported as an unknown field and never dropped in silence. *)
Theorem unknown_field_rejected (m : list (string * json)) (k : string) :
  In k (map fst m) ->
  (~ In k Stock_parameters ->
   exists errs,
     deserialize_with_marshmallow (JObject m) StockSchema
     = Raise (ValidationError errs) /\
     In (k, ["Unknown field."]) errs) /\
  (~ In k Trade_parameters ->
   exists errs,
     deserialize_with_marshmallow (JObject m) TradeSchema
     = Raise (ValidationError errs) /\
     In (k, ["Unknown field."]) errs).
Proof.
  intros Hin; split; intros Hd; now apply schema_unknown_field.
Qed.

(** X11.  The two wire forms do not stand in for each other.  The schema
    decoder refuses what the tagged encoder writes, because of the
    ["__type__"] member; the tagged decoder takes what the schema encoder
    writes for a plain mapping and builds no record. *)
Theorem wire_forms_do_not_mix :
  (forall s, valid_stock s ->
     (exists j errs,
        json_dumps CustomEncoder_default (VStock s) = Ok j /\
        deserialize_with_marshmallow j StockSchema = Raise (ValidationError errs) /\
        In ("__type__", ["Unknown field."]) errs) /\
     (exists j d,
        serialize_with_marshmallow (VStock s) = Ok j /\
        json_loads custom_decoder j = Ok (VDict d) /\
        map fst d = Stock_parameters)) /\
  (forall t, valid_trade t ->
     (exists j errs,
        json_dumps CustomEncoder_default (VTrade t) = Ok j /\
        deserialize_with_marshmallow j TradeSchema = Raise (ValidationError errs) /\
        In ("__type__", ["Unknown field."]) errs) /\
     (exists j d,
        serialize_with_marshmallow (VTrade t) = Ok j /\
        json_loads custom_decoder j = Ok (VDict d) /\
        map fst d = Trade_parameters)).
Proof.
  split.
  - intros s Hs.
    destruct (valid_stock_inv s Hs)
      as (sym & d & o & h & l & c & v & -> & Hd & Ho & Hh & Hl & Hc).
    split.
    + rewrite dumps_stock.
      edestruct (schema_unknown_field StockSchema) as (errs & E & I);
        [| | do 2 eexists; split; [reflexivity | split; [exact E | exact I]]];
        simpl; [auto | intuition discriminate].
    + rewrite serialize_stock by (apply Ho || apply Hh || apply Hl || apply Hc).
      do 2 eexists; split; [reflexivity|]; split; reflexivity.
  - intros t Ht.
    destruct (valid_trade_inv t Ht)
      as (sym & ts & ord & p & v & c & -> & Hts & Hi & Hp & Hc).
    split.
    + rewrite dumps_trade.
      edestruct (schema_unknown_field TradeSchema) as (errs & E & I);
        [| | do 2 eexists; split; [reflexivity | split; [exact E | exact I]]];
        simpl; [auto | intuition discriminate].
    + rewrite serialize_trade by (apply Hp || apply Hc).
      do 2 eexists; split; [reflexivity|]; split; reflexivity.
Qed.

End SchemaErrorFacts.

Section SchemaOutcomeFacts.
Context {pyfloat : Type} {lib : @Library pyfloat}.

Lemma load_fields_ok decl (data : dict) :
  Forall (fun nf => fields.required (snd nf) = true) decl ->
  snd (load_fields decl data) = [] ->
  Forall2 (fun nf nr =>
             fst nr = fst nf /\
             exists v, lookup data (fst nf) = Some v /\
                       field_deserialize (fields.ty (snd nf)) v = inl (snd nr))
          decl (fst (load_fields decl data)).
Proof.
  induction 1 as [|[n f] rest R _ IH]; cbn [load_fields]; [constructor|].
  cbn [snd] in R.
  destruct (load_fields rest data) as [vals errs]; cbn [fst snd] in IH.
  destruct (lookup data n) as [v|] eqn:L.
  - destruct v;
      try (cbn [snd]; discriminate);
      destruct (field_deserialize (fields.ty f) _) as [r|msg] eqn:D;
      cbn [fst snd]; intros E; try discriminate E;
      (constructor; [split; [reflexivity | eexists; split; [exact L | exact D]]
                    | now apply IH]).
  - rewrite R; cbn [snd]; discriminate.
Qed.

Lemma deserialize_str (v r : @value pyfloat) :
  field_deserialize fields.Str v = inl r -> exists s, r = VStr s.
Proof. destruct v; simpl; intros H; try discriminate H; injection H as <-; eauto. Qed.

Lemma deserialize_date (v r : @value pyfloat) :
  field_deserialize fields.Date v = inl r -> exists d, r = VDate d.
Proof.
  destruct v; simpl; intros H; try discriminate H.
  destruct (String.eqb s ""); [discriminate|].
  destruct (from_iso_date s); [injection H as <-; eauto | discriminate].
Qed.

Lemma deserialize_datetime (v r : @value pyfloat) :
  field_deserialize fields.DateTime v = inl r -> exists d, r = VDateTime d.
Proof.
  destruct v; simpl; intros H; try discriminate H.
  destruct (String.eqb s ""); [discriminate|].
  destruct (from_iso_datetime s); [injection H as <-; eauto | discriminate].
Qed.

Ltac split_fields :=
  repeat match goal with
         | H : Forall2 _ (_ :: _) _ |- _ => inversion H; subst; clear H
         | H : Forall2 _ [] _ |- _ => inversion H; subst; clear H
         | H : _ /\ _ |- _ => destruct H
         | H : exists _, _ |- _ => destruct H
         | p : (string * value)%type |- _ => destruct p
         end;
  cbn [fst snd fields.ty] in *; subst.

(** X12.  Whatever the JSON text, [deserialize_with_marshmallow] with
    [StockSchema] returns a [Stock] whose symbol is text and whose date is a
    date, or raises a validation error that is not empty; with
    [TradeSchema], a [Trade] with a text symbol and order and a timestamp.
    No other value and no other error comes out. *)
Theorem schema_decode_outcome (j : json) :
  ((exists sym d o h l c v,
      deserialize_with_marshmallow j StockSchema
      = Ok (VStock (Stock.init (VStr sym) (VDate d) o h l c v))) \/
   (exists errs, errs <> [] /\
      deserialize_with_marshmallow j StockSchema = Raise (ValidationError errs))) /\
  ((exists sym ts ord p v c,
      deserialize_with_marshmallow j TradeSchema
      = Ok (VTrade (Trade.init (VStr sym) (VDateTime ts) (VStr ord) p v c))) \/
   (exists errs, errs <> [] /\
      deserialize_with_marshmallow j TradeSchema = Raise (ValidationError errs))).
Proof.
  unfold deserialize_with_marshmallow, schema_loads, json_loads.
  destruct (decode_no_hook_total j) as [v ->]; cbn [bind].
  split.
  - destruct v; try (right; eexists; split; [|reflexivity]; discriminate).
    cbn [schema_load].
    pose proof (load_fields_ok (declared (@StockSchema pyfloat)) d) as F.
    destruct (load_fields (declared StockSchema) d) as [vals errs].
    cbn [fst snd] in F.
    destruct (errs ++ unknown_errors (declared StockSchema) d)%list
      as [|e all] eqn:E;
      [|right; eexists; split; [|reflexivity]; discriminate].
    apply app_eq_nil in E as [-> _].
    left; specialize (F ltac:(repeat constructor) eq_refl).
    cbn [declared StockSchema] in F; split_fields.
    repeat match goal with
           | H : field_deserialize fields.Str _ = inl _ |- _ =>
               apply deserialize_str in H; destruct H as [? ->]
           | H : field_deserialize fields.Date _ = inl _ |- _ =>
               apply deserialize_date in H; destruct H as [? ->]
           end.
    repeat eexists.
  - destruct v; try (right; eexists; split; [|reflexivity]; discriminate).
    cbn [schema_load].
    pose proof (load_fields_ok (declared (@TradeSchema pyfloat)) d) as F.
    destruct (load_fields (declared TradeSchema) d) as [vals errs].
    cbn [fst snd] in F.
    destruct (errs ++ unknown_errors (declared TradeSchema) d)%list
      as [|e all] eqn:E;
      [|right; eexists; split; [|reflexivity]; discriminate].
    apply app_eq_nil in E as [-> _].
    left; specialize (F ltac:(repeat constructor) eq_refl).
    cbn [declared TradeSchema] in F; split_fields.
    repeat match goal with
           | H : field_deserialize fields.Str _ = inl _ |- _ =>
               apply deserialize_str in H; destruct H as [? ->]
           | H : field_deserialize fields.DateTime _ = inl _ |- _ =>
               apply deserialize_datetime in H; destruct H as [? ->]
           end.
    repeat eexists.
Qed.

End SchemaOutcomeFacts.

Section SchemaInputFacts.
Context {pyfloat : Type} {lib : @Library pyfloat}.

Lemma non_object_invalid (s : schema) (j : @json pyfloat) :
  (forall m, j <> JObject m) ->
  deserialize_with_marshmallow j s
  = Raise (ValidationError [("_schema", ["Invalid input type."])]).
Proof.
  intros H; unfold deserialize_with_marshmallow, schema_loads, json_loads.
  destruct j as [ | b | z | f | x | l | m]; try reflexivity;
    [|now destruct (H m)].
  destruct (decode_no_hook_total (JArray l)) as [v Hv].
  cbn [decode] in Hv |- *.
  match goal with
  | |- context [bind (bind ?r _) _] => destruct r eqn:G
  end; [reflexivity | discriminate Hv].
Qed.

(** X13.  JSON text that is not an object (an array of records, a string, a
    number, [null]) is refused by both schemas as a whole. *)
Theorem non_object_json_rejected (j : json) :
  (forall m, j <> JObject m) ->
  deserialize_with_marshmallow j StockSchema
  = Raise (ValidationError [("_schema", ["Invalid input type."])]) /\
  deserialize_with_marshmallow j TradeSchema
  = Raise (ValidationError [("_schema", ["Invalid input type."])]).
Proof. intros H; split; now apply non_object_invalid. Qed.

End SchemaInputFacts.

Section SchemaValueFacts.
Context {pyfloat : Type} {lib : @Library pyfloat}.

Lemma schema_member_invalid (s : schema) (m : list (string * json)) name f x v msg :
  NoDup (map fst m) -> In (name, x) m -> decode no_hook x = Ok v -> v <> VNone ->
  In (name, f) (declared s) -> field_deserialize (fields.ty f) v = inr msg ->
  exists errs,
    deserialize_with_marshmallow (JObject m) s = Raise (ValidationError errs) /\
    In (name, [msg]) errs.
Proof.
  intros Hn Hin Hx Hv Hd Hf.
  destruct (loads_member s m name x v Hn Hin Hx) as (d & -> & L & _).
  apply schema_load_error; left.
  now apply (load_fields_invalid (declared s) d name f v msg).
Qed.

Lemma schema_member_null (s : schema) (m : list (string * json)) name f :
  NoDup (map fst m) -> In (name, JNull) m -> In (name, f) (declared s) ->
  exists errs,
    deserialize_with_marshmallow (JObject m) s = Raise (ValidationError errs) /\
    In (name, ["Field may not be null."]) errs.
Proof.
  intros Hn Hin Hd.
  destruct (loads_member s m name JNull VNone Hn Hin eq_refl) as (d & -> & L & _).
  apply schema_load_error; left.
  now apply (load_fields_null (declared s) d name f).
Qed.

Lemma deserialize_bad_number (s : string) :
  is_ok (Decimal_from_str s) = false ->
  field_deserialize (fields.Decimal true) (@VStr pyfloat s) = inr "Not a valid number.".
Proof. simpl; destruct (Decimal_from_str s); [discriminate | reflexivity]. Qed.

Lemma deserialize_special_number (s : string) d :
  Dec.of_str s = Ok d -> Dec.is_special d = true ->
  field_deserialize (fields.Decimal true) (@VStr pyfloat s)
  = inr "Special numeric values (nan or infinity) are not permitted.".
Proof. simpl; unfold Decimal_from_str; intros -> ->; reflexivity. Qed.

(** X14.  Text that is not a number in a price field, or that the ISO
    parser refuses in the date or timestamp field, makes the schema decode
    fail with a validation error under the name of that field. *)
Theorem schema_malformed_text_rejected (m : list (string * json)) (k s : string) :
  NoDup (map fst m) -> In (k, JStr s) m ->
  (is_ok (Decimal_from_str s) = false ->
   (In k Stock_decimals ->
    exists errs,
      deserialize_with_marshmallow (JObject m) StockSchema
      = Raise (ValidationError errs) /\
      In (k, ["Not a valid number."]) errs) /\
   (In k Trade_decimals ->
    exists errs,
      deserialize_with_marshmallow (JObject m) TradeSchema
      = Raise (ValidationError errs) /\
      In (k, ["Not a valid number."]) errs)) /\
  (k = "date" -> from_iso_date s = None ->
   exists errs,
     deserialize_with_marshmallow (JObject m) StockSchema
     = Raise (ValidationError errs) /\
     In ("date", ["Not a valid date."]) errs) /\
  (k = "timestamp" -> from_iso_datetime s = None ->
   exists errs,
     deserialize_with_marshmallow (JObject m) TradeSchema
     = Raise (ValidationError errs) /\
     In ("timestamp", ["Not a valid datetime."]) errs).
Proof.
  intros Hn Hin; split; [|split].
  - intros Hs; split; intros Hk; simpl in Hk;
      repeat (destruct Hk as [<- | Hk];
              [ eapply (schema_member_invalid _ m _ (fields.mk (fields.Decimal true) true));
                [exact Hn | exact Hin | reflexivity | discriminate
                | simpl; auto 10 | now apply deserialize_bad_number ] |]);
      contradiction.
  - intros -> Hs.
    eapply (schema_member_invalid _ m _ (fields.mk fields.Date true));
      [exact Hn | exact Hin | reflexivity | discriminate | simpl; auto 10 |].
    simpl; rewrite Hs; now destruct (String.eqb s "").
  - intros -> Hs.
    eapply (schema_member_invalid _ m _ (fields.mk fields.DateTime true));
      [exact Hn | exact Hin | reflexivity | discriminate | simpl; auto 10 |].
    simpl; rewrite Hs; now destruct (String.eqb s "").
Qed.

(** X15.  A member that is [null], or a number where the schema declares
    text, is a validation error under the name of the field. *)
Theorem schema_wrong_type_rejected (m : list (string * json)) (k : string) :
  NoDup (map fst m) ->
  (In (k, JNull) m ->
   (In k Stock_parameters ->
    exists errs,
      deserialize_with_marshmallow (JObject m) StockSchema
      = Raise (ValidationError errs) /\
      In (k, ["Field may not be null."]) errs) /\
   (In k Trade_parameters ->
    exists errs,
      deserialize_with_marshmallow (JObject m) TradeSchema
      = Raise (ValidationError errs) /\
      In (k, ["Field may not be null."]) errs)) /\
  (forall z, In (k, JInt z) m ->
   (k = "symbol" ->
    exists errs,
      deserialize_with_marshmallow (JObject m) StockSchema
      = Raise (ValidationError errs) /\
      In (k, ["Not a valid string."]) errs) /\
   (k = "symbol" \/ k = "order" ->
    exists errs,
      deserialize_with_marshmallow (JObject m) TradeSchema
      = Raise (ValidationError errs) /\
      In (k, ["Not a valid string."]) errs)).
Proof.
  intros Hn; split.
  - intros Hin; split; intros Hk.
    + destruct (@stock_field_declared pyfloat k Hk) as (f & D & _).
      now apply (schema_member_null StockSchema m k f).
    + destruct (@trade_field_declared pyfloat k Hk) as (f & D & _).
      now apply (schema_member_null TradeSchema m k f).
  - intros z Hin; split.
    + intros ->.
      eapply (schema_member_invalid _ m _ (fields.mk fields.Str true));
        [exact Hn | exact Hin | reflexivity | discriminate | simpl; auto 10
        | reflexivity].
    + intros [-> | ->];
        eapply (schema_member_invalid _ m _ (fields.mk fields.Str true));
        [exact Hn | exact Hin | reflexivity | discriminate | simpl; auto 10
        | reflexivity | exact Hn | exact Hin | reflexivity | discriminate
        | simpl; auto 10 | reflexivity].
Qed.

End SchemaValueFacts.

Module DecFixed.
Import Txt TxtFacts Dec DecFacts DecFormat DecNotation.

Lemma positional_fixed sg ip s :
  all_digits ip = true -> ip <> "" -> all_digits s = true ->
  positional (sign_text sg ++ ip ++ (if String.eqb s "" then "" else "." ++ s)) = true.
Proof.
  intros Hi Hne Hs.
  rewrite positional_sign by (try assumption; destruct (String.eqb s ""); simpl; auto).
  destruct (String.eqb s "") eqn:E; [reflexivity|].
  cbn [String.append]; now rewrite E, Hs.
Qed.

(** [format(d, "f")] of a finite number is always positional. *)
Lemma positional_format_f sg ds e :
  canonical (mk sg ds (Exp e)) ->
  positional (format_f (mk sg ds (Exp e))) = true.
Proof.
  intros [Hd [Hne Hn]]; simpl in Hd, Hne, Hn.
  unfold format_f; simpl d_sign; simpl d_int; simpl d_exp.
  fold (sign_text sg); cbv beta iota zeta.
  assert (Hlen : 1 <= Z.of_nat (String.length ds)).
  { destruct ds; [congruence | simpl; lia]. }
  destruct (String.eqb ds "0" && (0 <? e)) eqn:R.
  - apply andb_true_iff in R as [R1 _]; apply String.eqb_eq in R1; subst ds.
    destruct sg; reflexivity.
  - remember (Z.of_nat (String.length ds)) as len eqn:Elen.
    destruct (e + len <? 0) eqn:C1; [|destruct (len <? e + len) eqn:C2].
    + apply positional_fixed; try reflexivity; try discriminate.
      now rewrite all_digits_app, all_digits_zeros.
    + apply positional_fixed; try reflexivity.
      * now rewrite all_digits_app, all_digits_zeros, Hd.
      * destruct ds; [congruence | discriminate].
    + destruct (take (Z.to_nat (e + len)) ds) as [|c r] eqn:T.
      * apply positional_fixed; try reflexivity; try discriminate.
        now apply all_digits_drop.
      * rewrite <- T; apply positional_fixed.
        -- now apply all_digits_take.
        -- rewrite T; discriminate.
        -- now apply all_digits_drop.
Qed.

(** Where [str] is positional it is what [format(d, "f")] writes. *)
Lemma format_f_str sg ds e :
  canonical (mk sg ds (Exp e)) ->
  e <= 0 -> -6 < e + Z.of_nat (String.length ds) ->
  format_f (mk sg ds (Exp e)) = str (mk sg ds (Exp e)).
Proof.
  intros [Hd [Hne Hn]] He H6; simpl in Hd, Hne, Hn.
  unfold format_f, str; simpl d_sign; simpl d_int; simpl d_exp.
  cbv beta iota zeta.
  assert (Hlen : 1 <= Z.of_nat (String.length ds)).
  { destruct ds; [congruence | simpl; lia]. }
  replace (0 <? e) with false by (symmetry; apply Z.ltb_ge; lia).
  rewrite andb_false_r.
  replace (e <=? 0) with true by (symmetry; apply Z.leb_le; lia).
  replace (-6 <? e + Z.of_nat (String.length ds)) with true
    by (symmetry; apply Z.ltb_lt; lia).
  cbn [andb]; rewrite Z.eqb_refl.
  remember (Z.of_nat (String.length ds)) as len eqn:Elen.
  assert (Nd : forall z, String.eqb (zeros z ++ ds) "" = false).
  { intros z; apply String.eqb_neq; intros E.
    apply (f_equal String.length) in E; rewrite length_append in E.
    simpl in E; lia. }
  destruct (e + len <? 0) eqn:C1.
  - apply Z.ltb_lt in C1.
    replace (e + len <=? 0) with true by (symmetry; apply Z.leb_le; lia).
    now rewrite Nd, append_nil_r.
  - apply Z.ltb_ge in C1.
    replace (len <? e + len) with false by (symmetry; apply Z.ltb_ge; lia).
    destruct (e + len <=? 0) eqn:C2.
    + apply Z.leb_le in C2; assert (E0 : e + len = 0) by lia.
      rewrite E0; simpl Z.to_nat; simpl take; simpl drop; simpl zeros.
      cbn [String.append].
      replace (String.eqb ds "") with false
        by (symmetry; now apply String.eqb_neq).
      now rewrite append_nil_r.
    + apply Z.leb_gt in C2.
      destruct (len <=? e + len) eqn:C3.
      * apply Z.leb_le in C3; assert (E0 : e = 0) by lia; subst e.
        replace (0 + len) with len by lia.
        replace (Z.to_nat len) with (String.length ds) by lia.
        replace (len - len) with 0 by lia; simpl zeros.
        pose proof (take_drop (String.length ds) ds) as TD.
        assert (T : take (String.length ds) ds = ds).
        { pose proof (take_app_length ds "") as X.
          now rewrite append_nil_r in X. }
        assert (D : drop (String.length ds) ds = "").
        { pose proof (drop_app_length ds "") as X.
          now rewrite append_nil_r in X. }
        rewrite T, D; cbn [String.eqb]; rewrite !append_nil_r.
        destruct ds; [congruence | reflexivity].
      * apply Z.leb_gt in C3.
        assert (Hl : String.length (take (Z.to_nat (e + len)) ds)
                     = Z.to_nat (e + len)) by (apply length_take; lia).
        assert (Hr : String.eqb (drop (Z.to_nat (e + len)) ds) "" = false).
        { apply String.eqb_neq; intros E.
          apply (f_equal String.length) in E.
          rewrite length_drop in E; simpl in E; lia. }
        rewrite Hr, append_nil_r.
        destruct (take (Z.to_nat (e + len)) ds); [simpl in Hl; lia | reflexivity].
Qed.

Lemma format_f_special d : is_special d = true -> format_f d = str d.
Proof. destruct d as [sg ds [e| | |]]; [discriminate | reflexivity ..]. Qed.

(** A positive exponent is written out: [Decimal(format(d, "f"))] has the
    digits of [d] followed by zeros, and exponent 0. *)
Lemma of_str_format_f_positive sg ds e :
  canonical (mk sg ds (Exp e)) -> 0 < e ->
  of_str (format_f (mk sg ds (Exp e)))
  = Ok (mk sg (if String.eqb ds "0" then "0" else ds ++ zeros (Z.to_nat e)) (Exp 0)).
Proof.
  intros [Hd [Hne Hn]] He; simpl in Hd, Hne, Hn.
  unfold format_f; simpl d_sign; simpl d_int; simpl d_exp.
  fold (sign_text sg); cbv beta iota zeta.
  replace (0 <? e) with true by (symmetry; apply Z.ltb_lt; lia).
  destruct (String.eqb ds "0") eqn:Z0; cbn [andb].
  - apply String.eqb_eq in Z0; subst ds; destruct sg; reflexivity.
  - remember (Z.of_nat (String.length ds)) as len eqn:Elen.
    replace (e + len <? 0) with false by (symmetry; apply Z.ltb_ge; lia).
    replace (len <? e + len) with true by (symmetry; apply Z.ltb_lt; lia).
    replace (e + len - len) with e by lia.
    rewrite of_str_fixed; try reflexivity.
    + rewrite append_nil_r.
      destruct (canonical_cases ds Hn Hne) as [-> | (c & r & -> & Hc)];
        [discriminate Z0|].
      cbn [String.append]; now rewrite str_int_digits_nonzero.
    + now rewrite all_digits_app, all_digits_zeros, Hd.
    + destruct ds; [congruence | discriminate].
Qed.

(** One pass through [format(d, "f")] and [Decimal] gives a number that
    further passes leave alone. *)
Lemma format_f_settles d :
  canonical d -> is_special d = false ->
  exists d',
    of_str (format_f d) = Ok d' /\
    canonical d' /\ is_special d' = false /\ Dec.eq d' d = true /\
    of_str (format_f d') = Ok d'.
Proof.
  intros Hc Hf; destruct d as [sg ds [e| | |]]; try discriminate Hf.
  destruct (of_str_format_f sg ds e Hc) as (d' & H1 & H2 & H3 & H4).
  assert (S : canonical d' /\ of_str (format_f d') = Ok d').
  { destruct (Z_le_gt_dec e 0) as [He | He];
      [rewrite (H4 He) in *; split; assumption|].
    rewrite of_str_format_f_positive in H1 by (try assumption; lia).
    injection H1 as <-.
    destruct Hc as [Hd [Hne Hn]]; simpl in Hd, Hne, Hn.
    assert (C' : canonical
                   (mk sg (if String.eqb ds "0" then "0"
                           else ds ++ zeros (Z.to_nat e)) (Exp 0))).
    { destruct (String.eqb ds "0") eqn:Z0;
        [split; [reflexivity | split; [discriminate | reflexivity]]|].
      destruct (canonical_cases ds Hn Hne) as [-> | (c & r & -> & Hx)];
        [discriminate Z0|].
      split; cbn [d_int d_exp];
        [now rewrite all_digits_app, all_digits_zeros, Hd|].
      split; [discriminate|].
      cbn [String.append]; now rewrite str_int_digits_nonzero. }
    split; [exact C'|].
    destruct (of_str_format_f _ _ _ C') as (d2 & G1 & _ & _ & G4).
    rewrite G1, G4 by lia; reflexivity. }
  destruct S as [S1 S2].
  exists d'; split; [exact H1|]; split; [exact S1|]; split; [exact H2|];
    split; [exact H3 | exact S2].
Qed.

End DecFixed.

Section SchemaTextFacts.
Context {pyfloat : Type} {lib : @Library pyfloat}.

Lemma price_positional d :
  price_ok d -> Dec.positional (Dec.format_f d) = true.
Proof.
  intros [Hc Hf]; destruct d as [sg ds [e| | |]]; try discriminate Hf.
  now apply DecFixed.positional_format_f.
Qed.

(** X16.  The schema encoder writes every price of a valid record in plain
    positional notation, without an exponent, whatever the exponent of the
    [Decimal] is. *)
Theorem schema_prices_positional :
  (forall s, valid_stock s ->
     exists m,
       serialize_with_marshmallow (VStock s) = Ok (JObject m) /\
       forall k, In k Stock_decimals ->
                 exists t, In (k, JStr t) m /\ Dec.positional t = true) /\
  (forall t, valid_trade t ->
     exists m,
       serialize_with_marshmallow (VTrade t) = Ok (JObject m) /\
       forall k, In k Trade_decimals ->
                 exists t, In (k, JStr t) m /\ Dec.positional t = true).
Proof.
  split.
  - intros s Hs.
    destruct (valid_stock_inv s Hs)
      as (sym & d & o & h & l & c & v & -> & Hd & Ho & Hh & Hl & Hc).
    eexists; split;
      [apply serialize_stock; (apply Ho || apply Hh || apply Hl || apply Hc)|].
    intros k Hk; simpl in Hk.
    repeat (destruct Hk as [<- | Hk];
            [eexists; split; [simpl; eauto 10 | now apply price_positional]|]).
    contradiction.
  - intros t Ht.
    destruct (valid_trade_inv t Ht)
      as (sym & ts & ord & p & v & c & -> & Hts & Hi & Hp & Hc).
    eexists; split; [apply serialize_trade; (apply Hp || apply Hc)|].
    intros k Hk; simpl in Hk.
    repeat (destruct Hk as [<- | Hk];
            [eexists; split; [simpl; eauto 10 | now apply price_positional]|]).
    contradiction.
Qed.

Lemma price_same_text d :
  price_ok d -> Dec.positional (Dec.str d) = true -> Dec.format_f d = Dec.str d.
Proof.
  intros [Hc Hf] Hp; destruct d as [sg ds [e| | |]]; try discriminate Hf.
  rewrite DecNotation.positional_str in Hp by assumption.
  apply andb_true_iff in Hp as [H1 H2].
  apply Z.leb_le in H1; apply Z.ltb_lt in H2.
  now apply DecFixed.format_f_str.
Qed.

(** X17.  When [str] writes every price of a valid record positionally, the
    schema encoder emits the members of the tagged encoder, in the same
    order and with the same text, without the ["__type__"] member. *)
Theorem schema_text_is_tagged_text :
  (forall sym d o h l c v,
     valid_stock (Stock.init (@VStr pyfloat sym) (VDate d) (VDecimal o) (VDecimal h)
                             (VDecimal l) (VDecimal c) (VInt v)) ->
     Dec.positional (Dec.str o) = true -> Dec.positional (Dec.str h) = true ->
     Dec.positional (Dec.str l) = true -> Dec.positional (Dec.str c) = true ->
     exists m,
       serialize_with_marshmallow
         (VStock (Stock.init (VStr sym) (VDate d) (VDecimal o) (VDecimal h)
                             (VDecimal l) (VDecimal c) (VInt v)))
       = Ok (JObject m) /\
       json_dumps CustomEncoder_default
         (VStock (Stock.init (VStr sym) (VDate d) (VDecimal o) (VDecimal h)
                             (VDecimal l) (VDecimal c) (VInt v)))
       = Ok (JObject (("__type__", JStr "Stock") :: m))) /\
  (forall sym ts ord p v c,
     valid_trade (Trade.init (@VStr pyfloat sym) (VDateTime ts) (VStr ord) (VDecimal p)
                             (VInt v) (VDecimal c)) ->
     Dec.positional (Dec.str p) = true -> Dec.positional (Dec.str c) = true ->
     exists m,
       serialize_with_marshmallow
         (VTrade (Trade.init (VStr sym) (VDateTime ts) (VStr ord) (VDecimal p)
                             (VInt v) (VDecimal c)))
       = Ok (JObject m) /\
       json_dumps CustomEncoder_default
         (VTrade (Trade.init (VStr sym) (VDateTime ts) (VStr ord) (VDecimal p)
                             (VInt v) (VDecimal c)))
       = Ok (JObject (("__type__", JStr "Trade") :: m))).
Proof.
  split.
  - intros sym d o h l c v (Hd & Ho & Hh & Hl & Hc) Po Ph Pl Pc.
    eexists; split;
      [apply serialize_stock; (apply Ho || apply Hh || apply Hl || apply Hc)|].
    rewrite dumps_stock, !price_same_text by assumption; reflexivity.
  - intros sym ts ord p v c (Hts & Hi & Hp & Hc) Pp Pc.
    eexists; split; [apply serialize_trade; (apply Hp || apply Hc)|].
    rewrite dumps_trade, !price_same_text by assumption; reflexivity.
Qed.

(** ** A second pass through the schema *)

Lemma deserialize_stock_exact sym d o h l c v :
  LibraryContract -> Cal.valid_date d ->
  Dec.is_special o = false -> Dec.is_special h = false ->
  Dec.is_special l = false -> Dec.is_special c = false ->
  forall so sh sl sc,
    Dec.of_str so = Ok o -> Dec.of_str sh = Ok h ->
    Dec.of_str sl = Ok l -> Dec.of_str sc = Ok c ->
    deserialize_with_marshmallow
      (JObject [ ("symbol", JStr sym);
                 ("date", JStr (Cal.date_isoformat d));
                 ("open", JStr so); ("high", JStr sh);
                 ("low", JStr sl); ("close", JStr sc);
                 ("volume", JInt v) ]) StockSchema
    = Ok (VStock (Stock.init (VStr sym) (VDate d) (VDecimal o) (VDecimal h)
                             (VDecimal l) (VDecimal c) (VInt v))).
Proof.
  intros C Hd So Sh Sl Sc so sh sl sc Eo Eh El Ec.
  pose proof (date_isoformat_nonempty d Hd) as Ne.
  pose proof (from_iso_date_isoformat C d Hd) as Pd.
  cbv - [Cal.date_isoformat Dec.of_str from_iso_date Dec.is_special String.eqb].
  cbn [String.eqb Ascii.eqb Bool.eqb].
  rewrite Ec, El, Eh, Eo, Sc, Sl, Sh, So, Ne, Pd.
  cbn [String.eqb Ascii.eqb Bool.eqb].
  reflexivity.
Qed.

Lemma deserialize_trade_exact sym ts ord p v c :
  LibraryContract -> Cal.valid_datetime ts -> Cal.iso_offset ts ->
  Dec.is_special p = false -> Dec.is_special c = false ->
  forall sp sc,
    Dec.of_str sp = Ok p -> Dec.of_str sc = Ok c ->
    deserialize_with_marshmallow
      (JObject [ ("symbol", JStr sym);
                 ("timestamp", JStr (Cal.datetime_isoformat "T" ts));
                 ("order", JStr ord); ("price", JStr sp);
                 ("volume", JInt v); ("commission", JStr sc) ])
      TradeSchema
    = Ok (VTrade (Trade.init (VStr sym) (VDateTime ts) (VStr ord) (VDecimal p)
                             (VInt v) (VDecimal c))).
Proof.
  intros C Ht Hi Sp Sc sp sc Ep Ec.
  pose proof (datetime_isoformat_nonempty "T" ts Ht) as Ne.
  pose proof (from_iso_datetime_isoformat C ts Ht Hi) as Pd.
  cbv - [Cal.datetime_isoformat Dec.of_str from_iso_datetime
         Dec.is_special String.eqb].
  cbn [String.eqb Ascii.eqb Bool.eqb].
  rewrite Ec, Ep, Sc, Sp, Ne, Pd.
  cbn [String.eqb Ascii.eqb Bool.eqb].
  reflexivity.
Qed.

Lemma price_settles d :
  price_ok d ->
  exists d',
    Dec.of_str (Dec.format_f d) = Ok d' /\ price_ok d' /\
    Dec.eq d' d = true /\ Dec.of_str (Dec.format_f d') = Ok d'.
Proof.
  intros [Hc Hf]; unfold Dec.is_finite in Hf; apply negb_true_iff in Hf.
  destruct (DecFixed.format_f_settles d Hc Hf) as (d' & H1 & H2 & H3 & H4 & H5).
  exists d'; repeat split; try assumption; try apply H2.
  unfold Dec.is_finite; now rewrite H3.
Qed.

(** X18.  A round trip through the schema may rewrite a price (["1E+3"]
    comes back as ["1000"]), but only once: the record it returns is valid,
    equal to the original field for field, and a further round trip returns
    it unchanged. *)
Theorem schema_roundtrip_settles :
  LibraryContract ->
  (forall s, valid_stock s ->
     exists s',
       schema_roundtrip StockSchema (VStock s) = Ok (VStock s') /\
       valid_stock s' /\ same_stock s' s /\
       schema_roundtrip StockSchema (VStock s') = Ok (VStock s')) /\
  (forall t, valid_trade t ->
     exists t',
       schema_roundtrip TradeSchema (VTrade t) = Ok (VTrade t') /\
       valid_trade t' /\ same_trade t' t /\
       schema_roundtrip TradeSchema (VTrade t') = Ok (VTrade t')).
Proof.
  intros C; split.
  - intros s Hs.
    destruct (valid_stock_inv s Hs)
      as (sym & d & o & h & l & c & v & -> & Hd & Ho & Hh & Hl & Hc).
    destruct (price_settles o Ho) as (o' & Eo & Vo & Qo & Fo).
    destruct (price_settles h Hh) as (h' & Eh & Vh & Qh & Fh).
    destruct (price_settles l Hl) as (l' & El & Vl & Ql & Fl).
    destruct (price_settles c Hc) as (c' & Ec & Vc & Qc & Fc).
    assert (N : forall x, price_ok x -> Dec.is_special x = false).
    { intros x [_ F]; unfold Dec.is_finite in F; now apply negb_true_iff in F. }
    exists (Stock.init (VStr sym) (VDate d) (VDecimal o') (VDecimal h')
                       (VDecimal l') (VDecimal c') (VInt v)).
    split; [|split; [|split]].
    + unfold schema_roundtrip.
      rewrite serialize_stock by (apply Ho || apply Hh || apply Hl || apply Hc).
      cbn [bind]; apply deserialize_stock_exact; auto.
    + simpl; auto.
    + repeat split; assumption.
    + unfold schema_roundtrip.
      rewrite serialize_stock by (apply Vo || apply Vh || apply Vl || apply Vc).
      cbn [bind]; apply deserialize_stock_exact; auto.
  - intros t Ht.
    destruct (valid_trade_inv t Ht)
      as (sym & ts & ord & p & v & c & -> & Hts & Hi & Hp & Hc).
    destruct (price_settles p Hp) as (p' & Ep & Vp & Qp & Fp).
    destruct (price_settles c Hc) as (c' & Ec & Vc & Qc & Fc).
    assert (N : forall x, price_ok x -> Dec.is_special x = false).
    { intros x [_ F]; unfold Dec.is_finite in F; now apply negb_true_iff in F. }
    exists (Trade.init (VStr sym) (VDateTime ts) (VStr ord) (VDecimal p')
                       (VInt v) (VDecimal c')).
    split; [|split; [|split]].
    + unfold schema_roundtrip.
      rewrite serialize_trade by (apply Hp || apply Hc).
      cbn [bind]; apply deserialize_trade_exact; auto.
    + simpl; auto.
    + repeat split; assumption.
    + unfold schema_roundtrip.
      rewrite serialize_trade by (apply Vp || apply Vc).
      cbn [bind]; apply deserialize_trade_exact; auto.
Qed.

End SchemaTextFacts.

Section SchemaExactFacts.
Context {pyfloat : Type} {lib : @Library pyfloat}.

(** A price without a positive exponent. *)
Lemma price_reparse_exact sg ds e :
  price_ok (Dec.mk sg ds (Dec.Exp e)) -> e <= 0 ->
  Dec.of_str (Dec.format_f (Dec.mk sg ds (Dec.Exp e))) = Ok (Dec.mk sg ds (Dec.Exp e)).
Proof.
  intros [Hc _] He.
  destruct (DecFormat.of_str_format_f sg ds e Hc) as (d' & H1 & _ & _ & H4).
  now rewrite H1, (H4 He).
Qed.

(** X19.  For a valid record none of whose prices has a positive exponent,
    the schema round trip returns the very same record: trailing zeros and
    the exponent of every price are kept (["200.00"] does not become
    ["200"]). *)
Theorem schema_roundtrip_exact :
  LibraryContract ->
  (forall sym d v so o eo sh h eh sl l el sc c ec,
     Cal.valid_date d ->
     price_ok (Dec.mk so o (Dec.Exp eo)) -> eo <= 0 ->
     price_ok (Dec.mk sh h (Dec.Exp eh)) -> eh <= 0 ->
     price_ok (Dec.mk sl l (Dec.Exp el)) -> el <= 0 ->
     price_ok (Dec.mk sc c (Dec.Exp ec)) -> ec <= 0 ->
     let s := Stock.init (@VStr pyfloat sym) (VDate d)
                (VDecimal (Dec.mk so o (Dec.Exp eo)))
                (VDecimal (Dec.mk sh h (Dec.Exp eh)))
                (VDecimal (Dec.mk sl l (Dec.Exp el)))
                (VDecimal (Dec.mk sc c (Dec.Exp ec))) (VInt v) in
     schema_roundtrip StockSchema (VStock s) = Ok (VStock s)) /\
  (forall sym ts ord v sp p ep sc c ec,
     Cal.valid_datetime ts -> Cal.iso_offset ts ->
     price_ok (Dec.mk sp p (Dec.Exp ep)) -> ep <= 0 ->
     price_ok (Dec.mk sc c (Dec.Exp ec)) -> ec <= 0 ->
     let t := Trade.init (@VStr pyfloat sym) (VDateTime ts) (VStr ord)
                (VDecimal (Dec.mk sp p (Dec.Exp ep))) (VInt v)
                (VDecimal (Dec.mk sc c (Dec.Exp ec))) in
     schema_roundtrip TradeSchema (VTrade t) = Ok (VTrade t)).
Proof.
  intros C; split.
  - intros sym d v so o eo sh h eh sl l el sc c ec Hd Ho Eo Hh Eh Hl El Hc Ec s.
    subst s; unfold schema_roundtrip.
    rewrite serialize_stock by (apply Ho || apply Hh || apply Hl || apply Hc).
    cbn [bind]; apply deserialize_stock_exact;
      auto using price_reparse_exact.
  - intros sym ts ord v sp p ep sc c ec Hts Hi Hp Ep Hc Ec t.
    subst t; unfold schema_roundtrip.
    rewrite serialize_trade by (apply Hp || apply Hc).
    cbn [bind]; apply deserialize_trade_exact;
      auto using price_reparse_exact.
Qed.

(** ** Decoding a well-formed object *)

Lemma unknown_errors_nil decl (d : @dict pyfloat) :
  (forall k, In k (map fst d) -> is_declared decl k = true) ->
  unknown_errors decl d = [].
Proof.
  induction d as [|[k v] d IH]; intros H; [reflexivity|].
  cbn [unknown_errors]; rewrite (H k) by (now left).
  apply IH; intros k' Hk; apply H; now right.
Qed.

Lemma loads_object (s : schema) (m : list (string * @json pyfloat)) :
  NoDup (map fst m) ->
  exists d,
    deserialize_with_marshmallow (JObject m) s = schema_load s (VDict d) /\
    map fst d = map fst m /\
    forall k x v, In (k, x) m -> decode no_hook x = Ok v -> lookup d k = Some v.
Proof.
  intros Hn.
  unfold deserialize_with_marshmallow, schema_loads, json_loads.
  destruct (decode_members m) as (ps & -> & F); cbn [bind].
  pose proof (members_keys m ps F) as K.
  rewrite dict_of_pairs_nodup by (now rewrite K).
  exists ps; split; [reflexivity|]; split; [exact K|].
  intros k x v Hin Hv.
  apply lookup_in; [now rewrite K | now apply (members_in m ps k x v)].
Qed.

(** X20.  A JSON object with exactly the members of the schema, in any
    order, whose values are text the parsers accept, finite numbers in
    text form and an integer volume, decodes to the record that holds
    those values. *)
Theorem schema_decode_well_formed (m : list (string * json)) (sym : string) (v : Z) :
  NoDup (map fst m) -> In ("symbol", JStr sym) m -> In ("volume", JInt v) m ->
  (forall ds d so o sh h sl l sc c,
     (forall k, In k (map fst m) -> In k Stock_parameters) ->
     In ("date", JStr ds) m -> ds <> "" -> from_iso_date ds = Some d ->
     In ("open", JStr so) m -> Dec.of_str so = Ok o -> Dec.is_special o = false ->
     In ("high", JStr sh) m -> Dec.of_str sh = Ok h -> Dec.is_special h = false ->
     In ("low", JStr sl) m -> Dec.of_str sl = Ok l -> Dec.is_special l = false ->
     In ("close", JStr sc) m -> Dec.of_str sc = Ok c -> Dec.is_special c = false ->
     deserialize_with_marshmallow (JObject m) StockSchema
     = Ok (VStock (Stock.init (VStr sym) (VDate d) (VDecimal o) (VDecimal h)
                              (VDecimal l) (VDecimal c) (VInt v)))) /\
  (forall ts t ord sp p sc c,
     (forall k, In k (map fst m) -> In k Trade_parameters) ->
     In ("timestamp", JStr ts) m -> ts <> "" -> from_iso_datetime ts = Some t ->
     In ("order", JStr ord) m ->
     In ("price", JStr sp) m -> Dec.of_str sp = Ok p -> Dec.is_special p = false ->
     In ("commission", JStr sc) m -> Dec.of_str sc = Ok c -> Dec.is_special c = false ->
     deserialize_with_marshmallow (JObject m) TradeSchema
     = Ok (VTrade (Trade.init (VStr sym) (VDateTime t) (VStr ord) (VDecimal p)
                              (VInt v) (VDecimal c)))).
Proof.
  intros Hn Hsym Hvol; split.
  - intros ds d so o sh h sl l sc c Hk Hd Nd Pd Ho Eo So Hh Eh Sh Hl El Sl Hc Ec Sc.
    destruct (loads_object StockSchema m Hn) as (dd & -> & K & L).
    cbn [schema_load].
    rewrite unknown_errors_nil.
    2:{ intros k Hin; rewrite K in Hin; apply Hk in Hin; simpl in Hin.
        repeat (destruct Hin as [<- | Hin]; [reflexivity|]); contradiction. }
    cbn [load_fields declared StockSchema].
    rewrite (L _ _ _ Hsym eq_refl), (L _ _ _ Hvol eq_refl), (L _ _ _ Hd eq_refl),
      (L _ _ _ Ho eq_refl), (L _ _ _ Hh eq_refl), (L _ _ _ Hl eq_refl),
      (L _ _ _ Hc eq_refl).
    cbn [fields.ty field_deserialize]; unfold Decimal_from_str.
    rewrite Eo, Eh, El, Ec, So, Sh, Sl, Sc, Pd.
    replace (String.eqb ds "") with false
      by (symmetry; now apply String.eqb_neq).
    reflexivity.
  - intros ts t ord sp p sc c Hk Ht Nt Pt Ho Hp Ep Sp Hc Ec Sc.
    destruct (loads_object TradeSchema m Hn) as (dd & -> & K & L).
    cbn [schema_load].
    rewrite unknown_errors_nil.
    2:{ intros k Hin; rewrite K in Hin; apply Hk in Hin; simpl in Hin.
        repeat (destruct Hin as [<- | Hin]; [reflexivity|]); contradiction. }
    cbn [load_fields declared TradeSchema].
    rewrite (L _ _ _ Hsym eq_refl), (L _ _ _ Hvol eq_refl), (L _ _ _ Ht eq_refl),
      (L _ _ _ Ho eq_refl), (L _ _ _ Hp eq_refl), (L _ _ _ Hc eq_refl).
    cbn [fields.ty field_deserialize]; unfold Decimal_from_str.
    rewrite Ep, Ec, Sp, Sc, Pt.
    replace (String.eqb ts "") with false
      by (symmetry; now apply String.eqb_neq).
    reflexivity.
Qed.

End SchemaExactFacts.

Module IntText.
Import Txt TxtFacts Dec DecFacts DecFormat.

Lemma str_int_digits_uint u :
  str_int_digits (NilEmpty.string_of_uint u)
  = NilEmpty.string_of_uint (Decimal.unorm u).
Proof.
  unfold str_int_digits.
  induction u; try reflexivity.
  cbn [NilEmpty.string_of_uint Decimal.unorm]; rewrite lstrip0_cons.
  cbn [Ascii.eqb Bool.eqb]; exact IHu.
Qed.

Lemma to_uint_unorm n : Decimal.unorm (N.to_uint n) = N.to_uint n.
Proof.
  rewrite <- (DecimalN.Unsigned.to_of (N.to_uint n)).
  now rewrite DecimalN.Unsigned.of_to.
Qed.

Lemma canonical_of_int z : canonical (of_int z).
Proof.
  split; cbn [of_int d_int d_exp]; [apply all_digits_str_N|].
  split; [apply str_N_nonempty|].
  unfold str_N; now rewrite str_int_digits_uint, to_uint_unorm.
Qed.

Lemma str_of_int z : str (of_int z) = str_Z z.
Proof.
  unfold str, of_int, str_Z; cbn [d_sign d_int d_exp]; cbv beta iota zeta.
  pose proof (str_N_nonempty (Z.abs_N z)) as Hne.
  remember (str_N (Z.abs_N z)) as ds eqn:Eds.
  assert (Hlen : 1 <= Z.of_nat (String.length ds)).
  { destruct ds; [congruence | simpl; lia]. }
  remember (Z.of_nat (String.length ds)) as len eqn:Elen.
  change (0 <=? 0) with true; cbn [andb].
  replace (-6 <? 0 + len) with true by (symmetry; apply Z.ltb_lt; lia).
  replace (0 + len <=? 0) with false by (symmetry; apply Z.leb_gt; lia).
  replace (len <=? 0 + len) with true by (symmetry; apply Z.leb_le; lia).
  rewrite Z.eqb_refl.
  replace (0 + len - len) with 0 by lia; simpl zeros.
  rewrite !append_nil_r.
  now destruct (z <? 0).
Qed.

(** [Decimal(str(z))] is [Decimal(z)]. *)
Lemma of_str_str_Z z : of_str (str_Z z) = Ok (of_int z).
Proof.
  rewrite <- str_of_int.
  apply (of_str_str_finite (z <? 0) (str_N (Z.abs_N z)) 0), canonical_of_int.
Qed.

End IntText.

Section EdgeFacts.
Context {pyfloat : Type} {lib : @Library pyfloat}.

Lemma special_reparse x :
  Dec.canonical x -> Dec.is_special x = true ->
  field_deserialize (fields.Decimal true) (@VStr pyfloat (Dec.format_f x))
  = inr "Special numeric values (nan or infinity) are not permitted.".
Proof.
  intros Hc Hs; apply (deserialize_special_number _ x); [|exact Hs].
  rewrite DecFixed.format_f_special by exact Hs.
  now apply DecFacts.of_str_str.
Qed.

(** X21.  A price that is NaN or an infinity survives the tagged path, and
    the schema encoder writes it too; the schema decoder then refuses the
    text it wrote, under the name of the field. *)
Theorem special_prices_split_paths :
  LibraryContract ->
  (forall sym d o h l c v,
     Cal.valid_date d ->
     Dec.canonical o -> Dec.canonical h -> Dec.canonical l -> Dec.canonical c ->
     let s := Stock.init (@VStr pyfloat sym) (VDate d) (VDecimal o) (VDecimal h)
                         (VDecimal l) (VDecimal c) (VInt v) in
     tagged_roundtrip (VStock s) = Ok (VStock s) /\
     exists j,
       serialize_with_marshmallow (VStock s) = Ok j /\
       forall k x,
         In (k, x) [("open", o); ("high", h); ("low", l); ("close", c)] ->
         Dec.is_special x = true ->
         exists errs,
           deserialize_with_marshmallow j StockSchema
           = Raise (ValidationError errs) /\
           In (k, ["Special numeric values (nan or infinity) are not permitted."])
              errs) /\
  (forall sym ts ord p v c,
     Cal.valid_datetime ts -> Cal.iso_offset ts ->
     Dec.canonical p -> Dec.canonical c ->
     let t := Trade.init (@VStr pyfloat sym) (VDateTime ts) (VStr ord) (VDecimal p)
                         (VInt v) (VDecimal c) in
     tagged_roundtrip (VTrade t) = Ok (VTrade t) /\
     exists j,
       serialize_with_marshmallow (VTrade t) = Ok j /\
       forall k x,
         In (k, x) [("price", p); ("commission", c)] ->
         Dec.is_special x = true ->
         exists errs,
           deserialize_with_marshmallow j TradeSchema
           = Raise (ValidationError errs) /\
           In (k, ["Special numeric values (nan or infinity) are not permitted."])
              errs).
Proof.
  intros C; split.
  - intros sym d o h l c v Hd Ho Hh Hl Hc s; subst s.
    split; [now apply tagged_roundtrip_stock|].
    eexists; split; [now apply serialize_stock|].
    intros k x Hk Hx; simpl in Hk.
    repeat (destruct Hk as [E | Hk];
            [ injection E as <- <-;
              eapply (schema_member_invalid _ _ _ (fields.mk (fields.Decimal true) true));
              [ repeat constructor; simpl; intuition discriminate
              | simpl; eauto 10 | reflexivity | discriminate | simpl; auto 10
              | now apply special_reparse ] |]).
    contradiction.
  - intros sym ts ord p v c Hts Hi Hp Hc t; subst t.
    split; [now apply tagged_roundtrip_trade|].
    eexists; split; [now apply serialize_trade|].
    intros k x Hk Hx; simpl in Hk.
    repeat (destruct Hk as [E | Hk];
            [ injection E as <- <-;
              eapply (schema_member_invalid _ _ _ (fields.mk (fields.Decimal true) true));
              [ repeat constructor; simpl; intuition discriminate
              | simpl; eauto 10 | reflexivity | discriminate | simpl; auto 10
              | now apply special_reparse ] |]).
    contradiction.
Qed.

(** X22.  [to_dict] applies [str] to whatever the price attributes hold and
    the decoder applies [Decimal] to the text: a record built with integer
    prices comes back from the tagged path with [Decimal] prices. *)
Theorem integer_prices_become_decimals :
  LibraryContract ->
  (forall sym d o h l c v,
     Cal.valid_date d ->
     tagged_roundtrip
       (VStock (Stock.init (@VStr pyfloat sym) (VDate d) (VInt o) (VInt h)
                           (VInt l) (VInt c) (VInt v)))
     = Ok (VStock (Stock.init (VStr sym) (VDate d)
                              (VDecimal (Dec.of_int o)) (VDecimal (Dec.of_int h))
                              (VDecimal (Dec.of_int l)) (VDecimal (Dec.of_int c))
                              (VInt v)))) /\
  (forall sym ts ord p v c,
     Cal.valid_datetime ts -> Cal.iso_offset ts ->
     tagged_roundtrip
       (VTrade (Trade.init (@VStr pyfloat sym) (VDateTime ts) (VStr ord) (VInt p)
                           (VInt v) (VInt c)))
     = Ok (VTrade (Trade.init (VStr sym) (VDateTime ts) (VStr ord)
                              (VDecimal (Dec.of_int p)) (VInt v)
                              (VDecimal (Dec.of_int c))))).
Proof.
  intros C; split.
  - intros sym d o h l c v Hd.
    cbv - [Cal.date_isoformat Txt.str_Z Dec.of_int Dec.of_str date_fromisoformat].
    rewrite (date_fromisoformat_isoformat C d Hd).
    now rewrite !IntText.of_str_str_Z.
  - intros sym ts ord p v c Hts Hi.
    cbv - [Cal.datetime_isoformat Txt.str_Z Dec.of_int Dec.of_str
           datetime_fromisoformat].
    rewrite (datetime_fromisoformat_isoformat C ts Hts Hi).
    now rewrite !IntText.of_str_str_Z.
Qed.


End EdgeFacts.

(** * The claims at sample inputs *)

Lemma tsla_valid : valid_stock tsla.
Proof. simpl; repeat split; try reflexivity; discriminate. Qed.

Lemma aapl_buy_valid : valid_trade aapl_buy.
Proof. simpl; repeat split; try reflexivity; discriminate. Qed.

Lemma roundtrip_valid_records_witness :
  (valid_stock tsla /\
   tagged_roundtrip (lib := reference_library) (VStock tsla) = Ok (VStock tsla) /\
   exists s', schema_roundtrip (lib := reference_library) StockSchema (VStock tsla)
              = Ok (VStock s') /\ same_stock s' tsla) /\
  (valid_trade aapl_buy /\
   tagged_roundtrip (lib := reference_library) (VTrade aapl_buy)
   = Ok (VTrade aapl_buy) /\
   exists t', schema_roundtrip (lib := reference_library) TradeSchema
                (VTrade aapl_buy)
              = Ok (VTrade t') /\ same_trade t' aapl_buy).
Proof.
  split.
  - split; [exact tsla_valid|].
    exact (proj1 (roundtrip_valid_records reference_contract) tsla tsla_valid).
  - split; [exact aapl_buy_valid|].
    exact (proj2 (roundtrip_valid_records reference_contract) aapl_buy
             aapl_buy_valid).
Defined.

Lemma decimal_emitted_as_str_witness :
  Dec.canonical (decimal "15025" (-2)) /\
  lookup (Stock_to_dict (lib := reference_library)
            (Stock.init (VStr "AAPL") (VDate (Cal.mkdate 2024 1 15))
               (VDecimal (decimal "15025" (-2))) (VDecimal (decimal "15200" (-2)))
               (VDecimal (decimal "14950" (-2))) (VDecimal (decimal "15175" (-2)))
               (VInt 1000000))) "open"
  = Some (VStr "150.25").
Proof.
  assert (C : Dec.canonical (decimal "15025" (-2)))
    by (repeat split; discriminate).
  split; [exact C|].
  exact (proj1 (proj1 (decimal_emitted_as_str (lib := reference_library)
                         (decimal "15025" (-2)) C)
                  (Stock.init (VStr "AAPL") (VDate (Cal.mkdate 2024 1 15))
                     (VDecimal (decimal "15025" (-2)))
                     (VDecimal (decimal "15200" (-2)))
                     (VDecimal (decimal "14950" (-2)))
                     (VDecimal (decimal "15175" (-2)))
                     (VInt 1000000))) eq_refl).
Defined.

Lemma untagged_passthrough_witness :
  contains plain_dict "__type__" = false /\
  custom_decoder (lib := reference_library) plain_dict = Ok (VDict plain_dict).
Proof.
  split; [reflexivity|].
  exact (untagged_passthrough (lib := reference_library) plain_dict eq_refl).
Defined.

Lemma unknown_tag_passthrough_witness :
  custom_decoder (lib := reference_library) bond_dict = Ok (VDict bond_dict).
Proof.
  apply (unknown_tag_passthrough (lib := reference_library) bond_dict (VStr "Bond"));
    [reflexivity | discriminate | discriminate].
Defined.

Lemma malformed_field_raises_witness :
  custom_decoder (lib := reference_library)
    (dict_set tsla_dict "date" (VStr "2024-13-45")) = Raise ValueError /\
  custom_decoder (lib := reference_library) bad_open_no_close
  = Raise InvalidOperation.
Proof.
  split.
  - exact (proj1 (malformed_field_raises (lib := reference_library)
                    (dict_set tsla_dict "date" (VStr "2024-13-45")) "2024-13-45")
             eq_refl eq_refl eq_refl).
  - refine (proj2 (proj1 (proj1 (proj2 (proj2 (malformed_field_raises
                                                 (lib := reference_library)
                                                 bad_open_no_close "abc")))
                            "open" eq_refl eq_refl)
                     eq_refl _) _).
    + simpl; tauto.
    + intros k' Hk'; simpl in Hk'.
      repeat (destruct Hk' as [<- | Hk']; [reflexivity|]); contradiction.
Defined.

Lemma missing_key_raises_witness :
  custom_decoder (lib := reference_library) [("__type__", VStr "Stock")]
  = Raise (KeyError "date") /\
  custom_decoder (lib := reference_library)
    [ ("__type__", VStr "Stock"); ("symbol", VStr "TSLA");
      ("date", VStr "2024-01-15"); ("open", VStr "200.00");
      ("high", VStr "205.50"); ("low", VStr "198.00");
      ("close", VStr "203.25") ]
  = Raise (KeyError "volume").
Proof.
  split.
  - refine (proj1 (proj2 (proj1 (missing_key_raises (lib := reference_library)
                                   [("__type__", VStr "Stock")] "date" eq_refl)
                            eq_refl _)) _).
    + simpl; tauto.
    + intros k' Hk'; simpl in Hk'; contradiction.
  - refine (proj1 (proj2 (proj1 (missing_key_raises (lib := reference_library)
                                   [ ("__type__", VStr "Stock"); ("symbol", VStr "TSLA");
                                     ("date", VStr "2024-01-15"); ("open", VStr "200.00");
                                     ("high", VStr "205.50"); ("low", VStr "198.00");
                                     ("close", VStr "203.25") ] "volume" eq_refl)
                            eq_refl _)) _).
    + simpl; tauto.
    + intros k' Hk'; simpl in Hk'.
      repeat (destruct Hk' as [<- | Hk']; [reflexivity|]); contradiction.
Defined.

Lemma missing_volume_rejected_witness :
  exists errs,
    deserialize_with_marshmallow (lib := reference_library)
      (JObject [ ("symbol", JStr "TSLA"); ("date", JStr "2024-01-15");
                 ("open", JStr "200.00"); ("high", JStr "205.50");
                 ("low", JStr "198.00"); ("close", JStr "203.25") ])
      StockSchema
    = Raise (ValidationError errs) /\
    In ("volume", ["Missing data for required field."]) errs.
Proof.
  apply (missing_volume_rejected (lib := reference_library)).
  simpl; intros H.
  repeat (destruct H as [H | H]; [discriminate H|]); exact H.
Defined.

Lemma foreign_object_type_error_witness :
  json_dumps (CustomEncoder_default (lib := reference_library)) (VObject "set")
  = Raise (TypeError "Object of type set is not JSON serializable").
Proof.
  exact (proj1 (proj2 (foreign_object_type_error (lib := reference_library)
                         (VObject "set") eq_refl eq_refl))).
Defined.

Lemma wrong_schema_rejected_witness :
  exists errs,
    deserialize_with_marshmallow (lib := reference_library)
      (JObject [ ("symbol", JStr "AAPL");
                 ("timestamp", JStr "2024-01-15T09:30:00-05:00");
                 ("order", JStr "buy"); ("price", JStr "150.30");
                 ("volume", JInt 100); ("commission", JStr "1.00") ])
      StockSchema
    = Raise (ValidationError errs) /\
    In ("date", ["Missing data for required field."]) errs.
Proof.
  apply (proj1 (wrong_schema_rejected (lib := reference_library) _)).
  intros k; simpl; tauto.
Defined.

Lemma volume_unconstrained_witness :
  exists t',
    schema_roundtrip (lib := reference_library) TradeSchema
      (VTrade (Trade.init (VStr "AAPL")
                 (VDateTime (Cal.mkdatetime 2024 1 15 9 30 0 0 None))
                 (VStr "sell") (VDecimal (decimal "15030" (-2))) (VInt (-100))
                 (VDecimal (decimal "100" (-2)))))
    = Ok (VTrade t') /\
    Trade.volume t' = VInt (-100).
Proof.
  refine (proj2 (proj2 (proj2 (volume_unconstrained (lib := reference_library)
                                 (-100) reference_contract)
                          "AAPL" (Cal.mkdatetime 2024 1 15 9 30 0 0 None) "sell"
                          (decimal "15030" (-2)) (decimal "100" (-2))
                          _ _ _ _)));
    try (repeat split; (reflexivity || discriminate)).
Defined.

(** ** The pipelines run on the samples *)

Example tsla_wire :
  json_dumps (CustomEncoder_default (lib := reference_library)) (VStock tsla)
  = Ok (JObject [ ("__type__", JStr "Stock"); ("symbol", JStr "TSLA");
                  ("date", JStr "2024-01-15"); ("open", JStr "200.00");
                  ("high", JStr "205.50"); ("low", JStr "198.00");
                  ("close", JStr "203.25"); ("volume", JInt 500000) ]) /\
  custom_decoder (lib := reference_library) tsla_dict = Ok (VStock tsla).
Proof. split; reflexivity. Qed.

Example aapl_buy_wire :
  json_dumps (CustomEncoder_default (lib := reference_library)) (VTrade aapl_buy)
  = Ok (JObject [ ("__type__", JStr "Trade"); ("symbol", JStr "AAPL");
                  ("timestamp", JStr "2024-01-15T09:30:00.123456-05:00");
                  ("order", JStr "buy"); ("price", JStr "150.30");
                  ("volume", JInt 100); ("commission", JStr "1.00") ]) /\
  serialize_with_marshmallow (lib := reference_library) (VTrade aapl_buy)
  = Ok (JObject [ ("symbol", JStr "AAPL");
                  ("timestamp", JStr "2024-01-15T09:30:00.123456-05:00");
                  ("order", JStr "buy"); ("price", JStr "150.30");
                  ("volume", JInt 100); ("commission", JStr "1.00") ]).
Proof. split; reflexivity. Qed.

(** Outside the valid records.  A price with a positive exponent keeps its
    form on the tagged path and comes back from the schema path written out
    in full; a NaN price is refused by the schema decoder. *)

Example exponent_in_to_dict :
  lookup (Stock_to_dict (lib := reference_library) (with_low (decimal "1" 3))) "low"
  = Some (VStr "1E+3") /\
  lookup (Stock_to_dict (lib := reference_library) (with_low (decimal "1" (-7)))) "low"
  = Some (VStr "1E-7") /\
  lookup (Stock_to_dict (lib := reference_library) (with_low (decimal "15025" (-2)))) "low"
  = Some (VStr "150.25").
Proof. repeat split; reflexivity. Qed.

Example exponent_on_both_paths :
  tagged_roundtrip (lib := reference_library) (VStock (with_low (decimal "1" 3)))
  = Ok (VStock (with_low (decimal "1" 3))) /\
  schema_roundtrip (lib := reference_library) StockSchema
    (VStock (with_low (decimal "1" 3)))
  = Ok (VStock (with_low (decimal "1000" 0))) /\
  Dec.eq (decimal "1000" 0) (decimal "1" 3) = true.
Proof. repeat split; reflexivity. Qed.

Example nan_on_both_paths :
  tagged_roundtrip (lib := reference_library)
    (VStock (with_low (Dec.mk false "" Dec.Expn)))
  = Ok (VStock (with_low (Dec.mk false "" Dec.Expn))) /\
  schema_roundtrip (lib := reference_library) StockSchema
    (VStock (with_low (Dec.mk false "" Dec.Expn)))
  = Raise (ValidationError
             [("low", ["Special numeric values (nan or infinity) are not permitted."])]).
Proof. split; reflexivity. Qed.

(** * The further properties at sample inputs *)

Lemma with_low_valid : valid_stock (with_low (decimal "1" 3)).
Proof. simpl; repeat split; try reflexivity; discriminate. Qed.

Lemma to_dict_inverse_witness :
  (valid_stock tsla /\
   custom_decoder (lib := reference_library)
     (Stock_to_dict (lib := reference_library) tsla) = Ok (VStock tsla)) /\
  (valid_trade aapl_buy /\
   custom_decoder (lib := reference_library)
     (Trade_to_dict (lib := reference_library) aapl_buy)
   = Ok (VTrade aapl_buy)).
Proof.
  split.
  - split; [exact tsla_valid|].
    exact (proj1 (to_dict_inverse reference_contract) tsla tsla_valid).
  - split; [exact aapl_buy_valid|].
    exact (proj2 (to_dict_inverse reference_contract) aapl_buy aapl_buy_valid).
Defined.

Lemma to_dict_needs_no_encoder_witness :
  exists j,
    json_dumps JSONEncoder_default
      (VDict (Stock_to_dict (lib := reference_library) tsla)) = Ok j /\
    json_dumps (CustomEncoder_default (lib := reference_library)) (VStock tsla)
    = Ok j.
Proof.
  exact (proj1 (to_dict_needs_no_encoder (lib := reference_library)) tsla tsla_valid).
Defined.

Lemma decoder_reads_only_its_keys_witness :
  custom_decoder (lib := reference_library)
    (tsla_dict ++ [("exchange", VStr "NASDAQ")])%list
  = custom_decoder (lib := reference_library) tsla_dict.
Proof.
  apply (decoder_reads_only_its_keys (lib := reference_library)).
  left; split; [reflexivity|].
  intros k Hk; simpl in Hk.
  repeat (destruct Hk as [<- | Hk]; [reflexivity|]); contradiction.
Defined.

Lemma decoder_builds_tagged_kind_witness :
  exists sym d o h l c vol,
    VStock tsla
    = VStock (Stock.init sym (VDate d) (VDecimal o) (VDecimal h)
                         (VDecimal l) (VDecimal c) vol) /\
    lookup tsla_dict "symbol" = Some sym /\ lookup tsla_dict "volume" = Some vol.
Proof.
  exact (proj1 (decoder_builds_tagged_kind (lib := reference_library)
                  tsla_dict (VStock tsla) eq_refl) eq_refl).
Defined.

Lemma non_text_date_type_error_witness :
  custom_decoder (lib := reference_library) (dict_set tsla_dict "date" (VInt 20240115))
  = Raise (TypeError "fromisoformat: argument must be str").
Proof.
  apply (proj1 (non_text_date_type_error (lib := reference_library)
                  (dict_set tsla_dict "date" (VInt 20240115)) (VInt 20240115)
                  ltac:(discriminate)));
    reflexivity.
Defined.

Lemma nested_roundtrip_witness :
  json_tree portfolio /\
  tagged_roundtrip (lib := reference_library) portfolio = Ok portfolio.
Proof.
  assert (T : json_tree portfolio).
  { simpl; repeat split; try reflexivity; try discriminate.
    repeat constructor; simpl; intuition discriminate. }
  split; [exact T|].
  exact (nested_roundtrip (lib := reference_library) reference_contract portfolio T).
Defined.

Lemma every_missing_field_reported_witness :
  exists errs,
    deserialize_with_marshmallow (lib := reference_library)
      (JObject [("symbol", JStr "TSLA"); ("date", JStr "2024-01-15")]) StockSchema
    = Raise (ValidationError errs) /\
    In ("open", ["Missing data for required field."]) errs /\
    In ("volume", ["Missing data for required field."]) errs.
Proof.
  assert (N : forall k, k <> "symbol" -> k <> "date" ->
                ~ In k (map fst [("symbol", @JStr NoFloat "TSLA");
                                 ("date", JStr "2024-01-15")])).
  { intros k H1 H2 H; simpl in H.
    destruct H as [E | [E | []]]; [apply H1 | apply H2]; symmetry; exact E. }
  destruct (proj1 (every_missing_field_reported (lib := reference_library)
                     [("symbol", JStr "TSLA"); ("date", JStr "2024-01-15")])
              "open" ltac:(simpl; tauto)
              (N "open" ltac:(discriminate) ltac:(discriminate)))
    as (errs & E & A).
  exists errs; split; [exact E|]; split; apply A;
    solve [simpl; tauto | apply N; discriminate].
Defined.

Lemma unknown_field_rejected_witness :
  exists errs,
    deserialize_with_marshmallow (lib := reference_library)
      (JObject (tsla_members ++ [("exchange", JStr "NASDAQ")])%list) StockSchema
    = Raise (ValidationError errs) /\
    In ("exchange", ["Unknown field."]) errs.
Proof.
  apply (proj1 (unknown_field_rejected (lib := reference_library)
                  (tsla_members ++ [("exchange", JStr "NASDAQ")])%list "exchange"
                  ltac:(simpl; tauto))).
  simpl; intuition discriminate.
Defined.

Lemma wire_forms_do_not_mix_witness :
  (exists j errs,
     json_dumps (CustomEncoder_default (lib := reference_library)) (VStock tsla)
     = Ok j /\
     deserialize_with_marshmallow (lib := reference_library) j StockSchema
     = Raise (ValidationError errs) /\
     In ("__type__", ["Unknown field."]) errs) /\
  (exists j d,
     serialize_with_marshmallow (lib := reference_library) (VStock tsla) = Ok j /\
     json_loads (custom_decoder (lib := reference_library)) j = Ok (VDict d) /\
     map fst d = Stock_parameters).
Proof.
  exact (proj1 (wire_forms_do_not_mix (lib := reference_library)) tsla tsla_valid).
Defined.

Lemma non_object_json_rejected_witness :
  deserialize_with_marshmallow (lib := reference_library)
    (JArray [JObject tsla_members]) StockSchema
  = Raise (ValidationError [("_schema", ["Invalid input type."])]).
Proof.
  apply (proj1 (non_object_json_rejected (lib := reference_library)
                  (JArray [JObject tsla_members]) ltac:(discriminate))).
Defined.

Lemma schema_malformed_text_rejected_witness :
  exists errs,
    deserialize_with_marshmallow (lib := reference_library)
      (JObject [ ("symbol", JStr "TSLA"); ("date", JStr "2024-01-15");
                 ("open", JStr "200.00"); ("high", JStr "205.50");
                 ("low", JStr "198.00"); ("close", JStr "abc");
                 ("volume", JInt 500000) ]) StockSchema
    = Raise (ValidationError errs) /\
    In ("close", ["Not a valid number."]) errs.
Proof.
  refine (proj1 (proj1 (schema_malformed_text_rejected (lib := reference_library)
                          _ "close" "abc" _ _) eq_refl) _);
    [repeat constructor; simpl; intuition discriminate | simpl; tauto | simpl; tauto].
Defined.

Lemma schema_wrong_type_rejected_witness :
  exists errs,
    deserialize_with_marshmallow (lib := reference_library)
      (JObject [ ("symbol", JStr "TSLA"); ("date", JStr "2024-01-15");
                 ("open", JStr "200.00"); ("high", JStr "205.50");
                 ("low", JStr "198.00"); ("close", JStr "203.25");
                 ("volume", JNull) ]) StockSchema
    = Raise (ValidationError errs) /\
    In ("volume", ["Field may not be null."]) errs.
Proof.
  refine (proj1 (proj1 (schema_wrong_type_rejected (lib := reference_library)
                          _ "volume" _) _) _);
    [repeat constructor; simpl; intuition discriminate | simpl; tauto | simpl; tauto].
Defined.

Lemma schema_prices_positional_witness :
  exists m,
    serialize_with_marshmallow (lib := reference_library)
      (VStock (with_low (decimal "1" 3))) = Ok (JObject m) /\
    exists t, In ("low", JStr t) m /\ Dec.positional t = true.
Proof.
  destruct (proj1 (schema_prices_positional (lib := reference_library))
              (with_low (decimal "1" 3)) with_low_valid) as (m & E & A).
  exists m; split; [exact E|]; apply A; simpl; tauto.
Defined.

Lemma schema_text_is_tagged_text_witness :
  exists m,
    serialize_with_marshmallow (lib := reference_library) (VStock tsla)
    = Ok (JObject m) /\
    json_dumps (CustomEncoder_default (lib := reference_library)) (VStock tsla)
    = Ok (JObject (("__type__", JStr "Stock") :: m)).
Proof.
  exact (proj1 (schema_text_is_tagged_text (lib := reference_library))
           "TSLA" (Cal.mkdate 2024 1 15)
           (decimal "20000" (-2)) (decimal "20550" (-2))
           (decimal "19800" (-2)) (decimal "20325" (-2)) 500000
           tsla_valid eq_refl eq_refl eq_refl eq_refl).
Defined.

Lemma schema_roundtrip_settles_witness :
  exists s',
    schema_roundtrip (lib := reference_library) StockSchema
      (VStock (with_low (decimal "1" 3))) = Ok (VStock s') /\
    valid_stock s' /\ same_stock s' (with_low (decimal "1" 3)) /\
    schema_roundtrip (lib := reference_library) StockSchema (VStock s')
    = Ok (VStock s').
Proof.
  exact (proj1 (schema_roundtrip_settles (lib := reference_library)
                  reference_contract)
           (with_low (decimal "1" 3)) with_low_valid).
Defined.

Lemma special_prices_split_paths_witness :
  tagged_roundtrip (lib := reference_library)
    (VStock (with_low (Dec.mk false "" Dec.Expn)))
  = Ok (VStock (with_low (Dec.mk false "" Dec.Expn))) /\
  exists j,
    serialize_with_marshmallow (lib := reference_library)
      (VStock (with_low (Dec.mk false "" Dec.Expn))) = Ok j /\
    exists errs,
      deserialize_with_marshmallow (lib := reference_library) j StockSchema
      = Raise (ValidationError errs) /\
      In ("low", ["Special numeric values (nan or infinity) are not permitted."])
         errs.
Proof.
  destruct (proj1 (special_prices_split_paths (lib := reference_library)
                     reference_contract)
              "TSLA" (Cal.mkdate 2024 1 15)
              (decimal "20000" (-2)) (decimal "20550" (-2))
              (Dec.mk false "" Dec.Expn) (decimal "20325" (-2)) 500000
              ltac:(repeat split; (reflexivity || discriminate))
              ltac:(repeat split; (reflexivity || discriminate))
              ltac:(repeat split; (reflexivity || discriminate))
              ltac:(repeat split; (reflexivity || discriminate))
              ltac:(repeat split; (reflexivity || discriminate)))
    as (T & j & E & A).
  split; [exact T|]; exists j; split; [exact E|].
  apply (A "low" (Dec.mk false "" Dec.Expn)); [simpl; tauto | reflexivity].
Defined.

Lemma integer_prices_become_decimals_witness :
  tagged_roundtrip (lib := reference_library)
    (VStock (Stock.init (VStr "TSLA") (VDate (Cal.mkdate 2024 1 15))
                        (VInt 200) (VInt 205) (VInt 198) (VInt 203) (VInt 500000)))
  = Ok (VStock (Stock.init (VStr "TSLA") (VDate (Cal.mkdate 2024 1 15))
                           (VDecimal (decimal "200" 0)) (VDecimal (decimal "205" 0))
                           (VDecimal (decimal "198" 0)) (VDecimal (decimal "203" 0))
                           (VInt 500000))).
Proof.
  exact (proj1 (integer_prices_become_decimals (lib := reference_library)
                  reference_contract)
           "TSLA" (Cal.mkdate 2024 1 15) 200 205 198 203 500000
           ltac:(repeat split; (reflexivity || discriminate))).
Defined.

Lemma schema_roundtrip_exact_witness :
  schema_roundtrip (lib := reference_library) StockSchema (VStock tsla)
  = Ok (VStock tsla).
Proof.
  apply (proj1 (schema_roundtrip_exact (lib := reference_library)
                  reference_contract)
           "TSLA" (Cal.mkdate 2024 1 15) 500000
           false "20000" (-2) false "20550" (-2)
           false "19800" (-2) false "20325" (-2));
    try (repeat split; (reflexivity || discriminate)); lia.
Defined.

Lemma schema_decode_well_formed_witness :
  deserialize_with_marshmallow (lib := reference_library)
    (JObject (rev tsla_members)) StockSchema
  = Ok (VStock tsla).
Proof.
  apply (proj1 (schema_decode_well_formed (lib := reference_library)
                  (rev tsla_members) "TSLA" 500000
                  ltac:(repeat constructor; simpl; intuition discriminate)
                  ltac:(simpl; tauto) ltac:(simpl; tauto))
           "2024-01-15" (Cal.mkdate 2024 1 15)
           "200.00" (decimal "20000" (-2)) "205.50" (decimal "20550" (-2))
           "198.00" (decimal "19800" (-2)) "203.25" (decimal "20325" (-2)));
    try reflexivity; try discriminate; simpl; tauto.
Defined.
